(** * rumble: scan-report normalization, storage round trip and latest-scan query

    A shallow embedding of the two programs of the repository:

    - the scanner driver ([main.go]): [scanImageGrype], [scanImageTrivy],
      [grypeOutputToSummary], [trivyOutputToSummary];
    - the query tool ([cmd/testquery/main.go]): the [ImageCveScan] row
      structure, the latest-scan SQL statement and the read/print loops of
      [main].

    Go values are modelled as the code has them: [string] is a sequence of
    bytes, [int] is a 64-bit integer kept in [Z], a slice is a [list], a
    pointer that is either nil or freshly allocated is an [option].  What the
    code calls of Go's standard library ([strings.Split], [json.Unmarshal],
    [json.Compact], [time.Format]) is modelled by executable definitions in
    the modules [strings], [json] and [time]; output written with [fmt] is
    collected in a list of lines, and the messages of [log.Printf], which go
    to standard error, are left out.

    The definitions come first: the Go runtime and library (modules [Go],
    [strings], [time], [json]), the package [pkg/types], the driver ([main]),
    the query tool ([testquery]), then the notions the properties are stated
    in and the sample inputs.  The properties follow. *)

From Stdlib Require Import String Ascii List ZArith Lia Bool DecimalString Permutation Sorted.
Import ListNotations.

Set Warnings "-register-all".

Local Open Scope string_scope.
Local Open Scope Z_scope.

(** ** The Go runtime: results, panics, standard output *)

Module Go.

(** An [int] is 64 bits wide: arithmetic wraps around. *)
Definition int_wrap (z : Z) : Z := (z + 2 ^ 63) mod 2 ^ 64 - 2 ^ 63.
Definition int_add (a b : Z) : Z := int_wrap (a + b).
Definition in_int (z : Z) : bool := (- 2 ^ 63 <=? z) && (z <? 2 ^ 63).

(** A value of type [error]; the code only tests it against nil and prints it. *)
Inductive error : Type :=
| ErrSyntax                         (* *json.SyntaxError *)
| ErrUnmarshalType (what : string)  (* *json.UnmarshalTypeError *)
| ErrOS (msg : string)              (* file system, process execution *)
| ErrInvalidScanner (name : string)
| ErrIterator (msg : string).       (* a failed fetch of the row iterator *)

Inductive result (A : Type) : Type :=
| Ok (a : A)
| Err (e : error).
Arguments Ok {A} a.
Arguments Err {A} e.

Definition rbind {A B} (r : result A) (k : A -> result B) : result B :=
  match r with Ok a => k a | Err e => Err e end.

Definition is_ok {A} (r : result A) : bool :=
  match r with Ok _ => true | Err _ => false end.

(** Run-time panics of the language itself. *)
Inductive runtime_panic : Type :=
| IndexOutOfRange (index : nat) (length : nat).

(** What a call does: it returns, or the goroutine panics and unwinds. *)
Inductive outcome (A : Type) : Type :=
| Returned (a : A)
| Panicked (p : runtime_panic).
Arguments Returned {A} a.
Arguments Panicked {A} p.

(** A computation that writes lines to standard output on its way. *)
Definition stdout := list string.
Definition io (A : Type) : Type := (outcome A * stdout)%type.

Definition ret {A} (a : A) : io A := (Returned a, []).
Definition panic {A} (p : runtime_panic) : io A := (Panicked p, []).
Definition bind {A B} (m : io A) (k : A -> io B) : io B :=
  match m with
  | (Returned a, o) => let (r, o') := k a in (r, (o ++ o')%list)
  | (Panicked p, o) => (Panicked p, o)
  end.
Definition print (line : string) : io unit := (Returned tt, [line]).

(** [l[i]] on a slice. *)
Definition index {A} (l : list A) (i : nat) : io A :=
  match nth_error l i with
  | Some a => ret a
  | None => panic (IndexOutOfRange i (List.length l))
  end.

(** [for _, x := range l { s = body s x }]. *)
Fixpoint range {A S} (body : S -> A -> io S) (l : list A) (s : S) : io S :=
  match l with
  | [] => ret s
  | x :: l' => bind (body s x) (range body l')
  end.

Definition newline : string := String "010"%char EmptyString.

End Go.

Declare Scope go_scope.
Delimit Scope go_scope with go.
Notation "x <- m ;; k" := (Go.bind m (fun x => k))
(at level 61, m at next level, right associativity) : go_scope.
Notation "m ;;; k" := (Go.bind m (fun _ => k))
(at level 61, right associativity) : go_scope.

(** ** Package [strings] *)

Module strings.

(** [strings.Split(s, sep)] for a separator of one byte, the only way the
    code calls it: the pieces of [s] between the occurrences of [sep]. *)
Fixpoint Split (s : string) (sep : ascii) : list string :=
  match s with
  | EmptyString => [EmptyString]
  | String c r =>
      if Ascii.eqb c sep then EmptyString :: Split r sep
      else match Split r sep with
           | piece :: pieces => String c piece :: pieces
           | [] => [String c EmptyString]
           end
  end.

(** [strings.Contains(s, sep)] for a separator of one byte. *)
Fixpoint Contains (s : string) (sep : ascii) : bool :=
  match s with
  | EmptyString => false
  | String c r => (Ascii.eqb c sep || Contains r sep)%bool
  end.

End strings.

(** ** Package [time] *)

Module time.

(** A [time.Time], as [time.Now()] gives it: the nanoseconds since
    1970-01-01T00:00:00Z. *)
Definition Time := Z.

(** [time.Unix(sec, nsec)] *)
Definition Unix (sec nsec : Z) : Time := sec * 1000000000 + nsec.

Definition digits (width : nat) (z : Z) : string :=
  let fix go (n : nat) (z : Z) (acc : string) : string :=
    match n with
    | O => acc
    | S n' => go n' (z / 10) (String (ascii_of_nat (48 + Z.to_nat (z mod 10))) acc)
    end in
  go width z EmptyString.

(** Days since the epoch to (year, month, day) of the proleptic Gregorian
    calendar. *)
Definition civil_of_days (days : Z) : Z * Z * Z :=
  let z := days + 719468 in
  let era := z / 146097 in
  let doe := z - era * 146097 in
  let yoe := (doe - doe / 1460 + doe / 36524 - doe / 146096) / 365 in
  let doy := doe - (365 * yoe + yoe / 4 - yoe / 100) in
  let mp := (5 * doy + 2) / 153 in
  let d := doy - (153 * mp + 2) / 5 + 1 in
  let m := if mp <? 10 then mp + 3 else mp - 9 in
  let y := yoe + era * 400 + (if m <=? 2 then 1 else 0) in
  (y, m, d).

(** [t.UTC().Format("2006-01-02T15:04:05Z")], for years 0 to 9999.  The
    layout has no fraction of a second: the nanoseconds within the second
    are dropped. *)
Definition FormatUTC (t : Time) : string :=
  let unix := t / 1000000000 in
  let days := unix / 86400 in
  let secs := unix mod 86400 in
  let '(y, m, d) := civil_of_days days in
  digits 4 y ++ "-" ++ digits 2 m ++ "-" ++ digits 2 d ++ "T" ++
  digits 2 (secs / 3600) ++ ":" ++ digits 2 (secs / 60 mod 60) ++ ":" ++
  digits 2 (secs mod 60) ++ "Z".

End time.

(** ** Package [encoding/json]

  The scanner is the state machine of Go's [scanner.go], one byte per step,
  extended to build the document tree as it goes (Go decodes from the same
  scan).  [Compact] is driven by the same machine, as in [indent.go].
  Decoding into Go values follows [decode.go]: a document value is decoded
  INTO an existing value, object members are applied in the order they
  appear, and a member is matched to a struct field by its exact name first
  and by case folding second. *)

Module json.
Import Go.


Inductive value : Type :=
| JNull
| JBool (b : bool)
| JNumber (literal : string)
| JString (s : string)
| JArray (elems : list value)
| JObject (members : list (string * value)).

(** *** Bytes *)

Definition byte_in (lo hi : nat) (c : ascii) : bool :=
  let n := nat_of_ascii c in (Nat.leb lo n && Nat.leb n hi)%bool.

Definition isSpace (c : ascii) : bool :=
  (Ascii.eqb c " " || Ascii.eqb c "009" || Ascii.eqb c "013" || Ascii.eqb c "010")%bool%char.
Definition is_digit (c : ascii) : bool := byte_in 48 57 c.
Definition is_digit19 (c : ascii) : bool := byte_in 49 57 c.
Definition is_hex (c : ascii) : bool :=
  (byte_in 48 57 c || byte_in 97 102 c || byte_in 65 70 c)%bool.

Definition hex_val (c : ascii) : Z :=
  let n := Z.of_nat (nat_of_ascii c) in
  if byte_in 48 57 c then n - 48
  else if byte_in 97 102 c then n - 87
  else n - 55.

Definition byte_of_Z (z : Z) : ascii := ascii_of_nat (Z.to_nat z).

Fixpoint rev_onto (s acc : string) : string :=
  match s with
  | EmptyString => acc
  | String c r => rev_onto r (String c acc)
  end.
Definition string_rev (s : string) : string := rev_onto s EmptyString.

(** *** Unquoting a string literal ([unquoteBytes]) *)

(** [utf8.EncodeRune]; surrogates and values past U+10FFFF become U+FFFD. *)
Definition replacement : string :=
  String (byte_of_Z 239) (String (byte_of_Z 191) (String (byte_of_Z 189) EmptyString)).

Definition encode_rune (r : Z) : string :=
  if r <? 128 then String (byte_of_Z r) EmptyString
  else if r <? 2048 then
    String (byte_of_Z (192 + r / 64)) (String (byte_of_Z (128 + r mod 64)) EmptyString)
  else if ((55296 <=? r) && (r <=? 57343)) || (1114111 <? r) then replacement
  else if r <? 65536 then
    String (byte_of_Z (224 + r / 4096))
      (String (byte_of_Z (128 + r / 64 mod 64))
         (String (byte_of_Z (128 + r mod 64)) EmptyString))
  else
    String (byte_of_Z (240 + r / 262144))
      (String (byte_of_Z (128 + r / 4096 mod 64))
         (String (byte_of_Z (128 + r / 64 mod 64))
            (String (byte_of_Z (128 + r mod 64)) EmptyString))).

Definition u4 (h1 h2 h3 h4 : ascii) : Z :=
  ((hex_val h1 * 16 + hex_val h2) * 16 + hex_val h3) * 16 + hex_val h4.

Definition is_high_surrogate (r : Z) : bool := (55296 <=? r) && (r <? 56320).
Definition is_low_surrogate (r : Z) : bool := (56320 <=? r) && (r <? 57344).
Definition is_surrogate (r : Z) : bool := (55296 <=? r) && (r <? 57344).

(** The character an escape of one letter stands for. *)
Definition simple_escape (c : ascii) : ascii :=
  (if Ascii.eqb c "b" then "008"
   else if Ascii.eqb c "f" then "012"
   else if Ascii.eqb c "n" then "010"
   else if Ascii.eqb c "r" then "013"
   else if Ascii.eqb c "t" then "009"
   else c)%char.

(** The number of bytes (2, 3 or 4) of the well-formed UTF-8 sequence that
    starts with [c1 c2 c3 c4], or 0 when there is none ([utf8.DecodeRune]
    returning [RuneError] with width 1). *)
Definition cont (c : ascii) : bool := byte_in 128 191 c.
Definition utf8_width (c1 c2 c3 c4 : option ascii) : nat :=
  match c1, c2 with
  | Some b1, Some b2 =>
      if (byte_in 194 223 b1 && cont b2)%bool then 2%nat
      else
        let second3 :=
          if byte_in 224 224 b1 then byte_in 160 191 b2
          else if byte_in 237 237 b1 then byte_in 128 159 b2
          else (byte_in 225 239 b1 && cont b2)%bool in
        let second4 :=
          if byte_in 240 240 b1 then byte_in 144 191 b2
          else if byte_in 244 244 b1 then byte_in 128 143 b2
          else (byte_in 241 243 b1 && cont b2)%bool in
        match c3 with
        | Some b3 =>
            if (second3 && cont b3)%bool then 3%nat
            else match c4 with
                 | Some b4 => if (second4 && cont b3 && cont b4)%bool then 4%nat else 0%nat
                 | None => 0%nat
                 end
        | None => 0%nat
        end
  | _, _ => 0%nat
  end.

Definition head (s : string) : option ascii :=
  match s with EmptyString => None | String c _ => Some c end.
Definition tail (s : string) : string :=
  match s with EmptyString => EmptyString | String _ r => r end.

(** [unquote raw]: the string a literal denotes, [raw] being the bytes
    between its quotes, already accepted by the scanner.  Escapes are
    replaced, a surrogate pair of [\u] escapes is combined, a lone surrogate
    and every byte that is not part of well-formed UTF-8 become U+FFFD. *)
Fixpoint unquote (raw : string) : string :=
  match raw with
  | EmptyString => EmptyString
  | String c r =>
      if Ascii.eqb c "\" then
        match r with
        | String e r1 =>
            if Ascii.eqb e "u" then
              match r1 with
              | String h1 (String h2 (String h3 (String h4 r5))) =>
                  let rr := u4 h1 h2 h3 h4 in
                  if is_surrogate rr then
                    match r5 with
                    | String b (String u (String g1 (String g2 (String g3 (String g4 r11))))) =>
                        let rr1 := u4 g1 g2 g3 g4 in
                        if (Ascii.eqb b "\" && Ascii.eqb u "u" && is_hex g1 && is_hex g2
                            && is_hex g3 && is_hex g4
                            && is_high_surrogate rr && is_low_surrogate rr1)%bool
                        then encode_rune (65536 + (rr - 55296) * 1024 + (rr1 - 56320))
                               ++ unquote r11
                        else replacement ++ unquote r5
                    | _ => replacement ++ unquote r5
                    end
                  else encode_rune rr ++ unquote r5
              | _ => EmptyString
              end
            else String (simple_escape e) (unquote r1)
        | EmptyString => EmptyString
        end
      else if byte_in 0 127 c then String c (unquote r)
      else
        match r with
        | String c2 r2 =>
            match utf8_width (Some c) (Some c2) (head r2) (head (tail r2)) with
            | 2%nat => String c (String c2 (unquote r2))
            | 3%nat => match r2 with
                       | String c3 r3 => String c (String c2 (String c3 (unquote r3)))
                       | EmptyString => replacement
                       end
            | 4%nat => match r2 with
                       | String c3 (String c4 r4) =>
                           String c (String c2 (String c3 (String c4 (unquote r4))))
                       | _ => replacement
                       end
            | _ => replacement ++ unquote r
            end
        | EmptyString => replacement
        end
  end.

(** *** The scanner *)

(** What the scanner is inside of ([parseState]), with the part of the
    enclosing array or object that is already built (latest first). *)
Inductive frame : Type :=
| ArrayValue (acc : list value)
| ObjectKey (acc : list (string * value))
| ObjectColon (acc : list (string * value)) (key : string)
| ObjectValue (acc : list (string * value)) (key : string)
| ObjectMember (acc : list (string * value)).

(** The states of a number literal ([stateNeg], [state0], [state1], ...). *)
Inductive numstate : Type :=
| NNeg | N0 | N1 | NDot | NDot0 | NE | NESign | NE0.

(** The step function the scanner is in ([scanner.step]). *)
Inductive mode : Type :=
| BeginValue
| BeginValueOrEmpty
| BeginStringOrEmpty
| BeginString
| EndValue
| EndTop (v : value)
| InString (raw : string)
| InStringEsc (raw : string)
| InStringEscU (seen : nat) (raw : string)
| InNumber (ns : numstate) (lit : string)
| InLiteral (rest : string) (v : value).

Record scanner : Type := mkScanner { stack : list frame; step_mode : mode }.

Definition maxNestingDepth : Z := 10000.

Definition push (f : frame) (stk : list frame) (m : mode) : option scanner :=
  if Z.of_nat (List.length stk) <? maxNestingDepth
  then Some (mkScanner (f :: stk) m) else None.

(** A value is complete: hand it to what encloses it. *)
Definition emit (stk : list frame) (v : value) : option scanner :=
  match stk with
  | [] => Some (mkScanner [] (EndTop v))
  | ArrayValue acc :: up => Some (mkScanner (ArrayValue (v :: acc) :: up) EndValue)
  | ObjectValue acc k :: up => Some (mkScanner (ObjectMember ((k, v) :: acc) :: up) EndValue)
  | ObjectKey acc :: up =>
      match v with
      | JString k => Some (mkScanner (ObjectColon acc k :: up) EndValue)
      | _ => None
      end
  | _ => None
  end.

(** [stateBeginValue] *)
Definition begin_value (stk : list frame) (c : ascii) : option scanner :=
  (if isSpace c then Some (mkScanner stk BeginValue)
   else if Ascii.eqb c "{" then push (ObjectKey []) stk BeginStringOrEmpty
   else if Ascii.eqb c "[" then push (ArrayValue []) stk BeginValueOrEmpty
   else if Ascii.eqb c "034" then Some (mkScanner stk (InString EmptyString))
   else if Ascii.eqb c "-" then Some (mkScanner stk (InNumber NNeg (String c EmptyString)))
   else if Ascii.eqb c "0" then Some (mkScanner stk (InNumber N0 (String c EmptyString)))
   else if Ascii.eqb c "t" then Some (mkScanner stk (InLiteral "rue" (JBool true)))
   else if Ascii.eqb c "f" then Some (mkScanner stk (InLiteral "alse" (JBool false)))
   else if Ascii.eqb c "n" then Some (mkScanner stk (InLiteral "ull" JNull))
   else if is_digit19 c then Some (mkScanner stk (InNumber N1 (String c EmptyString)))
   else None)%char.

(** [stateEndValue] and [stateEndTop] *)
Definition end_value (stk : list frame) (c : ascii) : option scanner :=
  (match stk with
   | [] => None
   | top :: up =>
       if isSpace c then Some (mkScanner stk EndValue)
       else
         match top with
         | ObjectColon acc k =>
             if Ascii.eqb c ":" then Some (mkScanner (ObjectValue acc k :: up) BeginValue)
             else None
         | ObjectMember acc =>
             if Ascii.eqb c "," then Some (mkScanner (ObjectKey acc :: up) BeginString)
             else if Ascii.eqb c "}" then emit up (JObject (rev acc))
             else None
         | ArrayValue acc =>
             if Ascii.eqb c "," then Some (mkScanner stk BeginValue)
             else if Ascii.eqb c "]" then emit up (JArray (rev acc))
             else None
         | _ => None
         end
   end)%char.

Definition end_top (s : scanner) (c : ascii) : option scanner :=
  if isSpace c then Some s else None.

(** After a complete value the scanner is in [stateEndValue], or in
    [stateEndTop] when nothing encloses the value. *)
Definition after_value (s : scanner) (c : ascii) : option scanner :=
  match step_mode s with
  | EndTop _ => end_top s c
  | _ => end_value (stack s) c
  end.

(** A number literal ends at the first byte that cannot continue it; that
    byte is then read in [stateEndValue]. *)
Definition end_number (stk : list frame) (lit : string) (c : ascii) : option scanner :=
  match emit stk (JNumber (string_rev lit)) with
  | Some s => after_value s c
  | None => None
  end.

Definition number (stk : list frame) (ns : numstate) (lit : string) (c : ascii)
  : option scanner :=
  let continue ns' := Some (mkScanner stk (InNumber ns' (String c lit))) in
  (match ns with
   | NNeg => if Ascii.eqb c "0" then continue N0
             else if is_digit19 c then continue N1 else None
   | N1 => if is_digit c then continue N1
           else if Ascii.eqb c "." then continue NDot
           else if (Ascii.eqb c "e" || Ascii.eqb c "E")%bool then continue NE
           else end_number stk lit c
   | N0 => if Ascii.eqb c "." then continue NDot
           else if (Ascii.eqb c "e" || Ascii.eqb c "E")%bool then continue NE
           else end_number stk lit c
   | NDot => if is_digit c then continue NDot0 else None
   | NDot0 => if is_digit c then continue NDot0
              else if (Ascii.eqb c "e" || Ascii.eqb c "E")%bool then continue NE
              else end_number stk lit c
   | NE => if (Ascii.eqb c "+" || Ascii.eqb c "-")%bool then continue NESign
           else if is_digit c then continue NE0 else None
   | NESign => if is_digit c then continue NE0 else None
   | NE0 => if is_digit c then continue NE0 else end_number stk lit c
   end)%char.

(** One byte of input ([scanner.step]). *)
Definition step (s : scanner) (c : ascii) : option scanner :=
  let stk := stack s in
  (match step_mode s with
   | BeginValue => begin_value stk c
   | BeginValueOrEmpty =>
       if isSpace c then Some s
       else if Ascii.eqb c "]" then
         match stk with
         | ArrayValue acc :: up => emit up (JArray (rev acc))
         | _ => None
         end
       else begin_value stk c
   | BeginStringOrEmpty =>
       if isSpace c then Some s
       else if Ascii.eqb c "}" then
         match stk with
         | ObjectKey acc :: up => emit up (JObject (rev acc))
         | _ => None
         end
       else if Ascii.eqb c "034" then Some (mkScanner stk (InString EmptyString))
       else None
   | BeginString =>
       if isSpace c then Some s
       else if Ascii.eqb c "034" then Some (mkScanner stk (InString EmptyString))
       else None
   | EndValue => end_value stk c
   | EndTop _ => end_top s c
   | InString raw =>
       if Ascii.eqb c "034" then emit stk (JString (unquote (string_rev raw)))
       else if Ascii.eqb c "\" then Some (mkScanner stk (InStringEsc (String c raw)))
       else if byte_in 0 31 c then None
       else Some (mkScanner stk (InString (String c raw)))
   | InStringEsc raw =>
       if (Ascii.eqb c "b" || Ascii.eqb c "f" || Ascii.eqb c "n" || Ascii.eqb c "r"
           || Ascii.eqb c "t" || Ascii.eqb c "\" || Ascii.eqb c "/" || Ascii.eqb c "034")%bool
       then Some (mkScanner stk (InString (String c raw)))
       else if Ascii.eqb c "u" then Some (mkScanner stk (InStringEscU 0 (String c raw)))
       else None
   | InStringEscU seen raw =>
       if is_hex c then
         Some (mkScanner stk (if Nat.leb 3 seen then InString (String c raw)
                              else InStringEscU (S seen) (String c raw)))
       else None
   | InNumber ns lit => number stk ns lit c
   | InLiteral rest v =>
       match rest with
       | String e rest' =>
           if Ascii.eqb c e then
             match rest' with
             | EmptyString => emit stk v
             | _ => Some (mkScanner stk (InLiteral rest' v))
             end
           else None
       | EmptyString => None
       end
   end)%char.

Definition init : scanner := mkScanner [] BeginValue.

(** [scanner.eof]: a number at the very end is closed as if by a space. *)
Definition eof (s : scanner) : option value :=
  match step_mode s with
  | EndTop v => Some v
  | _ => match step s " "%char with
         | Some (mkScanner _ (EndTop v)) => Some v
         | _ => None
         end
  end.

Fixpoint run (s : scanner) (src : string) : option value :=
  match src with
  | EmptyString => eof s
  | String c r => match step s c with
                  | Some s' => run s' r
                  | None => None
                  end
  end.

(** The document a text denotes; [None] is a [SyntaxError] ([checkValid]). *)
Definition parse (src : string) : option value := run init src.

(** *** [json.Compact] *)

(** The step functions that answer [scanSkipSpace] or [scanEnd] to a space:
    those between values, and those of a number, which the space ends.
    Inside a string a space is content; inside a literal it is an error. *)
Definition between_values (m : mode) : bool :=
  match m with
  | BeginValue | BeginValueOrEmpty | BeginStringOrEmpty | BeginString
  | EndValue | EndTop _ | InNumber _ _ => true
  | _ => false
  end.

(** The bytes [Compact] leaves out. *)
Definition skipped (s : scanner) (c : ascii) : bool :=
  (isSpace c && between_values (step_mode s))%bool.

Fixpoint compact (s : scanner) (src : string) : option string :=
  match src with
  | EmptyString => match eof s with Some _ => Some EmptyString | None => None end
  | String c r =>
      match step s c with
      | Some s' =>
          match compact s' r with
          | Some out => Some (if skipped s c then out else String c out)
          | None => None
          end
      | None => None
      end
  end.

(** [json.Compact(dst, src)] on an empty buffer [dst]: the text without its
    insignificant space, or an error when [src] is not a JSON text. *)
Definition Compact (src : string) : result string :=
  match compact init src with
  | Some out => Ok out
  | None => Err ErrSyntax
  end.

(** *** Decoding into Go values *)

(** A decoder stores a document value into an existing Go value. *)
Definition decoder (T : Type) : Type := T -> value -> result T.

Definition type_error {T} (what : string) : result T := Err (ErrUnmarshalType what).

Definition dec_string : decoder string :=
  fun old j =>
    match j with
    | JNull => Ok old
    | JString s => Ok s
    | _ => type_error "string"
    end.

(** [strconv.ParseInt(lit, 10, 64)] on a number literal. *)
Definition all_digits (s : string) : bool :=
  forallb is_digit (list_ascii_of_string s).
Definition digits_value (s : string) : Z :=
  fold_left (fun acc c => acc * 10 + (Z.of_nat (nat_of_ascii c) - 48))
    (list_ascii_of_string s) 0.
Definition ParseInt (lit : string) : option Z :=
  let '(neg, ds) := match lit with
                    | String c r => if Ascii.eqb c "-" then (true, r) else (false, lit)
                    | EmptyString => (false, lit)
                    end in
  if (negb (String.eqb ds EmptyString) && all_digits ds)%bool then
    let n := if neg then - digits_value ds else digits_value ds in
    if in_int n then Some n else None
  else None.

Definition dec_int : decoder Z :=
  fun old j =>
    match j with
    | JNull => Ok old
    | JNumber lit => match ParseInt lit with
                     | Some n => Ok n
                     | None => type_error "int"
                     end
    | _ => type_error "int"
    end.

(** A pointer: [null] makes it nil, anything else is decoded into what it
    points to, after allocating a zero value if it is nil. *)
Definition dec_ptr {T} (zero : T) (d : decoder T) : decoder (option T) :=
  fun old j =>
    match j with
    | JNull => Ok None
    | _ => rbind (d (match old with Some t => t | None => zero end) j)
                 (fun t => Ok (Some t))
    end.

(** A slice: element [i] of the array is decoded into element [i] of the
    slice when it has one and into a zero value otherwise; the slice ends
    with the array.  (Go also keeps what an earlier, longer decode left
    past the length of the slice; a document has to repeat a key three
    times to reach it, and it is not modelled.) *)
Fixpoint dec_elems {T} (zero : T) (d : decoder T) (old : list T) (elems : list value)
  : result (list T) :=
  match elems with
  | [] => Ok []
  | e :: elems' =>
      rbind (d (match old with t :: _ => t | [] => zero end) e)
        (fun t => rbind (dec_elems zero d (List.tl old) elems')
                    (fun ts => Ok (t :: ts)))
  end.

Definition dec_slice {T} (zero : T) (d : decoder T) : decoder (list T) :=
  fun old j =>
    match j with
    | JNull => Ok []
    | JArray elems => dec_elems zero d old elems
    | _ => type_error "slice"
    end.

(** Decoding into one field of a struct. *)
Definition field {T A} (get : T -> A) (set : A -> T -> T) (d : decoder A) : decoder T :=
  fun t j => rbind (d (get t) j) (fun a => Ok (set a t)).

(** Case folding of names ([foldName]): ASCII letters to upper case, and the
    two letters outside ASCII that fold to an ASCII letter, U+017F (long s)
    and U+212A (Kelvin sign). *)
Fixpoint foldName (s : string) : string :=
  match s with
  | EmptyString => EmptyString
  | String c r =>
      if byte_in 97 122 c then String (ascii_of_nat (nat_of_ascii c - 32)) (foldName r)
      else
        match r with
        | String c2 r2 =>
            if (byte_in 197 197 c && byte_in 191 191 c2)%bool then String "S" (foldName r2)
            else
              match r2 with
              | String c3 r3 =>
                  if (byte_in 226 226 c && byte_in 132 132 c2 && byte_in 170 170 c3)%bool
                  then String "K" (foldName r3)
                  else String c (foldName r)
              | EmptyString => String c (foldName r)
              end
        | EmptyString => String c (foldName r)
        end
  end.

(** A struct type, as far as decoding goes: the JSON name of each exported
    field with the decoder that stores into that field. *)
Definition fields (T : Type) : Type := list (string * decoder T).

(** The field an object key selects: the one of that very name, or else
    the first whose name is equal to it up to case. *)
Definition find_field {T} (fs : fields T) (key : string) : option (decoder T) :=
  match find (fun f => String.eqb (fst f) key) fs with
  | Some f => Some (snd f)
  | None =>
      match find (fun f => String.eqb (foldName (fst f)) (foldName key)) fs with
      | Some f => Some (snd f)
      | None => None
      end
  end.

Fixpoint dec_members {T} (fs : fields T) (t : T) (members : list (string * value))
  : result T :=
  match members with
  | [] => Ok t
  | (k, v) :: members' =>
      match find_field fs k with
      | Some d => rbind (d t v) (fun t' => dec_members fs t' members')
      | None => dec_members fs t members'
      end
  end.

Definition dec_struct {T} (fs : fields T) : decoder T :=
  fun old j =>
    match j with
    | JNull => Ok old
    | JObject members => dec_members fs old members
    | _ => type_error "struct"
    end.

(** [json.Unmarshal(data, &target)]. *)
Definition Unmarshal {T} (d : decoder T) (data : string) (target : T) : result T :=
  match parse data with
  | Some j => d target j
  | None => Err ErrSyntax
  end.

(** Sample documents are written with ['] for the quotation mark. *)
Fixpoint text (s : string) : string :=
  match s with
  | EmptyString => EmptyString
  | String c r => String (if Ascii.eqb c "'" then "034"%char else c) (text r)
  end.

End json.

(** ** Package [pkg/types]

    Modelled from the spec: the package [pkg/types] of the repository
    ([ImageScanSummary], [GrypeScanOutput], [TrivyScanOutput],
    [TrivyVersionOutput], [Vuln], [ExtractVulns]) is not among the sources.
    The structures have the fields [main.go] reads and writes, under the names
    it uses; the vulnerability record and its extraction follow sections 3 and
    4.3 of the specification; the JSON names are those of the two scanners'
    report formats. *)

Module types.
Import Go.

(** Modelled from the spec: [types.ImageScanSummary], the canonical summary of one
    scan and one row of the scan table (section 3), with the field names of [main.go]. *)
Module ImageScanSummary.
Record t : Type := mk {
  ID : string;
  Image : string;
  Digest : string;
  Scanner : string;
  ScannerVersion : string;
  ScannerDbVersion : string;
  Time : string;
  Created : string;
  Success : bool;
  LowCveCount : Z;
  MedCveCount : Z;
  HighCveCount : Z;
  CritCveCount : Z;
  NegligibleCveCount : Z;
  UnknownCveCount : Z;
  TotCveCount : Z;
  RawGrypeJSON : string
}.
Definition zero : t := mk EmptyString EmptyString EmptyString EmptyString EmptyString
  EmptyString EmptyString EmptyString false 0 0 0 0 0 0 0 EmptyString.
Definition set_ID (v : string) (s : t) : t := mk v (Image s) (Digest s) (Scanner s)
  (ScannerVersion s) (ScannerDbVersion s) (Time s) (Created s) (Success s)
  (LowCveCount s) (MedCveCount s) (HighCveCount s) (CritCveCount s)
  (NegligibleCveCount s) (UnknownCveCount s) (TotCveCount s) (RawGrypeJSON s).
Definition set_Image (v : string) (s : t) : t := mk (ID s) v (Digest s) (Scanner s)
  (ScannerVersion s) (ScannerDbVersion s) (Time s) (Created s) (Success s)
  (LowCveCount s) (MedCveCount s) (HighCveCount s) (CritCveCount s)
  (NegligibleCveCount s) (UnknownCveCount s) (TotCveCount s) (RawGrypeJSON s).
Definition set_Digest (v : string) (s : t) : t := mk (ID s) (Image s) v (Scanner s)
  (ScannerVersion s) (ScannerDbVersion s) (Time s) (Created s) (Success s)
  (LowCveCount s) (MedCveCount s) (HighCveCount s) (CritCveCount s)
  (NegligibleCveCount s) (UnknownCveCount s) (TotCveCount s) (RawGrypeJSON s).
Definition set_Scanner (v : string) (s : t) : t := mk (ID s) (Image s) (Digest s) v
  (ScannerVersion s) (ScannerDbVersion s) (Time s) (Created s) (Success s)
  (LowCveCount s) (MedCveCount s) (HighCveCount s) (CritCveCount s)
  (NegligibleCveCount s) (UnknownCveCount s) (TotCveCount s) (RawGrypeJSON s).
Definition set_ScannerVersion (v : string) (s : t) : t := mk (ID s) (Image s) (Digest s)
  (Scanner s) v (ScannerDbVersion s) (Time s) (Created s) (Success s) (LowCveCount s)
  (MedCveCount s) (HighCveCount s) (CritCveCount s) (NegligibleCveCount s)
  (UnknownCveCount s) (TotCveCount s) (RawGrypeJSON s).
Definition set_ScannerDbVersion (v : string) (s : t) : t := mk (ID s) (Image s)
  (Digest s) (Scanner s) (ScannerVersion s) v (Time s) (Created s) (Success s)
  (LowCveCount s) (MedCveCount s) (HighCveCount s) (CritCveCount s)
  (NegligibleCveCount s) (UnknownCveCount s) (TotCveCount s) (RawGrypeJSON s).
Definition set_Time (v : string) (s : t) : t := mk (ID s) (Image s) (Digest s)
  (Scanner s) (ScannerVersion s) (ScannerDbVersion s) v (Created s) (Success s)
  (LowCveCount s) (MedCveCount s) (HighCveCount s) (CritCveCount s)
  (NegligibleCveCount s) (UnknownCveCount s) (TotCveCount s) (RawGrypeJSON s).
Definition set_Created (v : string) (s : t) : t := mk (ID s) (Image s) (Digest s)
  (Scanner s) (ScannerVersion s) (ScannerDbVersion s) (Time s) v (Success s)
  (LowCveCount s) (MedCveCount s) (HighCveCount s) (CritCveCount s)
  (NegligibleCveCount s) (UnknownCveCount s) (TotCveCount s) (RawGrypeJSON s).
Definition set_Success (v : bool) (s : t) : t := mk (ID s) (Image s) (Digest s)
  (Scanner s) (ScannerVersion s) (ScannerDbVersion s) (Time s) (Created s) v
  (LowCveCount s) (MedCveCount s) (HighCveCount s) (CritCveCount s)
  (NegligibleCveCount s) (UnknownCveCount s) (TotCveCount s) (RawGrypeJSON s).
Definition set_LowCveCount (v : Z) (s : t) : t := mk (ID s) (Image s) (Digest s)
  (Scanner s) (ScannerVersion s) (ScannerDbVersion s) (Time s) (Created s) (Success s) v
  (MedCveCount s) (HighCveCount s) (CritCveCount s) (NegligibleCveCount s)
  (UnknownCveCount s) (TotCveCount s) (RawGrypeJSON s).
Definition set_MedCveCount (v : Z) (s : t) : t := mk (ID s) (Image s) (Digest s)
  (Scanner s) (ScannerVersion s) (ScannerDbVersion s) (Time s) (Created s) (Success s)
  (LowCveCount s) v (HighCveCount s) (CritCveCount s) (NegligibleCveCount s)
  (UnknownCveCount s) (TotCveCount s) (RawGrypeJSON s).
Definition set_HighCveCount (v : Z) (s : t) : t := mk (ID s) (Image s) (Digest s)
  (Scanner s) (ScannerVersion s) (ScannerDbVersion s) (Time s) (Created s) (Success s)
  (LowCveCount s) (MedCveCount s) v (CritCveCount s) (NegligibleCveCount s)
  (UnknownCveCount s) (TotCveCount s) (RawGrypeJSON s).
Definition set_CritCveCount (v : Z) (s : t) : t := mk (ID s) (Image s) (Digest s)
  (Scanner s) (ScannerVersion s) (ScannerDbVersion s) (Time s) (Created s) (Success s)
  (LowCveCount s) (MedCveCount s) (HighCveCount s) v (NegligibleCveCount s)
  (UnknownCveCount s) (TotCveCount s) (RawGrypeJSON s).
Definition set_NegligibleCveCount (v : Z) (s : t) : t := mk (ID s) (Image s) (Digest s)
  (Scanner s) (ScannerVersion s) (ScannerDbVersion s) (Time s) (Created s) (Success s)
  (LowCveCount s) (MedCveCount s) (HighCveCount s) (CritCveCount s) v
  (UnknownCveCount s) (TotCveCount s) (RawGrypeJSON s).
Definition set_UnknownCveCount (v : Z) (s : t) : t := mk (ID s) (Image s) (Digest s)
  (Scanner s) (ScannerVersion s) (ScannerDbVersion s) (Time s) (Created s) (Success s)
  (LowCveCount s) (MedCveCount s) (HighCveCount s) (CritCveCount s)
  (NegligibleCveCount s) v (TotCveCount s) (RawGrypeJSON s).
Definition set_TotCveCount (v : Z) (s : t) : t := mk (ID s) (Image s) (Digest s)
  (Scanner s) (ScannerVersion s) (ScannerDbVersion s) (Time s) (Created s) (Success s)
  (LowCveCount s) (MedCveCount s) (HighCveCount s) (CritCveCount s)
  (NegligibleCveCount s) (UnknownCveCount s) v (RawGrypeJSON s).
Definition set_RawGrypeJSON (v : string) (s : t) : t := mk (ID s) (Image s) (Digest s)
  (Scanner s) (ScannerVersion s) (ScannerDbVersion s) (Time s) (Created s) (Success s)
  (LowCveCount s) (MedCveCount s) (HighCveCount s) (CritCveCount s)
  (NegligibleCveCount s) (UnknownCveCount s) (TotCveCount s) v.
End ImageScanSummary.

(** *** The report of grype *)

(** Modelled from the spec: a structure of [pkg/types] that decodes a part of the grype
    report; the fields are those [main.go] reads and section 4.3 lists. *)
Module GrypeDb.
Record t : Type := mk {
  Checksum : string
}.
Definition zero : t := mk EmptyString.
Definition set_Checksum (v : string) (s : t) : t := mk v.
End GrypeDb.

(** Modelled from the spec: a structure of [pkg/types] that decodes a part of the grype
    report; the fields are those [main.go] reads and section 4.3 lists. *)
Module GrypeDescriptor.
Record t : Type := mk {
  Version : string;
  Db : GrypeDb.t
}.
Definition zero : t := mk EmptyString GrypeDb.zero.
Definition set_Version (v : string) (s : t) : t := mk v (Db s).
Definition set_Db (v : GrypeDb.t) (s : t) : t := mk (Version s) v.
End GrypeDescriptor.

(** Modelled from the spec: a structure of [pkg/types] that decodes a part of the grype
    report; the fields are those [main.go] reads and section 4.3 lists. *)
Module GrypeTarget.
Record t : Type := mk {
  RepoDigests : list string
}.
Definition zero : t := mk [].
Definition set_RepoDigests (v : list string) (s : t) : t := mk v.
End GrypeTarget.

(** Modelled from the spec: a structure of [pkg/types] that decodes a part of the grype
    report; the fields are those [main.go] reads and section 4.3 lists. *)
Module GrypeSource.
Record t : Type := mk {
  Target : GrypeTarget.t
}.
Definition zero : t := mk GrypeTarget.zero.
Definition set_Target (v : GrypeTarget.t) (s : t) : t := mk v.
End GrypeSource.

(** Modelled from the spec: a structure of [pkg/types] that decodes a part of the grype
    report; the fields are those [main.go] reads and section 4.3 lists. *)
Module GrypeFix.
Record t : Type := mk {
  Versions : list string;
  State : string
}.
Definition zero : t := mk [] EmptyString.
Definition set_Versions (v : list string) (s : t) : t := mk v (State s).
Definition set_State (v : string) (s : t) : t := mk (Versions s) v.
End GrypeFix.

(** Modelled from the spec: a structure of [pkg/types] that decodes a part of the grype
    report; the fields are those [main.go] reads and section 4.3 lists. *)
Module GrypeVulnerability.
Record t : Type := mk {
  ID : string;
  DataSource : string;
  Severity : string;
  Fix : GrypeFix.t
}.
Definition zero : t := mk EmptyString EmptyString EmptyString GrypeFix.zero.
Definition set_ID (v : string) (s : t) : t := mk v (DataSource s) (Severity s) (Fix s).
Definition set_DataSource (v : string) (s : t) : t := mk (ID s) v (Severity s) (Fix s).
Definition set_Severity (v : string) (s : t) : t := mk (ID s) (DataSource s) v (Fix s).
Definition set_Fix (v : GrypeFix.t) (s : t) : t := mk (ID s) (DataSource s) (Severity s)
  v.
End GrypeVulnerability.

(** Modelled from the spec: a structure of [pkg/types] that decodes a part of the grype
    report; the fields are those [main.go] reads and section 4.3 lists. *)
Module GrypeArtifact.
Record t : Type := mk {
  Name : string;
  Version : string;
  Type_ : string
}.
Definition zero : t := mk EmptyString EmptyString EmptyString.
Definition set_Name (v : string) (s : t) : t := mk v (Version s) (Type_ s).
Definition set_Version (v : string) (s : t) : t := mk (Name s) v (Type_ s).
Definition set_Type_ (v : string) (s : t) : t := mk (Name s) (Version s) v.
End GrypeArtifact.

(** Modelled from the spec: a structure of [pkg/types] that decodes a part of the grype
    report; the fields are those [main.go] reads and section 4.3 lists. *)
Module GrypeMatch.
Record t : Type := mk {
  Vulnerability : GrypeVulnerability.t;
  Artifact : GrypeArtifact.t
}.
Definition zero : t := mk GrypeVulnerability.zero GrypeArtifact.zero.
Definition set_Vulnerability (v : GrypeVulnerability.t) (s : t) : t := mk v (Artifact s).
Definition set_Artifact (v : GrypeArtifact.t) (s : t) : t := mk (Vulnerability s) v.
End GrypeMatch.

(** Modelled from the spec: a structure of [pkg/types] that decodes a part of the grype
    report; the fields are those [main.go] reads and section 4.3 lists. *)
Module GrypeScanOutput.
Record t : Type := mk {
  Source : GrypeSource.t;
  Matches : list GrypeMatch.t;
  Descriptor : GrypeDescriptor.t
}.
Definition zero : t := mk GrypeSource.zero [] GrypeDescriptor.zero.
Definition set_Source (v : GrypeSource.t) (s : t) : t := mk v (Matches s) (Descriptor s).
Definition set_Matches (v : list GrypeMatch.t) (s : t) : t := mk (Source s) v
  (Descriptor s).
Definition set_Descriptor (v : GrypeDescriptor.t) (s : t) : t := mk (Source s)
  (Matches s) v.
End GrypeScanOutput.

Definition GrypeDb_fields : json.fields GrypeDb.t :=
  [("checksum", json.field GrypeDb.Checksum GrypeDb.set_Checksum json.dec_string)].

Definition GrypeDescriptor_fields : json.fields GrypeDescriptor.t :=
  [("version", json.field GrypeDescriptor.Version GrypeDescriptor.set_Version json.dec_string);
   ("db", json.field GrypeDescriptor.Db GrypeDescriptor.set_Db (json.dec_struct GrypeDb_fields))].

Definition GrypeTarget_fields : json.fields GrypeTarget.t :=
  [("repoDigests", json.field GrypeTarget.RepoDigests GrypeTarget.set_RepoDigests
                     (json.dec_slice EmptyString json.dec_string))].

Definition GrypeSource_fields : json.fields GrypeSource.t :=
  [("target", json.field GrypeSource.Target GrypeSource.set_Target
                (json.dec_struct GrypeTarget_fields))].

Definition GrypeFix_fields : json.fields GrypeFix.t :=
  [("versions", json.field GrypeFix.Versions GrypeFix.set_Versions
                  (json.dec_slice EmptyString json.dec_string));
   ("state", json.field GrypeFix.State GrypeFix.set_State json.dec_string)].

Definition GrypeVulnerability_fields : json.fields GrypeVulnerability.t :=
  [("id", json.field GrypeVulnerability.ID GrypeVulnerability.set_ID json.dec_string);
   ("dataSource", json.field GrypeVulnerability.DataSource GrypeVulnerability.set_DataSource
                    json.dec_string);
   ("severity", json.field GrypeVulnerability.Severity GrypeVulnerability.set_Severity
                  json.dec_string);
   ("fix", json.field GrypeVulnerability.Fix GrypeVulnerability.set_Fix
             (json.dec_struct GrypeFix_fields))].

Definition GrypeArtifact_fields : json.fields GrypeArtifact.t :=
  [("name", json.field GrypeArtifact.Name GrypeArtifact.set_Name json.dec_string);
   ("version", json.field GrypeArtifact.Version GrypeArtifact.set_Version json.dec_string);
   ("type", json.field GrypeArtifact.Type_ GrypeArtifact.set_Type_ json.dec_string)].

Definition GrypeMatch_fields : json.fields GrypeMatch.t :=
  [("vulnerability", json.field GrypeMatch.Vulnerability GrypeMatch.set_Vulnerability
                       (json.dec_struct GrypeVulnerability_fields));
   ("artifact", json.field GrypeMatch.Artifact GrypeMatch.set_Artifact
                  (json.dec_struct GrypeArtifact_fields))].

Definition GrypeScanOutput_fields : json.fields GrypeScanOutput.t :=
  [("source", json.field GrypeScanOutput.Source GrypeScanOutput.set_Source
                (json.dec_struct GrypeSource_fields));
   ("matches", json.field GrypeScanOutput.Matches GrypeScanOutput.set_Matches
                 (json.dec_slice GrypeMatch.zero (json.dec_struct GrypeMatch_fields)));
   ("descriptor", json.field GrypeScanOutput.Descriptor GrypeScanOutput.set_Descriptor
                    (json.dec_struct GrypeDescriptor_fields))].

Definition dec_GrypeScanOutput : json.decoder GrypeScanOutput.t :=
  json.dec_struct GrypeScanOutput_fields.

(** *** The report of trivy, and the answer of [trivy --version -f json] *)

(** Modelled from the spec: a structure of [pkg/types] that decodes a part of what trivy
    prints; the fields are those [main.go] reads. *)
Module TrivyVulnerability.
Record t : Type := mk {
  Severity : string
}.
Definition zero : t := mk EmptyString.
Definition set_Severity (v : string) (s : t) : t := mk v.
End TrivyVulnerability.

(** Modelled from the spec: a structure of [pkg/types] that decodes a part of what trivy
    prints; the fields are those [main.go] reads. *)
Module TrivyResult.
Record t : Type := mk {
  Vulnerabilities : list TrivyVulnerability.t
}.
Definition zero : t := mk [].
Definition set_Vulnerabilities (v : list TrivyVulnerability.t) (s : t) : t := mk v.
End TrivyResult.

(** Modelled from the spec: a structure of [pkg/types] that decodes a part of what trivy
    prints; the fields are those [main.go] reads. *)
Module TrivyMetadata.
Record t : Type := mk {
  RepoDigests : list string
}.
Definition zero : t := mk [].
Definition set_RepoDigests (v : list string) (s : t) : t := mk v.
End TrivyMetadata.

(** Modelled from the spec: a structure of [pkg/types] that decodes a part of what trivy
    prints; the fields are those [main.go] reads. *)
Module TrivyScanOutput.
Record t : Type := mk {
  Metadata : TrivyMetadata.t;
  Results : list TrivyResult.t
}.
Definition zero : t := mk TrivyMetadata.zero [].
Definition set_Metadata (v : TrivyMetadata.t) (s : t) : t := mk v (Results s).
Definition set_Results (v : list TrivyResult.t) (s : t) : t := mk (Metadata s) v.
End TrivyScanOutput.

(** Modelled from the spec: a structure of [pkg/types] that decodes a part of what trivy
    prints; the fields are those [main.go] reads. *)
Module TrivyVulnerabilityDB.
Record t : Type := mk {
  UpdatedAt : string
}.
Definition zero : t := mk EmptyString.
Definition set_UpdatedAt (v : string) (s : t) : t := mk v.
End TrivyVulnerabilityDB.

(** Modelled from the spec: a structure of [pkg/types] that decodes a part of what trivy
    prints; the fields are those [main.go] reads. *)
Module TrivyVersionOutput.
Record t : Type := mk {
  Version : string;
  VulnerabilityDB : TrivyVulnerabilityDB.t
}.
Definition zero : t := mk EmptyString TrivyVulnerabilityDB.zero.
Definition set_Version (v : string) (s : t) : t := mk v (VulnerabilityDB s).
Definition set_VulnerabilityDB (v : TrivyVulnerabilityDB.t) (s : t) : t := mk
  (Version s) v.
End TrivyVersionOutput.

Definition TrivyVulnerability_fields : json.fields TrivyVulnerability.t :=
  [("Severity", json.field TrivyVulnerability.Severity TrivyVulnerability.set_Severity
                  json.dec_string)].

Definition TrivyResult_fields : json.fields TrivyResult.t :=
  [("Vulnerabilities",
    json.field TrivyResult.Vulnerabilities TrivyResult.set_Vulnerabilities
      (json.dec_slice TrivyVulnerability.zero (json.dec_struct TrivyVulnerability_fields)))].

Definition TrivyMetadata_fields : json.fields TrivyMetadata.t :=
  [("RepoDigests", json.field TrivyMetadata.RepoDigests TrivyMetadata.set_RepoDigests
                     (json.dec_slice EmptyString json.dec_string))].

Definition TrivyScanOutput_fields : json.fields TrivyScanOutput.t :=
  [("Metadata", json.field TrivyScanOutput.Metadata TrivyScanOutput.set_Metadata
                  (json.dec_struct TrivyMetadata_fields));
   ("Results", json.field TrivyScanOutput.Results TrivyScanOutput.set_Results
                 (json.dec_slice TrivyResult.zero (json.dec_struct TrivyResult_fields)))].

Definition dec_TrivyScanOutput : json.decoder TrivyScanOutput.t :=
  json.dec_struct TrivyScanOutput_fields.

Definition TrivyVulnerabilityDB_fields : json.fields TrivyVulnerabilityDB.t :=
  [("UpdatedAt", json.field TrivyVulnerabilityDB.UpdatedAt TrivyVulnerabilityDB.set_UpdatedAt
                   json.dec_string)].

Definition TrivyVersionOutput_fields : json.fields TrivyVersionOutput.t :=
  [("Version", json.field TrivyVersionOutput.Version TrivyVersionOutput.set_Version
                 json.dec_string);
   ("VulnerabilityDB",
    json.field TrivyVersionOutput.VulnerabilityDB TrivyVersionOutput.set_VulnerabilityDB
      (json.dec_struct TrivyVulnerabilityDB_fields))].

Definition dec_TrivyVersionOutput : json.decoder TrivyVersionOutput.t :=
  json.dec_struct TrivyVersionOutput_fields.

(** *** Vulnerability records *)


(** Modelled from the spec: [types.Vuln], one record per match reported by the scanner
    (section 3); the optional suppression annotation is attached by a mechanism
    outside this program and is not part of the record here. *)
Module Vuln.
Record t : Type := mk {
  ScanID : string;
  Vulnerability : string;
  DataSource : string;
  Severity : string;
  Name : string;
  Installed : string;
  FixedIn : string;
  Type_ : string
}.
Definition zero : t := mk EmptyString EmptyString EmptyString EmptyString EmptyString
  EmptyString EmptyString EmptyString.
End Vuln.

(** [strings.Join] *)
Fixpoint Join (elems : list string) (sep : string) : string :=
  match elems with
  | [] => EmptyString
  | [e] => e
  | e :: rest => e ++ sep ++ Join rest sep
  end.

(** Modelled from the spec: "copies cveID, dataSource, severity (raw string,
    unnormalized), package name/version/fix-version/type" from a raw match
    entry (section 4.3); the fix version is empty when no fix exists. *)
Definition vuln_of_match (scanID : string) (m : GrypeMatch.t) : Vuln.t :=
  let v := GrypeMatch.Vulnerability m in
  let a := GrypeMatch.Artifact m in
  Vuln.mk scanID (GrypeVulnerability.ID v) (GrypeVulnerability.DataSource v)
    (GrypeVulnerability.Severity v) (GrypeArtifact.Name a) (GrypeArtifact.Version a)
    (Join (GrypeFix.Versions (GrypeVulnerability.Fix v)) ",") (GrypeArtifact.Type_ a).

Definition vulns_of_output (scanID : string) (output : GrypeScanOutput.t) : list Vuln.t :=
  map (vuln_of_match scanID) (GrypeScanOutput.Matches output).

(** Modelled from the spec: [summary.ExtractVulns()] derives the records from
    the raw report embedded in the summary, "the sole source of truth for
    later vulnerability-record reconstruction" (section 4.2); an empty raw
    report gives an empty list (section 4.3). *)
Definition ExtractVulns (row : ImageScanSummary.t) : result (list Vuln.t) :=
  if String.eqb (ImageScanSummary.RawGrypeJSON row) EmptyString then Ok []
  else
    rbind (json.Unmarshal dec_GrypeScanOutput (ImageScanSummary.RawGrypeJSON row)
             GrypeScanOutput.zero)
      (fun output => Ok (vulns_of_output (ImageScanSummary.ID row) output)).

End types.
(** ** The scanner driver ([main.go]) *)

Module main.
Import Go types.
Local Open Scope go_scope.

(** [x++] on a counter of the summary. *)
Definition incr (get : ImageScanSummary.t -> Z) (set : Z -> ImageScanSummary.t -> ImageScanSummary.t)
  (summary : ImageScanSummary.t) : ImageScanSummary.t :=
  set (int_add (get summary) 1) summary.

(** [fmt.Printf("WARNING: unknown severity: %s\n", sev)] *)
Definition warn_unknown_severity (sev : string) : io unit :=
  print ("WARNING: unknown severity: " ++ sev ++ newline).

(** The body of the loop of [grypeOutputToSummary]: the switch on
    [match.Vulnerability.Severity]. *)
Definition count_grype (summary : ImageScanSummary.t) (match_ : GrypeMatch.t)
  : io ImageScanSummary.t :=
  let sev := GrypeVulnerability.Severity (GrypeMatch.Vulnerability match_) in
  if String.eqb sev "Low" then
    ret (incr ImageScanSummary.LowCveCount ImageScanSummary.set_LowCveCount summary)
  else if String.eqb sev "Medium" then
    ret (incr ImageScanSummary.MedCveCount ImageScanSummary.set_MedCveCount summary)
  else if String.eqb sev "High" then
    ret (incr ImageScanSummary.HighCveCount ImageScanSummary.set_HighCveCount summary)
  else if String.eqb sev "Critical" then
    ret (incr ImageScanSummary.CritCveCount ImageScanSummary.set_CritCveCount summary)
  else if String.eqb sev "Negligible" then
    ret (incr ImageScanSummary.NegligibleCveCount ImageScanSummary.set_NegligibleCveCount
           summary)
  else if String.eqb sev "Unknown" then
    ret (incr ImageScanSummary.UnknownCveCount ImageScanSummary.set_UnknownCveCount summary)
  else
    warn_unknown_severity sev ;;; ret summary.

Definition grypeOutputToSummary (image : string) (scanTime : time.Time)
  (output : GrypeScanOutput.t) : io ImageScanSummary.t :=
  let summary :=
    ImageScanSummary.set_Image image
      (ImageScanSummary.set_Scanner "grype"
         (ImageScanSummary.set_Time (time.FormatUTC scanTime) ImageScanSummary.zero)) in
  let summary := ImageScanSummary.set_Success true summary in
  let summary :=
    ImageScanSummary.set_ScannerVersion
      (GrypeDescriptor.Version (GrypeScanOutput.Descriptor output)) summary in
  let summary :=
    ImageScanSummary.set_ScannerDbVersion
      (GrypeDb.Checksum (GrypeDescriptor.Db (GrypeScanOutput.Descriptor output))) summary in
  (* summary.Digest = strings.Split(output.Source.Target.RepoDigests[0], "@")[1] *)
  repoDigest <-
    index (GrypeTarget.RepoDigests (GrypeSource.Target (GrypeScanOutput.Source output))) 0 ;;
  digest <- index (strings.Split repoDigest "@") 1 ;;
  let summary := ImageScanSummary.set_Digest digest summary in
  (* CVE counts by severity *)
  let summary :=
    ImageScanSummary.set_TotCveCount
      (Z.of_nat (List.length (GrypeScanOutput.Matches output))) summary in
  summary <- range count_grype (GrypeScanOutput.Matches output) summary ;;
  ret summary.

(** The body of the inner loop of [trivyOutputToSummary]; the state is the
    summary and the local [totalCveCount]. *)
Definition count_trivy (st : ImageScanSummary.t * Z) (vuln : TrivyVulnerability.t)
  : io (ImageScanSummary.t * Z) :=
  let '(summary, totalCveCount) := st in
  let totalCveCount := int_add totalCveCount 1 in
  let sev := TrivyVulnerability.Severity vuln in
  if String.eqb sev "LOW" then
    ret (incr ImageScanSummary.LowCveCount ImageScanSummary.set_LowCveCount summary,
         totalCveCount)
  else if String.eqb sev "MEDIUM" then
    ret (incr ImageScanSummary.MedCveCount ImageScanSummary.set_MedCveCount summary,
         totalCveCount)
  else if String.eqb sev "HIGH" then
    ret (incr ImageScanSummary.HighCveCount ImageScanSummary.set_HighCveCount summary,
         totalCveCount)
  else if String.eqb sev "CRITICAL" then
    ret (incr ImageScanSummary.CritCveCount ImageScanSummary.set_CritCveCount summary,
         totalCveCount)
  else if String.eqb sev "UNKNOWN" then
    ret (incr ImageScanSummary.UnknownCveCount ImageScanSummary.set_UnknownCveCount summary,
         totalCveCount)
  else
    warn_unknown_severity sev ;;; ret (summary, totalCveCount).

Definition trivyOutputToSummary (image : string) (scanTime : time.Time)
  (output : TrivyScanOutput.t) (trivyVersion : TrivyVersionOutput.t)
  : io ImageScanSummary.t :=
  let summary :=
    ImageScanSummary.set_Image image
      (ImageScanSummary.set_Scanner "trivy"
         (ImageScanSummary.set_Time (time.FormatUTC scanTime)
            (ImageScanSummary.set_NegligibleCveCount 0 ImageScanSummary.zero))) in
  let summary := ImageScanSummary.set_Success true summary in
  let summary :=
    ImageScanSummary.set_ScannerVersion (TrivyVersionOutput.Version trivyVersion) summary in
  let summary :=
    ImageScanSummary.set_ScannerDbVersion
      (TrivyVulnerabilityDB.UpdatedAt (TrivyVersionOutput.VulnerabilityDB trivyVersion))
      summary in
  (* summary.Digest = strings.Split(output.Metadata.RepoDigests[0], "@")[1] *)
  repoDigest <- index (TrivyMetadata.RepoDigests (TrivyScanOutput.Metadata output)) 0 ;;
  digest <- index (strings.Split repoDigest "@") 1 ;;
  let summary := ImageScanSummary.set_Digest digest summary in
  (* CVE counts by severity *)
  st <- range (fun st result => range count_trivy (TrivyResult.Vulnerabilities result) st)
          (TrivyScanOutput.Results output) (summary, 0) ;;
  ret (ImageScanSummary.set_TotCveCount (snd st) (fst st)).

(** *** Running a scanner

    What the operating system answers to one call of [scanImageGrype] or
    [scanImageTrivy]: the temporary file, the run of the scanner with what
    the scanner writes to its standard output, which is that of the driver
    ([cmd.Stdout = os.Stdout]), the clock before and after it, the bytes of
    the report file and, for trivy, the standard output of
    [trivy --version -f json].  The environment handed to the child
    processes ([DOCKER_CONFIG]) only reaches these answers. *)
Record host : Type := mkHost {
  CreateTemp : result string;
  ScannerStdout : stdout;
  RunScanner : result unit;
  StartTime : time.Time;
  EndTime : time.Time;
  ReadFile : result string;
  RunVersion : result string
}.

(** What a scan returns besides its error: the file name, the two times and
    the summary, which is nil when the format is not JSON. *)
Definition scan : Type :=
  (string * time.Time * time.Time * option ImageScanSummary.t)%type.

(** [if err != nil { return "", nil, nil, nil, err }] *)
Definition attempt {A} (r : result A) (k : A -> io (result scan)) : io (result scan) :=
  match r with
  | Ok a => k a
  | Err e => ret (Err e)
  end.
Notation "x <-? r ;; k" := (attempt r (fun x => k))
  (at level 61, r at next level, right associativity) : go_scope.

Definition quote : string := String "034"%char EmptyString.

(** What a child process writes to the standard output it shares with the
    driver. *)
Definition child_writes (lines : stdout) : io unit := (Returned tt, lines).

Definition scanImageGrype (h : host) (image format dockerConfig : string) : io (result scan) :=
  file <-? CreateTemp h ;;
  let args := ["-v"; "-o"; format; "--file"; file; image] in
  print ("Running scan command " ++ quote ++ "grype " ++ Join args " " ++ quote ++ "..."
         ++ newline) ;;;
  child_writes (ScannerStdout h) ;;;
  _ <-? RunScanner h ;;
  b <-? ReadFile h ;;
  print (b ++ newline) ;;;
  (* Only attempt summary if the format is JSON *)
  if String.eqb format "json" then
    output <-? json.Unmarshal dec_GrypeScanOutput b GrypeScanOutput.zero ;;
    summary <- grypeOutputToSummary image (StartTime h) output ;;
    (* Inject the raw Grype JSON output (minified) *)
    buff <-? json.Compact b ;;
    let summary := ImageScanSummary.set_RawGrypeJSON buff summary in
    ret (Ok (file, StartTime h, EndTime h, Some summary))
  else
    ret (Ok (file, StartTime h, EndTime h, None)).

Definition scanImageTrivy (h : host) (image format dockerConfig : string) : io (result scan) :=
  file <-? CreateTemp h ;;
  let args := ["--debug"; "image"; "--timeout"; "15m"; "--offline-scan"; "-f"; format;
               "-o"; file; image] in
  print ("Running scan command " ++ quote ++ "trivy " ++ Join args " " ++ quote ++ "..."
         ++ newline) ;;;
  child_writes (ScannerStdout h) ;;;
  _ <-? RunScanner h ;;
  b <-? ReadFile h ;;
  print (b ++ newline) ;;;
  (* Get the trivy version *)
  out <-? RunVersion h ;;
  trivyVersion <-? json.Unmarshal dec_TrivyVersionOutput out TrivyVersionOutput.zero ;;
  if String.eqb format "json" then
    output <-? json.Unmarshal dec_TrivyScanOutput b TrivyScanOutput.zero ;;
    summary <- trivyOutputToSummary image (StartTime h) output trivyVersion ;;
    ret (Ok (file, StartTime h, EndTime h, Some summary))
  else
    ret (Ok (file, StartTime h, EndTime h, None)).

Definition scanImage (h : host) (image scanner format dockerConfig : string)
  : io (result scan) :=
  if String.eqb scanner "trivy" then scanImageTrivy h image format dockerConfig
  else if String.eqb scanner "grype" then scanImageGrype h image format dockerConfig
  else ret (Err (ErrInvalidScanner scanner)).

End main.

(** ** The query tool ([cmd/testquery/main.go]) *)

Module testquery.
Import Go.

(** *** The row structure and what hangs from it *)

Module Locations.
Record t : Type := mk {
  Path : string;
  LayerID : string
}.
Definition zero : t := mk EmptyString EmptyString.
Definition set_Path (v : string) (s : t) : t := mk v (LayerID s).
Definition set_LayerID (v : string) (s : t) : t := mk (Path s) v.
End Locations.

Module Nack.
Record t : Type := mk {
  Url : option string;
  Cve : string;
  Reason : string
}.
Definition zero : t := mk None EmptyString EmptyString.
Definition set_Url (v : option string) (s : t) : t := mk v (Cve s) (Reason s).
Definition set_Cve (v : string) (s : t) : t := mk (Url s) v (Reason s).
Definition set_Reason (v : string) (s : t) : t := mk (Url s) (Cve s) v.
End Nack.

Module Artifact.
Record t : Type := mk {
  Name : string;
  Version : string;
  Type_ : string;
  Locations : option (list Locations.t)
}.
Definition zero : t := mk EmptyString EmptyString EmptyString None.
Definition set_Name (v : string) (s : t) : t := mk v (Version s) (Type_ s) (Locations s).
Definition set_Version (v : string) (s : t) : t := mk (Name s) v (Type_ s) (Locations s).
Definition set_Type_ (v : string) (s : t) : t := mk (Name s) (Version s) v (Locations s).
Definition set_Locations (v : option (list Locations.t)) (s : t) : t := mk (Name s)
  (Version s) (Type_ s) v.
End Artifact.

Module Vulnerability.
Record t : Type := mk {
  CveId : string;
  Datasource : string;
  Severity : string
}.
Definition zero : t := mk EmptyString EmptyString EmptyString.
Definition set_CveId (v : string) (s : t) : t := mk v (Datasource s) (Severity s).
Definition set_Datasource (v : string) (s : t) : t := mk (CveId s) v (Severity s).
Definition set_Severity (v : string) (s : t) : t := mk (CveId s) (Datasource s) v.
End Vulnerability.

Module Match.
Record t : Type := mk {
  Vuln : Vulnerability.t;
  Nack : option Nack.t;
  Artifact : Artifact.t
}.
Definition zero : t := mk Vulnerability.zero None Artifact.zero.
Definition set_Vuln (v : Vulnerability.t) (s : t) : t := mk v (Nack s) (Artifact s).
Definition set_Nack (v : option Nack.t) (s : t) : t := mk (Vuln s) v (Artifact s).
Definition set_Artifact (v : Artifact.t) (s : t) : t := mk (Vuln s) (Nack s) v.
End Match.

Module ImageCveScan.
Record t : Type := mk {
  GithubIssueId : Z;
  Image : string;
  Digest : string;
  Time : string;
  Created : string;
  Low : Z;
  Med : Z;
  High : Z;
  Crit : Z;
  Negligible : Z;
  MatchesString : string;
  Matches : list (option Match.t)
}.
Definition zero : t := mk 0 EmptyString EmptyString EmptyString EmptyString 0 0 0 0 0
  EmptyString [].
Definition set_GithubIssueId (v : Z) (s : t) : t := mk v (Image s) (Digest s) (Time s)
  (Created s) (Low s) (Med s) (High s) (Crit s) (Negligible s) (MatchesString s)
  (Matches s).
Definition set_Image (v : string) (s : t) : t := mk (GithubIssueId s) v (Digest s)
  (Time s) (Created s) (Low s) (Med s) (High s) (Crit s) (Negligible s)
  (MatchesString s) (Matches s).
Definition set_Digest (v : string) (s : t) : t := mk (GithubIssueId s) (Image s) v
  (Time s) (Created s) (Low s) (Med s) (High s) (Crit s) (Negligible s)
  (MatchesString s) (Matches s).
Definition set_Time (v : string) (s : t) : t := mk (GithubIssueId s) (Image s)
  (Digest s) v (Created s) (Low s) (Med s) (High s) (Crit s) (Negligible s)
  (MatchesString s) (Matches s).
Definition set_Created (v : string) (s : t) : t := mk (GithubIssueId s) (Image s)
  (Digest s) (Time s) v (Low s) (Med s) (High s) (Crit s) (Negligible s)
  (MatchesString s) (Matches s).
Definition set_Low (v : Z) (s : t) : t := mk (GithubIssueId s) (Image s) (Digest s)
  (Time s) (Created s) v (Med s) (High s) (Crit s) (Negligible s) (MatchesString s)
  (Matches s).
Definition set_Med (v : Z) (s : t) : t := mk (GithubIssueId s) (Image s) (Digest s)
  (Time s) (Created s) (Low s) v (High s) (Crit s) (Negligible s) (MatchesString s)
  (Matches s).
Definition set_High (v : Z) (s : t) : t := mk (GithubIssueId s) (Image s) (Digest s)
  (Time s) (Created s) (Low s) (Med s) v (Crit s) (Negligible s) (MatchesString s)
  (Matches s).
Definition set_Crit (v : Z) (s : t) : t := mk (GithubIssueId s) (Image s) (Digest s)
  (Time s) (Created s) (Low s) (Med s) (High s) v (Negligible s) (MatchesString s)
  (Matches s).
Definition set_Negligible (v : Z) (s : t) : t := mk (GithubIssueId s) (Image s)
  (Digest s) (Time s) (Created s) (Low s) (Med s) (High s) (Crit s) v (MatchesString s)
  (Matches s).
Definition set_MatchesString (v : string) (s : t) : t := mk (GithubIssueId s) (Image s)
  (Digest s) (Time s) (Created s) (Low s) (Med s) (High s) (Crit s) (Negligible s) v
  (Matches s).
Definition set_Matches (v : list (option Match.t)) (s : t) : t := mk (GithubIssueId s)
  (Image s) (Digest s) (Time s) (Created s) (Low s) (Med s) (High s) (Crit s)
  (Negligible s) (MatchesString s) v.
End ImageCveScan.
(** The JSON name of a field is its [json] tag, or its Go name without one;
    the [bigquery] tags play no part in [json.Unmarshal]. *)
Definition Locations_fields : json.fields Locations.t :=
  [("Path", json.field Locations.Path Locations.set_Path json.dec_string);
   ("LayerID", json.field Locations.LayerID Locations.set_LayerID json.dec_string)].

Definition Nack_fields : json.fields Nack.t :=
  [("Url", json.field Nack.Url Nack.set_Url (json.dec_ptr EmptyString json.dec_string));
   ("Cve", json.field Nack.Cve Nack.set_Cve json.dec_string);
   ("Reason", json.field Nack.Reason Nack.set_Reason json.dec_string)].

Definition Artifact_fields : json.fields Artifact.t :=
  [("Name", json.field Artifact.Name Artifact.set_Name json.dec_string);
   ("Version", json.field Artifact.Version Artifact.set_Version json.dec_string);
   ("Type", json.field Artifact.Type_ Artifact.set_Type_ json.dec_string);
   ("Locations", json.field Artifact.Locations Artifact.set_Locations
                   (json.dec_ptr []
                      (json.dec_slice Locations.zero (json.dec_struct Locations_fields))))].

Definition Vulnerability_fields : json.fields Vulnerability.t :=
  [("id", json.field Vulnerability.CveId Vulnerability.set_CveId json.dec_string);
   ("dataSource", json.field Vulnerability.Datasource Vulnerability.set_Datasource
                    json.dec_string);
   ("Severity", json.field Vulnerability.Severity Vulnerability.set_Severity
                  json.dec_string)].

Definition Match_fields : json.fields Match.t :=
  [("vulnerability", json.field Match.Vuln Match.set_Vuln
                       (json.dec_struct Vulnerability_fields));
   ("Nack", json.field Match.Nack Match.set_Nack
              (json.dec_ptr Nack.zero (json.dec_struct Nack_fields)));
   ("Artifact", json.field Match.Artifact Match.set_Artifact
                  (json.dec_struct Artifact_fields))].

Definition ImageCveScan_fields : json.fields ImageCveScan.t :=
  [("GithubIssueId", json.field ImageCveScan.GithubIssueId ImageCveScan.set_GithubIssueId
                       json.dec_int);
   ("Image", json.field ImageCveScan.Image ImageCveScan.set_Image json.dec_string);
   ("Digest", json.field ImageCveScan.Digest ImageCveScan.set_Digest json.dec_string);
   ("Time", json.field ImageCveScan.Time ImageCveScan.set_Time json.dec_string);
   ("Created", json.field ImageCveScan.Created ImageCveScan.set_Created json.dec_string);
   ("Low", json.field ImageCveScan.Low ImageCveScan.set_Low json.dec_int);
   ("Med", json.field ImageCveScan.Med ImageCveScan.set_Med json.dec_int);
   ("High", json.field ImageCveScan.High ImageCveScan.set_High json.dec_int);
   ("Crit", json.field ImageCveScan.Crit ImageCveScan.set_Crit json.dec_int);
   ("Negligible", json.field ImageCveScan.Negligible ImageCveScan.set_Negligible
                    json.dec_int);
   ("MatchesString", json.field ImageCveScan.MatchesString ImageCveScan.set_MatchesString
                       json.dec_string);
   ("matches", json.field ImageCveScan.Matches ImageCveScan.set_Matches
                 (json.dec_slice None
                    (json.dec_ptr Match.zero (json.dec_struct Match_fields))))].

Definition dec_ImageCveScan : json.decoder ImageCveScan.t :=
  json.dec_struct ImageCveScan_fields.

(** *** The scan table and the latest-scan statement

    A row of the table is a summary as the driver inserted it.  The statement
    of [main] is

      SELECT * FROM (
        SELECT *, ROW_NUMBER() OVER (PARTITION BY image ORDER BY time DESC) rn
        FROM dataset.table WHERE scanner = "grype" ) t
      WHERE rn = 1 ORDER BY image

    and is modelled clause by clause.  Rows of one image with the same time
    are numbered in the order the table holds them (SQL leaves it open). *)
Definition row : Type := types.ImageScanSummary.t.

Definition same_partition (a b : row) : bool :=
  String.eqb (types.ImageScanSummary.Image a) (types.ImageScanSummary.Image b).

(** [ORDER BY time DESC]: [a] comes strictly before [b]. *)
Definition later (a b : row) : bool :=
  String.ltb (types.ImageScanSummary.Time b) (types.ImageScanSummary.Time a).
Definition not_earlier (a b : row) : bool :=
  String.leb (types.ImageScanSummary.Time b) (types.ImageScanSummary.Time a).

Definition count_rows (p : row -> bool) (l : list row) : Z :=
  Z.of_nat (List.length (filter p l)).

(** [ROW_NUMBER() OVER (PARTITION BY image ORDER BY time DESC)]: one more
    than the number of rows of the partition that come before the row. *)
Fixpoint row_number (before rows : list row) : list (row * Z) :=
  match rows with
  | [] => []
  | r :: after =>
      (r, 1 + count_rows (fun x => (same_partition x r && not_earlier x r)%bool) before
            + count_rows (fun x => (same_partition x r && later x r)%bool) after)
      :: row_number (before ++ [r]) after
  end.

(** [ORDER BY image], by insertion. *)
Fixpoint insert_by_image (r : row) (sorted : list row) : list row :=
  match sorted with
  | [] => [r]
  | x :: rest =>
      if String.leb (types.ImageScanSummary.Image r) (types.ImageScanSummary.Image x)
      then r :: sorted
      else x :: insert_by_image r rest
  end.
Definition order_by_image (rows : list row) : list row :=
  fold_right insert_by_image [] rows.

Definition latest_scan_query (table : list row) : list row :=
  let t := row_number []
             (filter (fun r => String.eqb (types.ImageScanSummary.Scanner r) "grype") table) in
  order_by_image (map fst (filter (fun rn => snd rn =? 1) t)).

(** *** The row iterator

    [it.Next(&is)] stores the columns of the next row into the fields of the
    same name or [bigquery] tag, or reports an error, or that the rows are
    exhausted ([iterator.Done]).  An error can come from the fetch, which
    leaves [is] as it was, or from the load of a fetched row, which stores
    column after column and leaves what it stored before it failed. *)
Inductive fetch : Type :=
| Fetched (r : row)
| FetchFailed (e : error) (stored : ImageCveScan.t -> ImageCveScan.t).

Definition RowIterator : Type := list fetch.

Inductive next_error : Type :=
| NoError
| Done
| Failed (e : error).

Definition load (r : row) (dst : ImageCveScan.t) : ImageCveScan.t :=
  ImageCveScan.mk (ImageCveScan.GithubIssueId dst)
    (types.ImageScanSummary.Image r) (types.ImageScanSummary.Digest r)
    (types.ImageScanSummary.Time r) (types.ImageScanSummary.Created r)
    (types.ImageScanSummary.LowCveCount r) (types.ImageScanSummary.MedCveCount r)
    (types.ImageScanSummary.HighCveCount r) (types.ImageScanSummary.CritCveCount r)
    (types.ImageScanSummary.NegligibleCveCount r) (types.ImageScanSummary.RawGrypeJSON r)
    (ImageCveScan.Matches dst).

Definition Next (it : RowIterator) (dst : ImageCveScan.t)
  : ImageCveScan.t * next_error * RowIterator :=
  match it with
  | [] => (dst, Done, [])
  | Fetched r :: it' => (load r dst, NoError, it')
  | FetchFailed e stored :: it' => (stored dst, Failed e, it')
  end.

(** *** [main] *)

(** How the program ends: it returns from [main] with what it printed, or
    [log.Fatal] ends the process with a message and status 1. *)
Inductive exit : Type :=
| Exit (out : stdout)
| LogFatal (msg : string) (e : option error).

Inductive iteration : Type :=
| Break
| Fatal (msg : string) (e : option error)
| Append (scan : ImageCveScan.t).

(** The body of the reading loop, after [err := it.Next(&is)]. *)
Definition read_body (is_ : ImageCveScan.t) (err : next_error) : iteration :=
  let after_unmarshal :=
    if negb (String.eqb (ImageCveScan.MatchesString is_) EmptyString) then
      match json.Unmarshal dec_ImageCveScan (ImageCveScan.MatchesString is_) is_ with
      | Ok is' => inr (is', NoError)
      | Err e => inl e
      end
    else inr (is_, err) in
  match after_unmarshal with
  | inl e => Fatal "Failed to unmarshal CVE match: " (Some e)
  | inr (is', err') =>
      match err' with
      | Done => Break
      | Failed e => Fatal EmptyString (Some e)
      | NoError => Append is'
      end
  end.

(** [for { var is ImageCveScan; err := it.Next(&is); ... }] *)
Fixpoint read_loop (it : RowIterator) (imageScans : list ImageCveScan.t)
  : list ImageCveScan.t + (string * option error) :=
  let '(is_, err, _) := Next it ImageCveScan.zero in
  match read_body is_ err with
  | Break => inl imageScans
  | Fatal msg e => inr (msg, e)
  | Append scan =>
      match it with
      | [] => inl imageScans
      | _ :: it' => read_loop it' (imageScans ++ [scan])
      end
  end.

(** [%d] *)
Definition itoa (z : Z) : string := DecimalString.NilZero.string_of_int (Z.to_int z).

(** [scan.Crit + scan.High + scan.Med + scan.Low + scan.Negligible] *)
Definition bucket_total (scan : ImageCveScan.t) : Z :=
  int_add (int_add (int_add (int_add (ImageCveScan.Crit scan) (ImageCveScan.High scan))
                      (ImageCveScan.Med scan)) (ImageCveScan.Low scan))
    (ImageCveScan.Negligible scan).

(** The body of the printing loop. *)
Definition print_scan (scan : ImageCveScan.t) : stdout :=
  let total := bucket_total scan in
  if total >? 0 then
    [ImageCveScan.Image scan ++ newline;
     " - Critical: " ++ itoa (ImageCveScan.Crit scan) ++ newline;
     " - High:     " ++ itoa (ImageCveScan.High scan) ++ newline;
     " - Medium:   " ++ itoa (ImageCveScan.Med scan) ++ newline;
     " - Low:      " ++ itoa (ImageCveScan.Low scan) ++ newline;
     " - Neg:      " ++ itoa (ImageCveScan.Negligible scan) ++ newline]
  else [].

(** The data store as [main] meets it: whether the client can be created,
    and what reading the statement gives. *)
Record bigquery : Type := mkBigquery {
  NewClient : result unit;
  Read : result RowIterator
}.


Definition main (bq : bigquery) : exit :=
  match NewClient bq with
  | Err e => LogFatal "Failed while creating client:" (Some e)
  | Ok _ =>
      match Read bq with
      | Err e => LogFatal EmptyString (Some e)
      | Ok it =>
          match read_loop it [] with
          | inr (msg, e) => LogFatal msg e
          | inl imageScans => Exit (flat_map print_scan imageScans)
          end
      end
  end.

End testquery.

(** ** Notions the properties are stated in *)

Module props.
Import Go types.

(** The severity strings each scanner's switch has a case for. *)
Definition grype_severities : list string :=
  ["Low"; "Medium"; "High"; "Critical"; "Negligible"; "Unknown"].
Definition trivy_severities : list string :=
  ["LOW"; "MEDIUM"; "HIGH"; "CRITICAL"; "UNKNOWN"].

Definition recognized (known : list string) (sev : string) : bool :=
  existsb (String.eqb sev) known.

Definition grype_severity (m : GrypeMatch.t) : string :=
  GrypeVulnerability.Severity (GrypeMatch.Vulnerability m).

(** How many of the entries have the severity [sev]. *)
Definition occurrences (sev : string) (sevs : list string) : Z :=
  Z.of_nat (List.length (filter (fun x => String.eqb x sev) sevs)).

(** The sum of the six severity buckets of a summary. *)
Definition bucket_sum (s : ImageScanSummary.t) : Z :=
  ImageScanSummary.LowCveCount s + ImageScanSummary.MedCveCount s
  + ImageScanSummary.HighCveCount s + ImageScanSummary.CritCveCount s
  + ImageScanSummary.NegligibleCveCount s + ImageScanSummary.UnknownCveCount s.

Definition buckets (s : ImageScanSummary.t) : list Z :=
  [ImageScanSummary.LowCveCount s; ImageScanSummary.MedCveCount s;
   ImageScanSummary.HighCveCount s; ImageScanSummary.CritCveCount s;
   ImageScanSummary.NegligibleCveCount s; ImageScanSummary.UnknownCveCount s].

(** What the counting loops leave alone: every field but the six buckets. *)
Definition frame (s : ImageScanSummary.t) :=
  (ImageScanSummary.ID s, ImageScanSummary.Image s, ImageScanSummary.Digest s,
   ImageScanSummary.Scanner s, ImageScanSummary.ScannerVersion s,
   ImageScanSummary.ScannerDbVersion s, ImageScanSummary.Time s,
   ImageScanSummary.Created s, ImageScanSummary.Success s,
   ImageScanSummary.TotCveCount s, ImageScanSummary.RawGrypeJSON s).

(** Every bucket can still be incremented [n] times without wrapping. *)
Definition room (s : ImageScanSummary.t) (n : Z) : Prop :=
  Forall (fun c => - 2 ^ 63 <= c /\ c + n < 2 ^ 63) (buckets s).

(** The severity each bucket counts, per scanner, in the order of [buckets];
    trivy has none for the negligible bucket. *)
Definition grype_buckets : list (option string) :=
  [Some "Low"; Some "Medium"; Some "High"; Some "Critical"; Some "Negligible"; Some "Unknown"].
Definition trivy_buckets : list (option string) :=
  [Some "LOW"; Some "MEDIUM"; Some "HIGH"; Some "CRITICAL"; None; Some "UNKNOWN"].

Definition delta (name : option string) (sevs : list string) : Z :=
  match name with
  | Some n => occurrences n sevs
  | None => 0
  end.

(** The buckets of [s'] are those of [s] plus the occurrences of their
    severities in [sevs]. *)
Definition tallied (names : list (option string)) (s s' : ImageScanSummary.t)
  (sevs : list string) : Prop :=
  buckets s' = map (fun cn => fst cn + delta (snd cn) sevs) (combine (buckets s) names).

(** The warnings a normalizer prints for a list of severities. *)
Definition warnings (known : list string) (sevs : list string) : stdout :=
  map (fun sev => "WARNING: unknown severity: " ++ sev ++ newline)
    (filter (fun sev => negb (recognized known sev)) sevs).

(** A slice has fewer than 2^63 elements. *)
Definition slice_len {A} (l : list A) : Prop := Z.of_nat (List.length l) < 2 ^ 63.

(** All the vulnerabilities of a trivy report, in the order the two loops
    visit them. *)
Definition trivy_vulnerabilities (output : TrivyScanOutput.t) : list TrivyVulnerability.t :=
  flat_map TrivyResult.Vulnerabilities (TrivyScanOutput.Results output).

(** The piece of a repository digest the normalizers keep: what stands
    between the first separator and the next one, or the end. *)
Fixpoint upto (sep : ascii) (s : string) : string :=
  match s with
  | EmptyString => EmptyString
  | String c r => if Ascii.eqb c sep then EmptyString else String c (upto sep r)
  end.
Fixpoint after (sep : ascii) (s : string) : option string :=
  match s with
  | EmptyString => None
  | String c r => if Ascii.eqb c sep then Some r else after sep r
  end.

(** The repository digests a report carries. *)
Definition grype_digests (output : GrypeScanOutput.t) : list string :=
  GrypeTarget.RepoDigests (GrypeSource.Target (GrypeScanOutput.Source output)).
Definition trivy_digests (output : TrivyScanOutput.t) : list string :=
  TrivyMetadata.RepoDigests (TrivyScanOutput.Metadata output).

Definition grype_matches_severities (output : GrypeScanOutput.t) : list string :=
  map grype_severity (GrypeScanOutput.Matches output).
Definition trivy_matches_severities (output : TrivyScanOutput.t) : list string :=
  map TrivyVulnerability.Severity (trivy_vulnerabilities output).

(** What the expression [strings.Split(digests[0], "@")[1]] evaluates to. *)
Definition digest_of (digests : list string) : outcome string :=
  match digests with
  | [] => Panicked (IndexOutOfRange 0 0)
  | d :: _ =>
      match after "@" d with
      | None => Panicked (IndexOutOfRange 1 1)
      | Some rest => Returned (upto "@" rest)
      end
  end.

End props.

(** ** Sample inputs *)

Module samples.
Import Go types.

(** A grype report with a High match, fixed in two versions, and a match of
    a severity that grype does not have. *)
Definition grype_report : string := json.text
  "{ 'matches': [
      {'vulnerability': {'id': 'CVE-2023-0001', 'dataSource': 'https://nvd.example/1',
                         'severity': 'High',
                         'fix': {'versions': ['1.2', '1.3'], 'state': 'fixed'}},
       'artifact': {'name': 'openssl', 'version': '1.0', 'type': 'apk',
                    'locations': [{'path': '/lib/apk/db/installed', 'layerID': 'sha256:1'}]}},
      {'vulnerability': {'id': 'CVE-2023-0002', 'severity': 'Catastrophic',
                         'fix': {'versions': [], 'state': 'unknown'}},
       'artifact': {'name': 'zlib', 'version': '1.2.13', 'type': 'apk'}} ],
    'source': {'type': 'image', 'target': {'repoDigests': ['repo@sha256:abc']}},
    'distro': {'name': 'wolfi', 'version': '20230201'},
    'descriptor': {'name': 'grype', 'version': '0.60.0',
                   'db': {'checksum': 'sha256:ff'}} }".

(** The same report, the first match fixed in other versions. *)
Definition grype_report_other_fix : string := json.text
  "{ 'matches': [
      {'vulnerability': {'id': 'CVE-2023-0001', 'dataSource': 'https://nvd.example/1',
                         'severity': 'High',
                         'fix': {'versions': ['9.9'], 'state': 'fixed'}},
       'artifact': {'name': 'openssl', 'version': '1.0', 'type': 'apk',
                    'locations': [{'path': '/lib/apk/db/installed', 'layerID': 'sha256:1'}]}},
      {'vulnerability': {'id': 'CVE-2023-0002', 'severity': 'Catastrophic',
                         'fix': {'versions': [], 'state': 'unknown'}},
       'artifact': {'name': 'zlib', 'version': '1.2.13', 'type': 'apk'}} ],
    'source': {'type': 'image', 'target': {'repoDigests': ['repo@sha256:abc']}},
    'distro': {'name': 'wolfi', 'version': '20230201'},
    'descriptor': {'name': 'grype', 'version': '0.60.0',
                   'db': {'checksum': 'sha256:ff'}} }".

(** A grype report of an image that has no repository digest. *)
Definition grype_report_no_digest : string := json.text
  "{ 'matches': [],
    'source': {'type': 'image', 'target': {'repoDigests': []}},
    'descriptor': {'name': 'grype', 'version': '0.60.0',
                   'db': {'checksum': 'sha256:ff'}} }".

Definition trivy_report : string := json.text
  "{ 'Metadata': {'RepoDigests': ['repo@sha256:abc']},
    'Results': [
      {'Target': 'os', 'Vulnerabilities': [
         {'VulnerabilityID': 'CVE-2023-0001', 'Severity': 'HIGH'},
         {'VulnerabilityID': 'CVE-2023-0002', 'Severity': 'Catastrophic'}]},
      {'Target': 'go', 'Vulnerabilities': [
         {'VulnerabilityID': 'CVE-2023-0003', 'Severity': 'LOW'}]} ] }".

(** The same report without its vulnerability of unknown severity. *)
Definition trivy_report_less : string := json.text
  "{ 'Metadata': {'RepoDigests': ['repo@sha256:abc']},
    'Results': [
      {'Target': 'os', 'Vulnerabilities': [
         {'VulnerabilityID': 'CVE-2023-0001', 'Severity': 'HIGH'}]},
      {'Target': 'go', 'Vulnerabilities': [
         {'VulnerabilityID': 'CVE-2023-0003', 'Severity': 'LOW'}]} ] }".

Definition trivy_version : string := json.text
  "{ 'Version': '0.38.0', 'VulnerabilityDB': {'UpdatedAt': '2023-02-01T00:00:00Z'} }".

Definition decoded {T} (r : result T) (default : T) : T :=
  match r with Ok t => t | Err _ => default end.

Definition grype_output : GrypeScanOutput.t :=
  decoded (json.Unmarshal dec_GrypeScanOutput grype_report GrypeScanOutput.zero)
    GrypeScanOutput.zero.

Definition trivy_output : TrivyScanOutput.t :=
  decoded (json.Unmarshal dec_TrivyScanOutput trivy_report TrivyScanOutput.zero)
    TrivyScanOutput.zero.

Definition trivy_output_less : TrivyScanOutput.t :=
  decoded (json.Unmarshal dec_TrivyScanOutput trivy_report_less TrivyScanOutput.zero)
    TrivyScanOutput.zero.

Definition trivy_version_output : TrivyVersionOutput.t :=
  decoded (json.Unmarshal dec_TrivyVersionOutput trivy_version TrivyVersionOutput.zero)
    TrivyVersionOutput.zero.

(** A host on which everything succeeds: the scanner starts [start] seconds
    after the epoch, writes one line to standard output, takes seven seconds
    and leaves [report] in the report file. *)
Definition host_with (file report : string) (start : Z) : main.host :=
  main.mkHost (Ok file) ["scanning..." ++ newline] (Ok tt)
    (time.Unix start 0) (time.Unix (start + 7) 0) (Ok report) (Ok trivy_version).

Definition returned {A} (m : io A) (default : A) : A :=
  match fst m with Returned a => a | Panicked _ => default end.

Definition summary_of (m : io (result main.scan)) : ImageScanSummary.t :=
  match fst m with
  | Returned (Ok (_, _, _, Some s)) => s
  | _ => ImageScanSummary.zero
  end.

Definition grype_summary : ImageScanSummary.t :=
  returned (main.grypeOutputToSummary "cgr.dev/chainguard/static:latest" 1700000000 grype_output)
    ImageScanSummary.zero.

Definition trivy_summary : ImageScanSummary.t :=
  returned (main.trivyOutputToSummary "cgr.dev/chainguard/static:latest" 1700000000
              trivy_output trivy_version_output)
    ImageScanSummary.zero.

(** The samples without the entry of unrecognized severity: the second match
    of the grype report, the second vulnerability of the trivy report. *)
Definition grype_output_less : GrypeScanOutput.t :=
  GrypeScanOutput.set_Matches
    (firstn 1 (GrypeScanOutput.Matches grype_output)
     ++ skipn 2 (GrypeScanOutput.Matches grype_output)) grype_output.

Definition grype_summary_less : ImageScanSummary.t :=
  returned (main.grypeOutputToSummary "cgr.dev/chainguard/static:latest" 1700000000
              grype_output_less)
    ImageScanSummary.zero.

Definition trivy_summary_less : ImageScanSummary.t :=
  returned (main.trivyOutputToSummary "cgr.dev/chainguard/static:latest" 1700000000
              trivy_output_less trivy_version_output)
    ImageScanSummary.zero.

(** Rows of the scan table: the summary of a grype scan of [image] started
    at [start], as [scanImageGrype] builds it from the sample report. *)
Definition grype_row (image : string) (start : Z) : ImageScanSummary.t :=
  summary_of (main.scanImageGrype (host_with "/tmp/grype-scan-1" grype_report start)
                image "json" EmptyString).

(** A row whose raw report was cut short in the store. *)
Definition broken_row (image : string) (start : Z) : ImageScanSummary.t :=
  ImageScanSummary.set_RawGrypeJSON (json.text "{'matches': [") (grype_row image start).

(** A row of a scan that found nothing, stored without a raw report. *)
Definition clean_row (image : string) (start : Z) : ImageScanSummary.t :=
  ImageScanSummary.set_Image image
    (ImageScanSummary.set_Scanner "grype"
       (ImageScanSummary.set_Time (time.FormatUTC (time.Unix start 0))
          ImageScanSummary.zero)).

(** A scan table: two scans of image [a], a scan of image [b] that found
    nothing. *)
Definition table : list ImageScanSummary.t :=
  [grype_row "a" 1700000100; clean_row "b" 1700000300; grype_row "a" 1700000200].


End samples.

(** ** [json.Compact] keeps the document *)

Module compact_facts.
Import json.

(** The number states in which a literal may end. *)
Definition accepting (ns : numstate) : bool :=
  match ns with
  | N0 | N1 | NDot0 | NE0 => true
  | _ => false
  end.

(** [held s s']: the scanner [s] has read a text and [s'] the same text
    without its insignificant space.  They are in the same state, unless a
    number was last: the space after it has closed the number for [s], and
    [s'] still waits for the byte that ends it. *)
Definition held (s s' : scanner) : Prop :=
  s = s' \/
  exists ns lit,
    step_mode s' = InNumber ns lit /\ accepting ns = true
    /\ emit (stack s') (JNumber (string_rev lit)) = Some s.

End compact_facts.
(** ** Notions for the latest-scan statement *)

Module latest.
Import testquery.

Definition image (r : row) : string := types.ImageScanSummary.Image r.
Definition time_ (r : row) : string := types.ImageScanSummary.Time r.
Definition is_grype (r : row) : bool := String.eqb (types.ImageScanSummary.Scanner r) "grype".

(** The rows the inner SELECT numbers 1, in the order of the table. *)
Definition first_rows (before rows : list row) : list row :=
  map fst (filter (fun rn => snd rn =? 1) (row_number before rows)).

(** A row is numbered 1 when no row of its image before it in the table is
    as late as it is, and none after it is later. *)
Definition is_first (before : list row) (r : row) (after : list row) : bool :=
  (forallb (fun x => negb (same_partition x r && not_earlier x r)) before
   && forallb (fun x => negb (same_partition x r && later x r)) after)%bool.

(** [a] is scanned no later than [b], in the order of the [time] column. *)
Definition time_le (a b : row) : Prop := String.leb (time_ a) (time_ b) = true.
Definition time_lt (a b : row) : Prop := String.ltb (time_ a) (time_ b) = true.

End latest.

(** ** Notions for the report of the query tool *)

Module report.
Import Go.


(** Their sum, as an [int] holds it: 64 bits, wrapping around. *)
Definition total (scan : testquery.ImageCveScan.t) : Z :=
  int_wrap (testquery.ImageCveScan.Crit scan + testquery.ImageCveScan.High scan
            + testquery.ImageCveScan.Med scan + testquery.ImageCveScan.Low scan
            + testquery.ImageCveScan.Negligible scan).

(** The lines of a row that is listed: the image name and the five counts. *)
Definition lines (scan : testquery.ImageCveScan.t) : stdout :=
  [testquery.ImageCveScan.Image scan ++ newline;
   " - Critical: " ++ testquery.itoa (testquery.ImageCveScan.Crit scan) ++ newline;
   " - High:     " ++ testquery.itoa (testquery.ImageCveScan.High scan) ++ newline;
   " - Medium:   " ++ testquery.itoa (testquery.ImageCveScan.Med scan) ++ newline;
   " - Low:      " ++ testquery.itoa (testquery.ImageCveScan.Low scan) ++ newline;
   " - Neg:      " ++ testquery.itoa (testquery.ImageCveScan.Negligible scan) ++ newline].


End report.

(** ** Notions for the two decodings of a stored report *)

Module reparse.
Import Go.

(** What a member of an object does to a struct: the field its key selects
    is decoded from its value, a key that selects no field is skipped. *)
Definition apply_member {T} (fs : json.fields T) (k : string) (t : T) (v : json.value)
  : result T :=
  match json.find_field fs k with
  | Some d => d t v
  | None => Ok t
  end.

(** Two field tables are paired for a relation between the structures when
    a member that is decoded into both keeps the structures related. *)
Definition paired {Q W} (ok : string -> json.value -> Prop) (P : Q -> W -> Prop)
  (fq : json.fields Q) (fw : json.fields W) : Prop :=
  forall k v q w q' w',
    ok k v -> P q w ->
    apply_member fq k q v = Ok q' ->
    apply_member fw k w v = Ok w' ->
    P q' w'.

Definition folded_names {T} (fs : json.fields T) : list string :=
  map (fun f => json.foldName (fst f)) fs.

(** The fields of the row structure other than [Matches]. *)
Definition scalar_names : list string :=
  ["GithubIssueId"; "Image"; "Digest"; "Time"; "Created"; "Low"; "Med"; "High"; "Crit";
   "Negligible"; "MatchesString"].

Definition scalars (s : testquery.ImageCveScan.t) :=
  (testquery.ImageCveScan.GithubIssueId s, testquery.ImageCveScan.Image s,
   testquery.ImageCveScan.Digest s, testquery.ImageCveScan.Time s,
   testquery.ImageCveScan.Created s, testquery.ImageCveScan.Low s,
   testquery.ImageCveScan.Med s, testquery.ImageCveScan.High s,
   testquery.ImageCveScan.Crit s, testquery.ImageCveScan.Negligible s,
   testquery.ImageCveScan.MatchesString s).

(** An object key coincides with a scalar field when [json.Unmarshal] would
    store its value there: the names are equal up to case. *)
Definition coincides (key : string) : bool :=
  existsb (fun n => String.eqb (json.foldName n) (json.foldName key)) scalar_names.

Definition top_level_keys (doc : json.value) : list string :=
  match doc with
  | json.JObject members => map fst members
  | _ => []
  end.

(** The top-level keys of a grype report. *)
Definition grype_keys : list string :=
  ["matches"; "ignoredMatches"; "source"; "distro"; "descriptor"].

(** The key selects the field of the matches, in either structure. *)
Definition is_matches_key (key : string) : bool :=
  String.eqb (json.foldName key) "MATCHES".

Definition is_null (v : json.value) : bool :=
  match v with json.JNull => true | _ => false end.

(** Every match of the report is a value other than [null]. *)
Definition member_without_null_match (kv : string * json.value) : bool :=
  match kv with
  | (k, json.JArray elems) => negb (is_matches_key k && existsb is_null elems)
  | _ => true
  end.
Definition without_null_match (doc : json.value) : bool :=
  match doc with
  | json.JObject members => forallb member_without_null_match members
  | _ => true
  end.

Definition same_vulnerability (q : testquery.Vulnerability.t)
  (w : types.GrypeVulnerability.t) : Prop :=
  testquery.Vulnerability.CveId q = types.GrypeVulnerability.ID w
  /\ testquery.Vulnerability.Severity q = types.GrypeVulnerability.Severity w.

Definition same_artifact (q : testquery.Artifact.t) (w : types.GrypeArtifact.t) : Prop :=
  testquery.Artifact.Name q = types.GrypeArtifact.Name w
  /\ testquery.Artifact.Version q = types.GrypeArtifact.Version w
  /\ testquery.Artifact.Type_ q = types.GrypeArtifact.Type_ w.

(** A match as the query tool decodes it and a match as the driver decodes
    it carry the same CVE, severity and package. *)
Definition same_match (q : testquery.Match.t) (w : types.GrypeMatch.t) : Prop :=
  same_vulnerability (testquery.Match.Vuln q) (types.GrypeMatch.Vulnerability w)
  /\ same_artifact (testquery.Match.Artifact q) (types.GrypeMatch.Artifact w).

Definition same_slot (q : option testquery.Match.t) (w : types.GrypeMatch.t) : Prop :=
  exists m, q = Some m /\ same_match m w.

Definition same_matches (q : testquery.ImageCveScan.t) (w : types.GrypeScanOutput.t) : Prop :=
  Forall2 same_slot (testquery.ImageCveScan.Matches q) (types.GrypeScanOutput.Matches w).

Definition no_null_match (k : string) (v : json.value) : Prop :=
  member_without_null_match (k, v) = true.

(** A reconstructed match and a vulnerability record of the write path agree
    in CVE ID, severity string, package name, installed version and type. *)
Definition agrees (q : option testquery.Match.t) (v : types.Vuln.t) : Prop :=
  exists m,
    q = Some m
    /\ testquery.Vulnerability.CveId (testquery.Match.Vuln m) = types.Vuln.Vulnerability v
    /\ testquery.Vulnerability.Severity (testquery.Match.Vuln m) = types.Vuln.Severity v
    /\ testquery.Artifact.Name (testquery.Match.Artifact m) = types.Vuln.Name v
    /\ testquery.Artifact.Version (testquery.Match.Artifact m) = types.Vuln.Installed v
    /\ testquery.Artifact.Type_ (testquery.Match.Artifact m) = types.Vuln.Type_ v.

End reparse.

(** ** Notions for the further properties *)

Module more.
Import Go.

(** The loop appends [scan] after a call of [it.Next(&is)] on a fresh [is].
    After a row was fetched: the row as it was loaded when its raw report is
    empty, and else the row re-parsed from its raw report.  After a call
    that failed: only when what it stored holds a raw report, which is then
    re-parsed, the outcome of the re-parse standing for that of the call. *)
Definition appended (x : testquery.fetch) (scan : testquery.ImageCveScan.t) : Prop :=
  match x with
  | testquery.Fetched r =>
      let is_ := testquery.load r testquery.ImageCveScan.zero in
      (types.ImageScanSummary.RawGrypeJSON r = EmptyString /\ scan = is_)
      \/ (types.ImageScanSummary.RawGrypeJSON r <> EmptyString
          /\ json.Unmarshal testquery.dec_ImageCveScan
               (types.ImageScanSummary.RawGrypeJSON r) is_ = Ok scan)
  | testquery.FetchFailed _ stored =>
      let is_ := stored testquery.ImageCveScan.zero in
      testquery.ImageCveScan.MatchesString is_ <> EmptyString
      /\ json.Unmarshal testquery.dec_ImageCveScan
           (testquery.ImageCveScan.MatchesString is_) is_ = Ok scan
  end.

(** The loop stops after a call of [it.Next(&is)], with a message and an
    error: the raw report in the row is not empty and does not re-parse, or
    the call failed and left no raw report. *)
Definition stops_at (x : testquery.fetch) (msg : string) (e : error) : Prop :=
  match x with
  | testquery.Fetched r =>
      types.ImageScanSummary.RawGrypeJSON r <> EmptyString
      /\ json.Unmarshal testquery.dec_ImageCveScan
           (types.ImageScanSummary.RawGrypeJSON r)
           (testquery.load r testquery.ImageCveScan.zero) = Err e
      /\ msg = "Failed to unmarshal CVE match: "
  | testquery.FetchFailed e0 stored =>
      let is_ := stored testquery.ImageCveScan.zero in
      (testquery.ImageCveScan.MatchesString is_ = EmptyString
       /\ e = e0 /\ msg = EmptyString)
      \/ (testquery.ImageCveScan.MatchesString is_ <> EmptyString
          /\ json.Unmarshal testquery.dec_ImageCveScan
               (testquery.ImageCveScan.MatchesString is_) is_ = Err e
          /\ msg = "Failed to unmarshal CVE match: ")
  end.

(** What the body of the loop makes of one answer of the iterator. *)
Definition turned (x : testquery.fetch) : testquery.iteration :=
  let '(is_, err, _) := testquery.Next [x] testquery.ImageCveScan.zero in
  testquery.read_body is_ err.

(** A load that fails after it has stored the image name and the raw report
    of a row. *)
Definition half_loaded (r : testquery.row) (dst : testquery.ImageCveScan.t)
  : testquery.ImageCveScan.t :=
  testquery.ImageCveScan.set_MatchesString (types.ImageScanSummary.RawGrypeJSON r)
    (testquery.ImageCveScan.set_Image (types.ImageScanSummary.Image r) dst).

(** The five counts the query tool adds up and prints. *)
Definition scan_counts (scan : testquery.ImageCveScan.t) : list Z :=
  [testquery.ImageCveScan.Crit scan; testquery.ImageCveScan.High scan;
   testquery.ImageCveScan.Med scan; testquery.ImageCveScan.Low scan;
   testquery.ImageCveScan.Negligible scan].

(** Rows in ascending order of [image]. *)
Definition image_le (a b : testquery.row) : Prop :=
  String.leb (latest.image a) (latest.image b) = true.
Definition image_lt (a b : testquery.row) : Prop :=
  String.ltb (latest.image a) (latest.image b) = true.

(** The grype rows of a table are told apart by image and time: two of them
    with the same image and the same time are the same row. *)
Definition keyed_by_image_and_time (table : list testquery.row) : Prop :=
  forall a b,
    In a table -> In b table ->
    latest.is_grype a = true -> latest.is_grype b = true ->
    latest.image a = latest.image b -> latest.time_ a = latest.time_ b -> a = b.

(** The row is a grype row of the table that no grype row of its image in
    the table is later than. *)
Definition latest_of (table : list testquery.row) (r : testquery.row) : Prop :=
  In r table /\ latest.is_grype r = true
  /\ forall r', In r' table -> latest.is_grype r' = true ->
       latest.image r' = latest.image r -> latest.time_le r' r.

(** The key selects the field [Image] of the row structure. *)
Definition selects_image (key : string) : Prop := json.foldName key = "IMAGE".

Definition string_or_null (v : json.value) : bool :=
  match v with
  | json.JString _ | json.JNull => true
  | _ => false
  end.

(** What the reading loop makes of one stored row. *)
Definition reread (r : testquery.row) : result testquery.ImageCveScan.t :=
  json.Unmarshal testquery.dec_ImageCveScan (types.ImageScanSummary.RawGrypeJSON r)
    (testquery.load r testquery.ImageCveScan.zero).

(** The sample reports with other repository digests. *)
Definition grype_output_with (digests : list string) : types.GrypeScanOutput.t :=
  types.GrypeScanOutput.set_Source (types.GrypeSource.mk (types.GrypeTarget.mk digests))
    samples.grype_output.
Definition trivy_output_with (digests : list string) : types.TrivyScanOutput.t :=
  types.TrivyScanOutput.set_Metadata (types.TrivyMetadata.mk digests) samples.trivy_output.

(** A host whose trivy answers the version request with plain text. *)
Definition host_plain_version (file report : string) (start : Z) : main.host :=
  main.mkHost (Go.Ok file) [] (Go.Ok tt) (time.Unix start 0) (time.Unix (start + 7) 0)
    (Go.Ok report) (Go.Ok "Version: 0.38.0").

(** The severities of grype that have a line in the report of the query tool. *)
Definition printed_severities : list string :=
  ["Critical"; "High"; "Medium"; "Low"; "Negligible"].

(** The document a text denotes, [null] for a text that denotes none. *)
Definition document (text : string) : json.value :=
  match json.parse text with
  | Some doc => doc
  | None => json.JNull
  end.

(** The sample table, its rows in the opposite order. *)
Definition table_reversed : list testquery.row := rev samples.table.

(** A stored row whose raw report has a top-level key [image]. *)
Definition row_with_image_key (value : string) : testquery.row :=
  types.ImageScanSummary.set_RawGrypeJSON
    (json.text ("{'matches': [], 'image': " ++ value ++ ", 'source': {}}"))
    (samples.clean_row "a" 1700000100).

(** When the scans of the sample table started, by their time column. *)
Definition sample_start (r : testquery.row) : time.Time :=
  if String.eqb (latest.time_ r) (time.FormatUTC (time.Unix 1700000100 0))
  then time.Unix 1700000100 250000000
  else if String.eqb (latest.time_ r) (time.FormatUTC (time.Unix 1700000200 0))
       then time.Unix 1700000200 750000000
       else time.Unix 1700000300 0.

End more.

(** ** Notions for the format of the scan time *)

Module clock.
(** The steps of [civil_of_days], by name. *)
Definition era (days : Z) : Z := (days + 719468) / 146097.
Definition doe (days : Z) : Z := days + 719468 - era days * 146097.
Definition yoe (doe : Z) : Z := (doe - doe / 1460 + doe / 36524 - doe / 146096) / 365.
Definition doy (doe : Z) : Z := doe - (365 * yoe doe + yoe doe / 4 - yoe doe / 100).
Definition mp (doy : Z) : Z := (5 * doy + 2) / 153.
Definition day (doy : Z) : Z := doy - (153 * mp doy + 2) / 5 + 1.
Definition month (mp : Z) : Z := if mp <? 10 then mp + 3 else mp - 9.
Definition year (era yoe month : Z) : Z := yoe + era * 400 + (if month <=? 2 then 1 else 0).

(** A decimal digit, and the loop of [digits]. *)
Definition digit (z : Z) : ascii := ascii_of_nat (48 + Z.to_nat (z mod 10)).
Fixpoint written (n : nat) (z : Z) (acc : string) : string :=
  match n with
  | O => acc
  | S n' => written n' (z / 10) (String (digit z) acc)
  end.

(** The second a time falls in, counted from the epoch. *)
Definition second (t : time.Time) : Z := t / 1000000000.

(** The first instant of the year 10000. *)
Definition year_10000 : time.Time := time.Unix 253402300800 0.

(** The fields of the formatted time of a second, most significant first. *)
Definition fields (unix : Z) : list Z :=
  let '(y, m, d) := time.civil_of_days (unix / 86400) in
  let secs := unix mod 86400 in
  [y; m; d; secs / 3600; secs / 60 mod 60; secs mod 60].

(** The order of lists of numbers, the first difference deciding. *)
Fixpoint lex (a b : list Z) : comparison :=
  match a, b with
  | x :: a', y :: b' => match x ?= y with Eq => lex a' b' | c => c end
  | [], [] => Eq
  | [], _ :: _ => Lt
  | _ :: _, [] => Gt
  end.
End clock.

(** * Properties *)

(** ** The Go runtime *)

Lemma int_wrap_id z : - 2 ^ 63 <= z < 2 ^ 63 -> Go.int_wrap z = z.
Proof.
  intros H. unfold Go.int_wrap.
  rewrite Z.mod_small by (change (2 ^ 64) with (2 ^ 63 + 2 ^ 63); lia). lia.
Qed.

Lemma bind_returned {A B} (m : Go.io A) (k : A -> Go.io B) a o :
  m = (Go.Returned a, o) ->
  Go.bind m k = (fst (k a), (o ++ snd (k a))%list).
Proof. intros ->. simpl. destruct (k a); reflexivity. Qed.

Lemma bind_panicked {A B} (m : Go.io A) (k : A -> Go.io B) p o :
  m = (Go.Panicked p, o) -> Go.bind m k = (Go.Panicked p, o).
Proof. intros ->. reflexivity. Qed.

(** ** [strings.Split] *)

Lemma Split_cons s sep : exists piece pieces, strings.Split s sep = piece :: pieces.
Proof.
  induction s as [|c r IH]; simpl; [eauto|].
  destruct (Ascii.eqb c sep); [eauto|].
  destruct IH as (p & ps & ->). eauto.
Qed.

Lemma Split_head s sep : hd EmptyString (strings.Split s sep) = props.upto sep s.
Proof.
  induction s as [|c r IH]; simpl; [reflexivity|].
  destruct (Ascii.eqb c sep); [reflexivity|].
  destruct (Split_cons r sep) as (p & ps & E). rewrite E in *. simpl in *. now subst.
Qed.

Lemma Split_tail s sep :
  tl (strings.Split s sep) =
  match props.after sep s with
  | Some rest => strings.Split rest sep
  | None => []
  end.
Proof.
  induction s as [|c r IH]; simpl; [reflexivity|].
  destruct (Ascii.eqb c sep); [reflexivity|].
  destruct (Split_cons r sep) as (p & ps & E). rewrite E in *. simpl in *. exact IH.
Qed.

(** The second piece of a split: missing when the separator does not occur,
    otherwise what follows the first separator, up to the next one. *)
Lemma Split_second s sep :
  nth_error (strings.Split s sep) 1 =
  match props.after sep s with
  | Some rest => Some (props.upto sep rest)
  | None => None
  end.
Proof.
  destruct (Split_cons s sep) as (p & ps & E).
  pose proof (Split_tail s sep) as T. rewrite E in *. simpl in *. subst ps.
  destruct (props.after sep s) as [rest|]; [|reflexivity].
  rewrite <- Split_head. destruct (Split_cons rest sep) as (q & qs & ->). reflexivity.
Qed.

Lemma Split_length s sep :
  props.after sep s = None -> List.length (strings.Split s sep) = 1%nat.
Proof.
  intros H. destruct (Split_cons s sep) as (p & ps & E).
  pose proof (Split_tail s sep) as T. rewrite E, H in *. simpl in *. now subst.
Qed.

(** ** The counting loops *)

Lemma bind_assoc {A B C} (m : Go.io A) (f : A -> Go.io B) (g : B -> Go.io C) :
  Go.bind (Go.bind m f) g = Go.bind m (fun a => Go.bind (f a) g).
Proof.
  destruct m as [[a|p] o]; simpl; [|reflexivity].
  destruct (f a) as [[b|p] o']; simpl; [|reflexivity].
  destruct (g b) as [r o'']. now rewrite app_assoc.
Qed.

Lemma range_app {A S} (body : S -> A -> Go.io S) l1 l2 s :
  Go.range body (l1 ++ l2) s = Go.bind (Go.range body l1 s) (Go.range body l2).
Proof.
  revert s. induction l1 as [|x l1 IH]; intros s; simpl.
  - destruct (Go.range body l2 s); reflexivity.
  - rewrite bind_assoc. destruct (body s x) as [[s'|p] o]; simpl; [|reflexivity].
    now rewrite IH.
Qed.

(** Two nested [range] loops visit the concatenation of the inner slices. *)
Lemma range_flat_map {A B S} (inner : A -> list B) (body : S -> B -> Go.io S) l s :
  Go.range (fun st a => Go.range body (inner a) st) l s =
  Go.range body (flat_map inner l) s.
Proof.
  revert s. induction l as [|a l IH]; intros s; simpl; [reflexivity|].
  rewrite range_app. destruct (Go.range body (inner a) s) as [[s'|p] o]; simpl; [|reflexivity].
  now rewrite IH.
Qed.

Lemma occurrences_cons sev x sevs :
  props.occurrences sev (x :: sevs) =
  (if String.eqb x sev then 1 else 0) + props.occurrences sev sevs.
Proof.
  unfold props.occurrences. cbn [filter]. destruct (String.eqb x sev); cbn [List.length]; lia.
Qed.

Lemma occurrences_nonneg sev sevs : 0 <= props.occurrences sev sevs.
Proof. unfold props.occurrences. lia. Qed.

Lemma warnings_cons known x sevs :
  props.warnings known (x :: sevs) =
  ((if props.recognized known x then []
    else [("WARNING: unknown severity: " ++ x ++ Go.newline)%string])
   ++ props.warnings known sevs)%list.
Proof. unfold props.warnings. simpl. destruct (props.recognized known x); reflexivity. Qed.

Lemma room_weaken s n m : 0 <= m <= n -> props.room s n -> props.room s m.
Proof.
  intros Hm H. unfold props.room in *. eapply Forall_impl; [|exact H].
  simpl. intros c ?. lia.
Qed.

(** Case analysis on a severity string along the cases of a switch. *)
Ltac severity_case sev lit :=
  let E := fresh "E" in
  destruct (String.eqb sev lit) eqn:E;
  [apply String.eqb_eq in E; subst sev|].

Ltac rewrite_tests :=
  repeat match goal with
         | H : String.eqb _ _ = false |- _ => rewrite H
         end.

Ltac unfold_room H :=
  unfold props.room, props.buckets in H;
  repeat match type of H with
         | Forall _ (_ :: _) =>
             let H1 := fresh "Hroom" in
             apply Forall_cons_iff in H; destruct H as [H1 H]
         end.

(** One iteration of the loop of [grypeOutputToSummary] always returns; it
    touches nothing but the bucket of the entry's severity and warns exactly
    when there is none. *)
Lemma count_grype_spec s m :
  exists s',
    main.count_grype s m =
      (Go.Returned s', props.warnings props.grype_severities [props.grype_severity m])
    /\ props.frame s' = props.frame s
    /\ (props.room s 1 -> props.tallied props.grype_buckets s s' [props.grype_severity m]).
Proof.
  unfold main.count_grype, props.warnings, props.recognized, props.grype_severities.
  fold (props.grype_severity m). generalize (props.grype_severity m) as sev. intros sev.
  unfold props.tallied, props.grype_buckets, props.delta, props.occurrences.
  cbn [existsb filter map combine props.buckets fst snd].
  severity_case sev "Low"; [|severity_case sev "Medium"; [|severity_case sev "High";
    [|severity_case sev "Critical"; [|severity_case sev "Negligible";
    [|severity_case sev "Unknown"]]]]];
  rewrite_tests; cbn [String.eqb Ascii.eqb Bool.eqb orb negb filter map List.length];
  eexists; (split; [reflexivity|]); (split; [reflexivity|]);
  intros R; unfold_room R; unfold main.incr, Go.int_add; 
  cbn -[Z.add Go.int_wrap Z.pow Z.of_nat]; rewrite ?int_wrap_id by lia;
  unfold props.buckets; cbn -[Z.add Z.of_nat]; repeat (f_equal; try lia).
Qed.

Lemma delta_cons name x sevs :
  props.delta name (x :: sevs) = props.delta name [x] + props.delta name sevs.
Proof.
  destruct name as [n|]; simpl; [|reflexivity].
  rewrite !occurrences_cons. unfold props.occurrences at 2. simpl. lia.
Qed.

Lemma delta_single name x : 0 <= props.delta name [x] <= 1.
Proof.
  destruct name as [n|]; simpl; [|lia].
  rewrite occurrences_cons. unfold props.occurrences. simpl.
  destruct (String.eqb x n); lia.
Qed.

Lemma delta_nil name : props.delta name [] = 0.
Proof. destruct name; reflexivity. Qed.

Lemma tallied_nil names s : List.length names = 6%nat -> props.tallied names s s [].
Proof.
  intros L. unfold props.tallied, props.buckets.
  do 6 (destruct names as [|? names]; [discriminate|]). destruct names; [|discriminate].
  cbn [combine map fst snd]. rewrite !delta_nil. repeat (f_equal; try lia).
Qed.

Lemma tallied_step names s s1 s' x sevs :
  props.tallied names s s1 [x] ->
  props.tallied names s1 s' sevs ->
  props.tallied names s s' (x :: sevs).
Proof.
  unfold props.tallied. intros H1 H2. rewrite H2, H1. clear H1 H2.
  generalize (props.buckets s) as l. intros l. revert names.
  induction l as [|c l IH]; intros [|n names]; cbn [combine map fst snd]; try reflexivity.
  rewrite IH, (delta_cons n x sevs). f_equal. lia.
Qed.

Lemma room_step names s s1 x n :
  0 <= n ->
  props.tallied names s s1 [x] ->
  props.room s (1 + n) ->
  props.room s1 n.
Proof.
  unfold props.tallied, props.room. intros Hn ->.
  generalize (props.buckets s) as l. intros l. revert names.
  induction l as [|c l IH]; intros [|name names] H; cbn [combine map fst snd];
    try constructor.
  - apply Forall_cons_iff in H. destruct H as [H _].
    pose proof (delta_single name x). lia.
  - apply IH. now apply Forall_cons_iff in H.
Qed.

(** The loop of [grypeOutputToSummary]: it returns, prints one warning per
    unrecognized severity, and adds to each bucket the number of entries of
    its severity. *)
Lemma range_count_grype ms : forall s,
  exists s',
    Go.range main.count_grype ms s =
      (Go.Returned s', props.warnings props.grype_severities (map props.grype_severity ms))
    /\ props.frame s' = props.frame s
    /\ (props.room s (Z.of_nat (List.length ms)) ->
        props.tallied props.grype_buckets s s' (map props.grype_severity ms)).
Proof.
  induction ms as [|m ms IH]; intros s.
  - exists s. repeat split. intros _. now apply tallied_nil.
  - destruct (count_grype_spec s m) as (s1 & E1 & F1 & T1).
    destruct (IH s1) as (s' & E & F & T).
    exists s'. cbn [Go.range map]. rewrite (bind_returned _ _ _ _ E1), E. cbn [fst snd].
    rewrite warnings_cons. split; [|split].
    + f_equal. unfold props.warnings. cbn [filter map].
      destruct (props.recognized _ _); reflexivity.
    + congruence.
    + intros R. cbn [List.length] in R. rewrite Nat2Z.inj_succ in R.
      assert (R1 : props.room s 1) by (eapply room_weaken; [|exact R]; lia).
      specialize (T1 R1).
      eapply tallied_step; [exact T1|]. apply T.
      eapply room_step; [|exact T1|]; [lia|].
      replace (1 + Z.of_nat (List.length ms)) with (Z.succ (Z.of_nat (List.length ms))) by lia.
      exact R.
Qed.

(** The same for one iteration of the inner loop of [trivyOutputToSummary],
    which also counts the entry in [totalCveCount]. *)
Lemma count_trivy_spec s n v :
  exists s',
    main.count_trivy (s, n) v =
      (Go.Returned (s', Go.int_add n 1),
       props.warnings props.trivy_severities [types.TrivyVulnerability.Severity v])
    /\ props.frame s' = props.frame s
    /\ (props.room s 1 ->
        props.tallied props.trivy_buckets s s' [types.TrivyVulnerability.Severity v]).
Proof.
  unfold main.count_trivy, props.warnings, props.recognized, props.trivy_severities.
  generalize (types.TrivyVulnerability.Severity v) as sev. intros sev.
  unfold props.tallied, props.trivy_buckets, props.delta, props.occurrences.
  cbn [existsb filter map combine props.buckets fst snd].
  severity_case sev "LOW"; [|severity_case sev "MEDIUM"; [|severity_case sev "HIGH";
    [|severity_case sev "CRITICAL"; [|severity_case sev "UNKNOWN"]]]];
  rewrite_tests; cbn [String.eqb Ascii.eqb Bool.eqb orb negb filter map List.length];
  eexists; (split; [reflexivity|]); (split; [reflexivity|]);
  intros R; unfold_room R; unfold main.incr, Go.int_add;
  cbn -[Z.add Go.int_wrap Z.pow Z.of_nat]; rewrite ?int_wrap_id by lia;
  unfold props.buckets; cbn -[Z.add Z.of_nat]; repeat (f_equal; try lia).
Qed.

Lemma range_count_trivy vs : forall s n,
  exists s' n',
    Go.range main.count_trivy vs (s, n) =
      (Go.Returned (s', n'),
       props.warnings props.trivy_severities (map types.TrivyVulnerability.Severity vs))
    /\ props.frame s' = props.frame s
    /\ (- 2 ^ 63 <= n -> n + Z.of_nat (List.length vs) < 2 ^ 63 ->
        n' = n + Z.of_nat (List.length vs))
    /\ (props.room s (Z.of_nat (List.length vs)) ->
        props.tallied props.trivy_buckets s s' (map types.TrivyVulnerability.Severity vs)).
Proof.
  induction vs as [|v vs IH]; intros s n.
  - exists s, n. repeat split; [cbn [List.length]; lia|]. intros _. now apply tallied_nil.
  - destruct (count_trivy_spec s n v) as (s1 & E1 & F1 & T1).
    destruct (IH s1 (Go.int_add n 1)) as (s' & n' & E & F & N & T).
    exists s', n'. cbn [Go.range map]. rewrite (bind_returned _ _ _ _ E1), E. cbn [fst snd].
    rewrite warnings_cons. split; [|split; [|split]].
    + f_equal. unfold props.warnings. cbn [filter map].
      destruct (props.recognized _ _); reflexivity.
    + congruence.
    + cbn [List.length]. rewrite Nat2Z.inj_succ. intros Hlo Hhi.
      unfold Go.int_add in N. rewrite int_wrap_id in N by lia. rewrite N; lia.
    + intros R. cbn [List.length] in R. rewrite Nat2Z.inj_succ in R.
      assert (R1 : props.room s 1) by (eapply room_weaken; [|exact R]; lia).
      specialize (T1 R1).
      eapply tallied_step; [exact T1|]. apply T.
      eapply room_step; [|exact T1|]; [lia|].
      replace (1 + Z.of_nat (List.length vs)) with (Z.succ (Z.of_nat (List.length vs))) by lia.
      exact R.
Qed.

(** ** The two normalizers *)

Lemma index_digest digests :
  Go.bind (Go.index digests 0) (fun d => Go.index (strings.Split d "@") 1) =
  (props.digest_of digests, []).
Proof.
  unfold props.digest_of, Go.index. destruct digests as [|d ds]; [reflexivity|].
  change (nth_error (d :: ds) 0) with (Some d). cbn [Go.bind Go.ret]. rewrite Split_second.
  destruct (props.after "@" d) eqn:A; [reflexivity|].
  rewrite (Split_length _ _ A). reflexivity.
Qed.

Lemma tallied_from_zero names s0 s sevs :
  props.buckets s0 = [0; 0; 0; 0; 0; 0] ->
  List.length names = 6%nat ->
  props.tallied names s0 s sevs ->
  props.buckets s = map (fun n => props.delta n sevs) names.
Proof.
  unfold props.tallied. intros -> L ->.
  do 6 (destruct names as [|? names]; [discriminate|]). destruct names; [|discriminate].
  reflexivity.
Qed.

Lemma room_zero s0 n :
  props.buckets s0 = [0; 0; 0; 0; 0; 0] -> 0 <= n < 2 ^ 63 -> props.room s0 n.
Proof.
  intros E H. unfold props.room. rewrite E. repeat constructor; lia.
Qed.

(** [grypeOutputToSummary], case by case. *)
Lemma grypeOutputToSummary_spec image t output :
  match props.digest_of (props.grype_digests output) with
  | Go.Panicked p => main.grypeOutputToSummary image t output = (Go.Panicked p, [])
  | Go.Returned digest =>
      exists s,
        main.grypeOutputToSummary image t output =
          (Go.Returned s,
           props.warnings props.grype_severities (props.grype_matches_severities output))
        /\ props.frame s =
             (EmptyString, image, digest, "grype",
              types.GrypeDescriptor.Version (types.GrypeScanOutput.Descriptor output),
              types.GrypeDb.Checksum
                (types.GrypeDescriptor.Db (types.GrypeScanOutput.Descriptor output)),
              time.FormatUTC t, EmptyString, true,
              Z.of_nat (List.length (types.GrypeScanOutput.Matches output)), EmptyString)
        /\ (props.slice_len (types.GrypeScanOutput.Matches output) ->
            props.buckets s =
              map (fun n => props.delta n (props.grype_matches_severities output))
                props.grype_buckets)
  end.
Proof.
  unfold main.grypeOutputToSummary.
  rewrite <- bind_assoc. fold (props.grype_digests output). rewrite index_digest.
  destruct (props.digest_of (props.grype_digests output)) as [digest|p]; [|reflexivity].
  cbn [Go.bind].
  match goal with
  | |- context [Go.range main.count_grype ?ms ?s0] =>
      destruct (range_count_grype ms s0) as (s & E & F & T)
  end.
  exists s. rewrite E. cbn [Go.ret Go.bind]. rewrite app_nil_r. split; [reflexivity|].
  split; [rewrite F; reflexivity|].
  intros L. unfold props.slice_len in L.
  eapply tallied_from_zero; [| |apply T]; try reflexivity.
  apply room_zero; [reflexivity|lia].
Qed.

(** [trivyOutputToSummary], case by case. *)
Lemma trivyOutputToSummary_spec image t output version :
  match props.digest_of (props.trivy_digests output) with
  | Go.Panicked p => main.trivyOutputToSummary image t output version = (Go.Panicked p, [])
  | Go.Returned digest =>
      exists s,
        main.trivyOutputToSummary image t output version =
          (Go.Returned s,
           props.warnings props.trivy_severities (props.trivy_matches_severities output))
        /\ types.ImageScanSummary.Digest s = digest
        /\ types.ImageScanSummary.Scanner s = "trivy"
        /\ types.ImageScanSummary.Success s = true
        /\ types.ImageScanSummary.RawGrypeJSON s = EmptyString
        /\ (props.slice_len (props.trivy_vulnerabilities output) ->
            types.ImageScanSummary.TotCveCount s =
              Z.of_nat (List.length (props.trivy_vulnerabilities output))
            /\ props.buckets s =
                 map (fun n => props.delta n (props.trivy_matches_severities output))
                   props.trivy_buckets)
  end.
Proof.
  unfold main.trivyOutputToSummary.
  rewrite <- bind_assoc. fold (props.trivy_digests output). rewrite index_digest.
  destruct (props.digest_of (props.trivy_digests output)) as [digest|p]; [|reflexivity].
  cbn [Go.bind]. rewrite range_flat_map. fold (props.trivy_vulnerabilities output).
  match goal with
  | |- context [Go.range main.count_trivy ?vs (?s0, 0)] =>
      destruct (range_count_trivy vs s0 0) as (s & n & E & F & N & T)
  end.
  exists (types.ImageScanSummary.set_TotCveCount n s).
  rewrite E. cbn [Go.ret Go.bind fst snd]. rewrite app_nil_r. split; [reflexivity|].
  unfold props.frame in F. injection F as F1 F2 F3 F4 F5 F6 F7 F8 F9 F10 F11.
  repeat (split; [assumption|]).
  intros L. unfold props.slice_len in L. split.
  - cbn. apply N; lia.
  - change (props.buckets (types.ImageScanSummary.set_TotCveCount n s))
      with (props.buckets s).
    eapply tallied_from_zero; [| |apply T]; try reflexivity.
    apply room_zero; [reflexivity|lia].
Qed.
(** ** [json.Compact] keeps the document *)

Lemma scanner_eta (s : json.scanner) : json.mkScanner (json.stack s) (json.step_mode s) = s.
Proof. now destruct s. Qed.

(** What [emit] leaves: the end of the text, or the end of a value inside
    an array or object. *)
Lemma emit_shape stk v s :
  json.emit stk v = Some s ->
  (exists w, json.step_mode s = json.EndTop w)
  \/ (json.step_mode s = json.EndValue /\ json.stack s <> []).
Proof.
  unfold json.emit. intros H.
  destruct stk as [|[acc|acc|acc k|acc k|acc] up].
  - injection H as <-. left. now eexists.
  - injection H as <-. right. now split.
  - destruct v; try discriminate. injection H as <-. right. now split.
  - discriminate.
  - injection H as <-. right. now split.
  - discriminate.
Qed.

Lemma after_value_space stk v s c :
  json.emit stk v = Some s -> json.isSpace c = true -> json.after_value s c = Some s.
Proof.
  intros H Hc. destruct (emit_shape _ _ _ H) as [[w M]|[M N]];
    unfold json.after_value; rewrite M.
  - unfold json.end_top. now rewrite Hc.
  - unfold json.end_value. destruct (json.stack s) eqn:S; [congruence|].
    rewrite Hc, <- S, <- M. now rewrite scanner_eta.
Qed.

(** The bytes that [stateEndValue] accepts besides space. *)
Lemma end_value_delimiter stk c s :
  json.end_value stk c = Some s -> json.isSpace c = false ->
  (c = ":" \/ c = "," \/ c = "}" \/ c = "]")%char.
Proof.
  unfold json.end_value. intros H Hc. destruct stk as [|top up]; [discriminate|].
  rewrite Hc in H.
  destruct top;
    repeat match type of H with
           | (if Ascii.eqb c ?d then _ else _) = _ =>
               destruct (Ascii.eqb_spec c d); [subst; tauto|]
           end; discriminate.
Qed.

(** A delimiter ends a number that may end. *)
Lemma number_delimiter stk ns lit c :
  compact_facts.accepting ns = true ->
  (c = ":" \/ c = "," \/ c = "}" \/ c = "]")%char ->
  json.number stk ns lit c = json.end_number stk lit c.
Proof.
  intros A [->|[->|[->| ->]]]; destruct ns; try discriminate; reflexivity.
Qed.

(** A space ends a number that may end, and leaves the scanner after it. *)
Lemma number_space stk ns lit c s :
  json.isSpace c = true ->
  json.number stk ns lit c = Some s ->
  compact_facts.accepting ns = true
  /\ json.emit stk (json.JNumber (json.string_rev lit)) = Some s.
Proof.
  intros Hc.
  assert (D : json.is_digit c = false /\ json.is_digit19 c = false
              /\ Ascii.eqb c "." = false /\ Ascii.eqb c "e" = false
              /\ Ascii.eqb c "E" = false /\ Ascii.eqb c "0" = false
              /\ Ascii.eqb c "+" = false /\ Ascii.eqb c "-" = false).
  { unfold json.isSpace in Hc.
    repeat match type of Hc with
           | (_ || _)%bool = true => apply orb_true_iff in Hc; destruct Hc as [Hc|Hc]
           end; apply Ascii.eqb_eq in Hc; subst c; repeat split; reflexivity. }
  destruct D as (D1 & D2 & D3 & D4 & D5 & D6 & D7 & D8).
  unfold json.number, json.end_number.
  destruct ns; rewrite ?D1, ?D2, ?D3, ?D4, ?D5, ?D6, ?D7, ?D8; cbn [orb];
    try discriminate;
    (destruct (json.emit stk (json.JNumber (json.string_rev lit))) as [s0|] eqn:E;
     [|discriminate]);
    rewrite (after_value_space _ _ _ _ E Hc); intros H; injection H as <-; now split.
Qed.

(** A skipped byte leaves the scanner where it was, or closes a number. *)
Lemma step_skipped s c s1 :
  json.skipped s c = true -> json.step s c = Some s1 -> compact_facts.held s1 s.
Proof.
  unfold json.skipped. intros H. apply andb_true_iff in H. destruct H as [Hc Hm].
  unfold json.step. destruct s as [stk m]. cbn [json.stack json.step_mode] in *.
  destruct m; try discriminate; rewrite ?Hc.
  - unfold json.begin_value. rewrite Hc. intros E. injection E as <-. now left.
  - intros E. injection E as <-. now left.
  - intros E. injection E as <-. now left.
  - intros E. injection E as <-. now left.
  - unfold json.end_value. destruct stk; [discriminate|]. rewrite Hc.
    intros E. injection E as <-. now left.
  - unfold json.end_top. rewrite Hc. intros E. injection E as <-. now left.
  - intros E. destruct (number_space _ _ _ _ _ Hc E) as [A Em].
    right. exists ns, lit. now repeat split.
Qed.

(** After a value a space changes nothing. *)
Lemma emitted_shape stk v s :
  json.emit stk v = Some s ->
  json.between_values (json.step_mode s) = true
  /\ forall c, json.step s c = json.after_value s c.
Proof.
  intros E. destruct (emit_shape _ _ _ E) as [[w M]|[M N]].
  - split; [now rewrite M|]. intros c. unfold json.step, json.after_value. now rewrite M.
  - split; [now rewrite M|]. intros c. unfold json.step, json.after_value. now rewrite M.
Qed.

Lemma held_skipped s s' c s1 :
  compact_facts.held s s' -> json.skipped s c = true -> json.step s c = Some s1 ->
  compact_facts.held s1 s'.
Proof.
  intros [->|(ns & lit & M & A & E)] Hs Hstep.
  - eapply step_skipped; eassumption.
  - right. exists ns, lit. repeat split; try assumption.
    destruct (emitted_shape _ _ _ E) as [_ St]. rewrite St in Hstep.
    unfold json.skipped in Hs. apply andb_true_iff in Hs. destruct Hs as [Hc _].
    rewrite (after_value_space _ _ _ _ E Hc) in Hstep. now injection Hstep as <-.
Qed.

Lemma held_kept s s' c s1 :
  compact_facts.held s s' -> json.skipped s c = false -> json.step s c = Some s1 ->
  json.step s' c = Some s1.
Proof.
  intros [->|(ns & lit & M & A & E)] Hs Hstep; [assumption|].
  destruct (emitted_shape _ _ _ E) as [B St]. rewrite St in Hstep.
  unfold json.skipped in Hs. rewrite B, andb_true_r in Hs.
  assert (D : (c = ":" \/ c = "," \/ c = "}" \/ c = "]")%char).
  { unfold json.after_value in Hstep. destruct (emit_shape _ _ _ E) as [[w Mw]|[Mv _]].
    - rewrite Mw in Hstep. unfold json.end_top in Hstep. now rewrite Hs in Hstep.
    - rewrite Mv in Hstep. eapply end_value_delimiter; eassumption. }
  unfold json.step. rewrite M, (number_delimiter _ _ _ _ A D).
  unfold json.end_number. now rewrite E.
Qed.

Lemma held_eof s s' : compact_facts.held s s' -> json.eof s' = json.eof s.
Proof.
  intros [->|(ns & lit & M & A & E)]; [reflexivity|].
  destruct (emitted_shape _ _ _ E) as [_ St].
  assert (Sp : json.isSpace " " = true) by reflexivity.
  pose proof (after_value_space _ _ _ _ E Sp) as AV.
  assert (N : json.number (json.stack s') ns lit " " = Some s).
  { destruct ns; try discriminate; cbn; unfold json.end_number; now rewrite E. }
  unfold json.eof at 1. rewrite M. unfold json.step. rewrite M, N.
  unfold json.eof. rewrite St, AV. destruct s as [stk m]. cbn [json.step_mode].
  destruct m; reflexivity.
Qed.

(** The compacted text drives the scanner to the same document. *)
Lemma compact_run src : forall s s' out,
  compact_facts.held s s' ->
  json.compact s src = Some out ->
  json.run s' out = json.run s src.
Proof.
  induction src as [|c src IH]; intros s s' out H.
  - cbn [json.compact json.run]. destruct (json.eof s) eqn:E; [|discriminate].
    intros X. injection X as <-. cbn [json.run]. now rewrite (held_eof _ _ H).
  - cbn [json.compact json.run]. destruct (json.step s c) as [s1|] eqn:St; [|discriminate].
    destruct (json.compact s1 src) as [out1|] eqn:C; [|discriminate].
    intros X. injection X as <-. destruct (json.skipped s c) eqn:Sk.
    + apply (IH s1 s' out1); [|assumption]. eapply held_skipped; eassumption.
    + cbn [json.run]. rewrite (held_kept _ _ _ _ H Sk St).
      apply (IH s1 s1 out1); [now left|assumption].
Qed.

Lemma compact_some src : forall s,
  (exists out, json.compact s src = Some out) <-> (exists v, json.run s src = Some v).
Proof.
  induction src as [|c src IH]; intros s; cbn [json.compact json.run].
  - destruct (json.eof s); split; intros [x X]; try discriminate; eauto.
  - destruct (json.step s c) as [s1|]; [|split; intros [x X]; discriminate].
    rewrite <- IH. destruct (json.compact s1 src); split; intros [x X];
      try discriminate; eauto.
Qed.

(** [json.Compact] succeeds exactly on the texts that [json.Unmarshal]
    accepts, and its result denotes the same document as the text. *)
Lemma Compact_parse src out :
  json.Compact src = Go.Ok out ->
  json.parse out = json.parse src /\ exists v, json.parse src = Some v.
Proof.
  unfold json.Compact, json.parse. destruct (json.compact json.init src) as [o|] eqn:C;
    [|discriminate].
  intros X. injection X as <-. split.
  - apply (compact_run src json.init json.init o); [now left|assumption].
  - apply compact_some. eauto.
Qed.

Lemma Compact_total src v :
  json.parse src = Some v -> exists out, json.Compact src = Go.Ok out.
Proof.
  intros P. unfold json.Compact.
  destruct (proj2 (compact_some src json.init)) as [out ->]; eauto.
Qed.

(** ** The latest-scan statement *)

(** The order of the [time] column. *)
Lemma ascii_compare_refl c : Ascii.compare c c = Eq.
Proof. unfold Ascii.compare. apply N.compare_refl. Qed.

Lemma string_compare_refl s : String.compare s s = Eq.
Proof. induction s as [|c s IH]; simpl; [reflexivity|]. now rewrite ascii_compare_refl. Qed.

Lemma string_compare_lt_trans a : forall b c,
  String.compare a b = Lt -> String.compare b c = Lt -> String.compare a c = Lt.
Proof.
  induction a as [|x a IH]; intros [|y b] [|z c]; simpl; try discriminate; try reflexivity.
  destruct (Ascii.compare x y) eqn:XY; try discriminate;
    destruct (Ascii.compare y z) eqn:YZ; try discriminate.
  - apply Ascii.compare_eq_iff in XY, YZ. subst. rewrite ascii_compare_refl. apply IH.
  - apply Ascii.compare_eq_iff in XY. subst. now rewrite YZ.
  - apply Ascii.compare_eq_iff in YZ. subst. now rewrite XY.
  - intros _ _. unfold Ascii.compare in *. rewrite N.compare_lt_iff in *.
    assert (H : (N_of_ascii x < N_of_ascii z)%N) by lia.
    apply N.compare_lt_iff in H. now rewrite H.
Qed.

Lemma ltb_lt a b : String.ltb a b = true <-> String.compare a b = Lt.
Proof. unfold String.ltb. destruct (String.compare a b); split; congruence. Qed.

Lemma leb_not_ltb a b : String.leb a b = negb (String.ltb b a).
Proof.
  unfold String.leb, String.ltb. rewrite (String.compare_antisym b a).
  destruct (String.compare a b); reflexivity.
Qed.

Lemma ltb_trans a b c : String.ltb a b = true -> String.ltb b c = true -> String.ltb a c = true.
Proof. rewrite !ltb_lt. apply string_compare_lt_trans. Qed.

Lemma ltb_leb_trans a b c :
  String.ltb a b = true -> String.leb b c = true -> String.ltb a c = true.
Proof.
  rewrite !ltb_lt. unfold String.leb. intros H1 H2.
  destruct (String.compare b c) eqn:E; try discriminate.
  - apply String.compare_eq_iff in E. now subst.
  - eapply string_compare_lt_trans; eassumption.
Qed.

Lemma leb_ltb_trans a b c :
  String.leb a b = true -> String.ltb b c = true -> String.ltb a c = true.
Proof.
  rewrite !ltb_lt. unfold String.leb. intros H1 H2.
  destruct (String.compare a b) eqn:E; try discriminate.
  - apply String.compare_eq_iff in E. now subst.
  - eapply string_compare_lt_trans; eassumption.
Qed.

Lemma ltb_irrefl a : String.ltb a a = false.
Proof. unfold String.ltb. now rewrite string_compare_refl. Qed.

Lemma count_rows_zero p l : testquery.count_rows p l = 0 <-> forallb (fun x => negb (p x)) l = true.
Proof.
  unfold testquery.count_rows. induction l as [|x l IH]; simpl; [tauto|].
  destruct (p x); simpl; [split; [lia|discriminate]|exact IH].
Qed.

Lemma count_rows_nonneg p l : 0 <= testquery.count_rows p l.
Proof. unfold testquery.count_rows. lia. Qed.

Lemma row_number_one before r after :
  (1 + testquery.count_rows
         (fun x => (testquery.same_partition x r && testquery.not_earlier x r)%bool) before
     + testquery.count_rows
         (fun x => (testquery.same_partition x r && testquery.later x r)%bool) after =? 1)
  = latest.is_first before r after.
Proof.
  unfold latest.is_first.
  set (p := fun x => (testquery.same_partition x r && testquery.not_earlier x r)%bool).
  set (q := fun x => (testquery.same_partition x r && testquery.later x r)%bool).
  change ((1 + testquery.count_rows p before + testquery.count_rows q after =? 1)
          = (forallb (fun x => negb (p x)) before
             && forallb (fun x => negb (q x)) after)%bool).
  pose proof (count_rows_zero p before) as Z1. pose proof (count_rows_zero q after) as Z2.
  pose proof (count_rows_nonneg p before). pose proof (count_rows_nonneg q after).
  destruct (forallb (fun x => negb (p x)) before);
    destruct (forallb (fun x => negb (q x)) after); cbn [andb].
  - rewrite (proj2 Z1 eq_refl), (proj2 Z2 eq_refl). reflexivity.
  - apply Z.eqb_neq. intros E.
    assert (E2 : testquery.count_rows q after = 0) by lia.
    apply Z2 in E2. discriminate.
  - apply Z.eqb_neq. intros E.
    assert (E1 : testquery.count_rows p before = 0) by lia.
    apply Z1 in E1. discriminate.
  - apply Z.eqb_neq. intros E.
    assert (E1 : testquery.count_rows p before = 0) by lia.
    apply Z1 in E1. discriminate.
Qed.

(** The rows numbered 1, one row of the table at a time. *)
Lemma first_rows_cons before r after :
  latest.first_rows before (r :: after) =
  ((if latest.is_first before r after then [r] else [])
   ++ latest.first_rows (before ++ [r]) after)%list.
Proof.
  unfold latest.first_rows. cbn [testquery.row_number filter snd].
  rewrite row_number_one. destruct (latest.is_first before r after); reflexivity.
Qed.

Lemma first_rows_nil before : latest.first_rows before [] = [].
Proof. reflexivity. Qed.

Lemma same_partition_eq a b :
  testquery.same_partition a b = true <-> latest.image a = latest.image b.
Proof. unfold testquery.same_partition. apply String.eqb_eq. Qed.

Lemma later_lt a b : testquery.later a b = true <-> latest.time_lt b a.
Proof. reflexivity. Qed.

Lemma not_earlier_false a b : testquery.not_earlier a b = false <-> latest.time_lt a b.
Proof.
  unfold testquery.not_earlier, latest.time_lt, latest.time_. rewrite leb_not_ltb.
  destruct (String.ltb _ _); simpl; split; congruence.
Qed.

Lemma later_false a b : testquery.later a b = false <-> latest.time_le a b.
Proof.
  unfold testquery.later, latest.time_le, latest.time_. rewrite leb_not_ltb.
  destruct (String.ltb _ _); simpl; split; congruence.
Qed.

Lemma time_lt_trans a b c : latest.time_lt a b -> latest.time_lt b c -> latest.time_lt a c.
Proof. apply ltb_trans. Qed.

Lemma time_lt_le_trans a b c : latest.time_lt a b -> latest.time_le b c -> latest.time_lt a c.
Proof. apply ltb_leb_trans. Qed.

Lemma time_lt_le a b : latest.time_lt a b -> latest.time_le a b.
Proof.
  unfold latest.time_lt, latest.time_le, String.ltb, String.leb.
  destruct (String.compare _ _); congruence.
Qed.

Lemma time_le_refl a : latest.time_le a a.
Proof. unfold latest.time_le, String.leb. now rewrite string_compare_refl. Qed.

Lemma time_lt_not_le a b : latest.time_lt a b -> ~ latest.time_le b a.
Proof.
  unfold latest.time_lt, latest.time_le. rewrite leb_not_ltb. intros ->. discriminate.
Qed.

(** What being numbered 1 means, in terms of the order of scan times. *)
Lemma is_first_iff before r after :
  latest.is_first before r after = true <->
  (forall x, In x before -> latest.image x = latest.image r -> latest.time_lt x r)
  /\ (forall x, In x after -> latest.image x = latest.image r -> latest.time_le x r).
Proof.
  unfold latest.is_first. rewrite andb_true_iff, !forallb_forall.
  split; intros [H1 H2]; split; intros x Hx.
  - intros S. apply not_earlier_false. apply same_partition_eq in S.
    specialize (H1 x Hx). rewrite S in H1. now destruct (testquery.not_earlier x r).
  - intros S. apply later_false. apply same_partition_eq in S.
    specialize (H2 x Hx). rewrite S in H2. now destruct (testquery.later x r).
  - destruct (testquery.same_partition x r) eqn:S; [|reflexivity].
    apply same_partition_eq in S. apply (H1 x Hx), not_earlier_false in S. now rewrite S.
  - destruct (testquery.same_partition x r) eqn:S; [|reflexivity].
    apply same_partition_eq in S. apply (H2 x Hx), later_false in S. now rewrite S.
Qed.

(** A row numbered 1 is a row of the table; every row of its image that
    stands before it is strictly earlier, and none is later. *)
Lemma first_rows_in rows : forall before r,
  In r (latest.first_rows before rows) ->
  In r rows
  /\ (forall x, In x before -> latest.image x = latest.image r -> latest.time_lt x r)
  /\ (forall x, In x rows -> latest.image x = latest.image r -> latest.time_le x r).
Proof.
  induction rows as [|r0 after IH]; intros before r H; [contradiction|].
  rewrite first_rows_cons in H. apply in_app_or in H. destruct H as [H|H].
  - destruct (latest.is_first before r0 after) eqn:F; [|contradiction].
    destruct H as [<-|[]]. apply is_first_iff in F. destruct F as [F1 F2].
    split; [now left|]. split; [exact F1|].
    intros x [<-|Hx] S; [apply time_le_refl|now apply F2].
  - destruct (IH _ _ H) as (I & B & A). split; [now right|]. split.
    + intros x Hx. apply B, in_or_app. now left.
    + intros x [<-|Hx] S; [|now apply A].
      apply time_lt_le, B; [apply in_or_app; right; now left|assumption].
Qed.

(** No two rows numbered 1 are of the same image. *)
Lemma first_rows_NoDup rows : forall before,
  NoDup (map latest.image (latest.first_rows before rows)).
Proof.
  induction rows as [|r0 after IH]; intros before; [constructor|].
  rewrite first_rows_cons.
  destruct (latest.is_first before r0 after) eqn:F; [|apply IH].
  cbn [app map]. constructor; [|apply IH].
  intros H. apply in_map_iff in H. destruct H as (r2 & S & H).
  destruct (first_rows_in _ _ _ H) as (I & B & _).
  apply is_first_iff in F. destruct F as [_ F2].
  assert (L : latest.time_lt r0 r2).
  { apply B; [apply in_or_app; right; now left|now symmetry]. }
  exact (time_lt_not_le _ _ L (F2 r2 I S)).
Qed.

Lemma time_le_or_lt a b : latest.time_le a b \/ latest.time_lt b a.
Proof.
  unfold latest.time_le, latest.time_lt. rewrite leb_not_ltb.
  destruct (String.ltb _ _); simpl; tauto.
Qed.

(** Every image of the table has a row numbered 1. *)
Lemma first_rows_exists rows : forall before r0,
  In r0 rows ->
  (forall x, In x before -> latest.image x = latest.image r0 -> latest.time_lt x r0) ->
  exists r, In r (latest.first_rows before rows) /\ latest.image r = latest.image r0.
Proof.
  induction rows as [|r after IH]; intros before r0 Hin Hb; [contradiction|].
  rewrite first_rows_cons.
  destruct (String.eqb_spec (latest.image r) (latest.image r0)) as [S|S].
  - destruct (existsb (fun x => (testquery.same_partition x r && testquery.later x r)%bool)
                after) eqn:Ex.
    + apply existsb_exists in Ex. destruct Ex as (x & Hx & P).
      apply andb_true_iff in P. destruct P as [Sx Lx].
      apply same_partition_eq in Sx. apply later_lt in Lx.
      assert (C : exists r1, In r1 after /\ latest.image r1 = latest.image r0
                             /\ latest.time_lt r r1
                             /\ (forall y, In y before ->
                                   latest.image y = latest.image r0 -> latest.time_lt y r1)).
      { destruct Hin as [<-|Hin].
        - exists x. split; [assumption|]. split; [assumption|]. split; [assumption|].
          intros y Hy Sy. eapply time_lt_trans; [apply Hb; assumption|exact Lx].
        - destruct (time_le_or_lt r0 x) as [Le|Lt].
          + exists x. split; [assumption|]. split; [congruence|]. split; [assumption|].
            intros y Hy Sy. eapply time_lt_le_trans; [apply Hb; assumption|exact Le].
          + exists r0. split; [assumption|]. split; [reflexivity|]. split; [|exact Hb].
            eapply time_lt_trans; eassumption. }
      destruct C as (r1 & I1 & S1 & L1 & B1).
      destruct (IH (before ++ [r])%list r1 I1) as (r' & I' & S').
      * intros y Hy Sy. apply in_app_or in Hy. destruct Hy as [Hy|[<-|[]]].
        -- apply B1; [assumption|congruence].
        -- exact L1.
      * exists r'. split; [apply in_or_app; now right|congruence].
    + exists r. split; [|assumption].
      apply in_or_app. left.
      assert (F : latest.is_first before r after = true).
      { apply is_first_iff. split.
        - intros y Hy Sy. destruct Hin as [<-|Hin]; [now apply Hb|].
          eapply time_lt_le_trans; [apply Hb; [assumption|congruence]|].
          apply later_false. destruct (testquery.later r0 r) eqn:L; [|reflexivity].
          assert (X : existsb (fun x => (testquery.same_partition x r
                                         && testquery.later x r)%bool) after = true).
          { apply existsb_exists. exists r0. split; [assumption|].
            rewrite L, andb_true_r. apply same_partition_eq. now symmetry. }
          congruence.
        - intros y Hy Sy. apply later_false.
          destruct (testquery.later y r) eqn:L; [|reflexivity].
          assert (X : existsb (fun x => (testquery.same_partition x r
                                         && testquery.later x r)%bool) after = true).
          { apply existsb_exists. exists y. split; [assumption|].
            rewrite L, andb_true_r. now apply same_partition_eq. }
          congruence. }
      rewrite F. now left.
  - destruct Hin as [<-|Hin]; [congruence|].
    destruct (IH (before ++ [r])%list r0 Hin) as (r' & I' & S').
    + intros y Hy Sy. apply in_app_or in Hy. destruct Hy as [Hy|[<-|[]]]; [now apply Hb|].
      congruence.
    + exists r'. split; [apply in_or_app; now right|assumption].
Qed.

(** [ORDER BY image] only rearranges the rows. *)
Lemma insert_by_image_perm r l : Permutation (testquery.insert_by_image r l) (r :: l).
Proof.
  induction l as [|x l IH]; simpl; [apply Permutation_refl|].
  destruct (String.leb _ _); [apply Permutation_refl|].
  eapply Permutation_trans; [apply perm_skip, IH|apply perm_swap].
Qed.

Lemma order_by_image_perm l : Permutation (testquery.order_by_image l) l.
Proof.
  induction l as [|r l IH]; simpl; [constructor|].
  eapply Permutation_trans; [apply insert_by_image_perm|now apply perm_skip].
Qed.

Lemma latest_scan_query_perm table :
  Permutation (testquery.latest_scan_query table)
    (latest.first_rows [] (filter latest.is_grype table)).
Proof. unfold testquery.latest_scan_query. apply order_by_image_perm. Qed.

(** ** Decoding one document into two structures *)

Lemma dec_members_cons {T} (fs : json.fields T) t k v ms :
  json.dec_members fs t ((k, v) :: ms) =
  Go.rbind (reparse.apply_member fs k t v) (fun t' => json.dec_members fs t' ms).
Proof.
  unfold reparse.apply_member. cbn [json.dec_members].
  destruct (json.find_field fs k); reflexivity.
Qed.

Lemma NoDup_map_inj {A B} (g : A -> B) l a b :
  NoDup (map g l) -> In a l -> In b l -> g a = g b -> a = b.
Proof.
  induction l as [|x l IH]; simpl; [contradiction|].
  intros N [->|Ha] [->|Hb] E; try reflexivity.
  - apply NoDup_cons_iff in N. destruct N as [N _]. exfalso. apply N.
    rewrite E. now apply in_map.
  - apply NoDup_cons_iff in N. destruct N as [N _]. exfalso. apply N.
    rewrite <- E. now apply in_map.
  - apply NoDup_cons_iff in N. destruct N as [_ N]. now apply IH.
Qed.

(** When no two fields have the same name up to case, the exact match and
    the match up to case select the same field. *)
Lemma find_field_fold {T} (fs : json.fields T) k :
  NoDup (map (fun f => json.foldName (fst f)) fs) ->
  json.find_field fs k =
  option_map snd (find (fun f => String.eqb (json.foldName (fst f)) (json.foldName k)) fs).
Proof.
  intros N. unfold json.find_field.
  destruct (find (fun f => String.eqb (fst f) k) fs) as [f|] eqn:F.
  - apply find_some in F. destruct F as [Fin Fk]. apply String.eqb_eq in Fk.
    destruct (find (fun f => String.eqb (json.foldName (fst f)) (json.foldName k)) fs)
      as [f'|] eqn:F'.
    + apply find_some in F'. destruct F' as [Fin' Fk']. apply String.eqb_eq in Fk'.
      cbn [option_map]. f_equal. f_equal.
      apply (NoDup_map_inj (fun f => json.foldName (fst f)) fs); try assumption.
      cbn beta. now rewrite Fk', Fk.
    + exfalso. apply (find_none _ _ F') in Fin. rewrite Fk, String.eqb_refl in Fin.
      discriminate.
  - destruct (find _ fs); reflexivity.
Qed.

Lemma dec_members_paired {Q W} ok (P : Q -> W -> Prop) fq fw :
  reparse.paired ok P fq fw ->
  forall ms q w q' w',
    Forall (fun kv => ok (fst kv) (snd kv)) ms ->
    P q w ->
    json.dec_members fq q ms = Go.Ok q' ->
    json.dec_members fw w ms = Go.Ok w' ->
    P q' w'.
Proof.
  intros HP. induction ms as [|[k v] ms IH]; intros q w q' w' Hok H Eq Ew.
  - cbn in Eq, Ew. injection Eq as <-. injection Ew as <-. exact H.
  - rewrite dec_members_cons in Eq. rewrite dec_members_cons in Ew.
    apply Forall_cons_iff in Hok. destruct Hok as [Hkv Hok].
    destruct (reparse.apply_member fq k q v) as [q1|] eqn:A1; [|discriminate].
    destruct (reparse.apply_member fw k w v) as [w1|] eqn:A2; [|discriminate].
    cbn [Go.rbind] in Eq, Ew.
    apply (IH q1 w1); try assumption. eapply HP; eassumption.
Qed.

Lemma dec_struct_paired {Q W} (P : Q -> W -> Prop) fq fw :
  reparse.paired (fun _ _ => True) P fq fw ->
  forall j q w q' w',
    P q w ->
    json.dec_struct fq q j = Go.Ok q' ->
    json.dec_struct fw w j = Go.Ok w' ->
    P q' w'.
Proof.
  intros HP j q w q' w' H Eq Ew. destruct j; try discriminate.
  - cbn in Eq, Ew. injection Eq as <-. injection Ew as <-. exact H.
  - cbn [json.dec_struct] in Eq, Ew.
    eapply (dec_members_paired _ P fq fw HP members); try eassumption.
    apply Forall_forall. intros; exact I.
Qed.

Lemma dec_string_same a b j a' b' :
  a = b -> json.dec_string a j = Go.Ok a' -> json.dec_string b j = Go.Ok b' -> a' = b'.
Proof. intros -> Ea Eb. congruence. Qed.

(** Decoding into a field changes that field only. *)
Lemma field_inv {T A} (get : T -> A) set d t j t' :
  json.field get set d t j = Go.Ok t' ->
  exists a, d (get t) j = Go.Ok a /\ t' = set a t.
Proof.
  unfold json.field. destruct (d (get t) j) as [a|]; [|discriminate].
  intros E. injection E as <-. eauto.
Qed.

Ltac nodup_names :=
  unfold reparse.folded_names;
  repeat (apply NoDup_cons; [vm_compute; intuition discriminate|]); apply NoDup_nil.

(** Which field a key selects, by its folded name. *)
Lemma find_field_names {T} (fs : json.fields T) k :
  NoDup (reparse.folded_names fs) ->
  json.find_field fs k =
  option_map snd (find (fun f => String.eqb (json.foldName (fst f)) (json.foldName k)) fs).
Proof. apply find_field_fold. Qed.

Ltac split_chain H K :=
  repeat match type of H with
         | context [String.eqb (json.foldName ?lit) K] =>
             let E := fresh "E" in
             destruct (String.eqb_spec (json.foldName lit) K) as [E|E];
             vm_compute in E
         end.

(** Open the decoding of one member into a pair of structures: which field
    the key selects in each. *)
Ltac open_members Eq Ew k :=
  unfold reparse.apply_member in Eq, Ew;
  rewrite find_field_names in Eq by nodup_names;
  rewrite find_field_names in Ew by nodup_names;
  cbn [find fst snd option_map
       testquery.Vulnerability_fields types.GrypeVulnerability_fields
       testquery.Artifact_fields types.GrypeArtifact_fields
       testquery.Match_fields types.GrypeMatch_fields
       testquery.ImageCveScan_fields types.GrypeScanOutput_fields] in Eq, Ew;
  revert Eq Ew; generalize (json.foldName k); intros K Eq Ew;
  split_chain Eq K; split_chain Ew K; try congruence;
  cbn [option_map snd] in Eq, Ew.

Ltac invert_fields :=
  repeat match goal with
         | H : json.field _ _ _ _ _ = Go.Ok _ |- _ =>
             apply field_inv in H; destruct H as (? & H & ->)
         | H : Go.Ok _ = Go.Ok _ |- _ => injection H as <-
         end.

Ltac same_strings :=
  repeat split; try assumption;
  try (eapply dec_string_same; [|eassumption|eassumption]; assumption).

Lemma pair_Vulnerability :
  reparse.paired (fun _ _ => True) reparse.same_vulnerability
    testquery.Vulnerability_fields types.GrypeVulnerability_fields.
Proof.
  intros k v q w q' w' _ [P1 P2] Eq Ew. open_members Eq Ew k; invert_fields.
  all: unfold reparse.same_vulnerability; cbn; same_strings.
Qed.

Lemma pair_Artifact :
  reparse.paired (fun _ _ => True) reparse.same_artifact
    testquery.Artifact_fields types.GrypeArtifact_fields.
Proof.
  intros k v q w q' w' _ (P1 & P2 & P3) Eq Ew. open_members Eq Ew k; invert_fields.
  all: unfold reparse.same_artifact; cbn; same_strings.
Qed.

Lemma pair_Match :
  reparse.paired (fun _ _ => True) reparse.same_match
    testquery.Match_fields types.GrypeMatch_fields.
Proof.
  intros k v q w q' w' _ [P1 P2] Eq Ew. open_members Eq Ew k; invert_fields.
  all: unfold reparse.same_match; cbn; split; try assumption.
  - eapply (dec_struct_paired _ _ _ pair_Vulnerability); eassumption.
  - eapply (dec_struct_paired _ _ _ pair_Artifact); eassumption.
Qed.

(** The elements of the two [matches] slices stay paired when an array
    without [null] is decoded into both. *)
Lemma dec_elems_paired elems : forall oq ow lq lw,
  Forall2 reparse.same_slot oq ow ->
  existsb reparse.is_null elems = false ->
  json.dec_elems None (json.dec_ptr testquery.Match.zero
                         (json.dec_struct testquery.Match_fields)) oq elems = Go.Ok lq ->
  json.dec_elems types.GrypeMatch.zero (json.dec_struct types.GrypeMatch_fields) ow elems
  = Go.Ok lw ->
  Forall2 reparse.same_slot lq lw.
Proof.
  induction elems as [|e elems IH]; intros oq ow lq lw HO HN Eq Ew.
  - cbn in Eq, Ew. injection Eq as <-. injection Ew as <-. constructor.
  - cbn [json.dec_elems] in Eq, Ew. cbn [existsb] in HN.
    apply orb_false_iff in HN. destruct HN as [He HN].
    destruct (json.dec_ptr _ _ _ e) as [pq|] eqn:Dq; [|discriminate].
    destruct (json.dec_struct types.GrypeMatch_fields _ e) as [mw|] eqn:Dw; [|discriminate].
    cbn [Go.rbind] in Eq, Ew.
    destruct (json.dec_elems None _ (tl oq) elems) as [tq|] eqn:Tq; [|discriminate].
    destruct (json.dec_elems types.GrypeMatch.zero _ (tl ow) elems) as [tw|] eqn:Tw;
      [|discriminate].
    cbn [Go.rbind] in Eq, Ew. injection Eq as <-. injection Ew as <-.
    constructor.
    + unfold json.dec_ptr in Dq. destruct e; try discriminate; cbn [Go.rbind] in Dq;
        (match type of Dq with
         | Go.rbind ?r _ = _ => destruct r as [mq|] eqn:Sq; [|discriminate]
         end);
        cbn [Go.rbind] in Dq; injection Dq as <-;
        exists mq; (split; [reflexivity|]);
        (eapply (dec_struct_paired _ _ _ pair_Match); [|exact Sq|exact Dw]);
        (destruct HO as [|oq0 ow0 oq ow (m0 & -> & S0) HO];
         [repeat split|exact S0]).
    + apply (IH (tl oq) (tl ow)); try assumption.
      destruct HO; [constructor|assumption].
Qed.

Lemma pair_ImageCveScan :
  reparse.paired reparse.no_null_match reparse.same_matches
    testquery.ImageCveScan_fields types.GrypeScanOutput_fields.
Proof.
  intros k v q w q' w' Hok P Eq Ew.
  unfold reparse.no_null_match, reparse.member_without_null_match,
    reparse.is_matches_key in Hok.
  revert Hok. open_members Eq Ew k; invert_fields; intros Hok.
  all: unfold reparse.same_matches in *; cbn; try assumption.
  subst K. unfold json.dec_slice in *.
  destruct v; try discriminate.
  - injection Eq as <-. injection Ew as <-. constructor.
  - cbn in Hok. apply negb_true_iff in Hok.
    eapply dec_elems_paired; eassumption.
Qed.

(** A member whose key coincides with no scalar field leaves the scalar
    fields of the row as they are. *)
Lemma scalar_member k q v q' :
  reparse.coincides k = false ->
  reparse.apply_member testquery.ImageCveScan_fields k q v = Go.Ok q' ->
  reparse.scalars q' = reparse.scalars q.
Proof.
  intros Hc Eq. unfold reparse.coincides, reparse.scalar_names in Hc.
  cbn [existsb] in Hc. revert Hc.
  unfold reparse.apply_member in Eq.
  rewrite find_field_names in Eq by nodup_names.
  cbn [find fst snd option_map testquery.ImageCveScan_fields] in Eq.
  revert Eq. generalize (json.foldName k). intros K Eq.
  split_chain Eq K; cbn [option_map snd] in Eq; invert_fields;
    try (subst K; intros Hc; vm_compute in Hc; discriminate);
    intros _; reflexivity.
Qed.

Lemma scalar_members ms : forall q q',
  Forall (fun kv => reparse.coincides (fst kv) = false) ms ->
  json.dec_members testquery.ImageCveScan_fields q ms = Go.Ok q' ->
  reparse.scalars q' = reparse.scalars q.
Proof.
  induction ms as [|[k v] ms IH]; intros q q' Hc Eq.
  - cbn in Eq. now injection Eq as <-.
  - rewrite dec_members_cons in Eq. apply Forall_cons_iff in Hc. destruct Hc as [Hk Hc].
    destruct (reparse.apply_member _ k q v) as [q1|] eqn:A; [|discriminate].
    cbn [Go.rbind] in Eq. rewrite (IH q1 q' Hc Eq). eapply scalar_member; eassumption.
Qed.

(** ** Severity counts (C4, C5) *)

Lemma filter_length_all {A} (p : A -> bool) l :
  List.length (filter p l) = List.length l <-> Forall (fun x => p x = true) l.
Proof.
  induction l as [|x l IH]; simpl; [split; [constructor|reflexivity]|].
  pose proof (filter_length_le p l) as Hle.
  destruct (p x) eqn:E; simpl.
  - split.
    + intros H. constructor; [assumption|]. apply IH. lia.
    + intros H. apply Forall_cons_iff in H. f_equal. now apply IH.
  - split; [lia|]. intros H. apply Forall_cons_iff in H. destruct H; congruence.
Qed.

(** The six grype buckets together count the recognized severities. *)
Lemma grype_deltas_sum sevs :
  fold_right Z.add 0 (map (fun n => props.delta n sevs) props.grype_buckets)
  = Z.of_nat (List.length (filter (props.recognized props.grype_severities) sevs)).
Proof.
  induction sevs as [|x sevs IH].
  - reflexivity.
  - unfold props.grype_buckets, props.grype_severities in *.
    cbn [map fold_right props.delta] in *.
    rewrite !occurrences_cons. cbn [filter].
    unfold props.recognized at 1. cbn [existsb].
    severity_case x "Low"; [|severity_case x "Medium"; [|severity_case x "High";
      [|severity_case x "Critical"; [|severity_case x "Negligible";
      [|severity_case x "Unknown"]]]]];
    rewrite_tests; cbn [String.eqb Ascii.eqb Bool.eqb orb List.length]; lia.
Qed.

Lemma bucket_sum_buckets s : props.bucket_sum s = fold_right Z.add 0 (props.buckets s).
Proof. unfold props.bucket_sum, props.buckets. simpl. lia. Qed.

(** C4: for a grype report that yields a summary, the six severity buckets
    sum to at most [total], and to exactly [total] if and only if the
    severity string of every match is one of Low, Medium, High, Critical,
    Negligible, Unknown. *)
Theorem C4_grype_bucket_sum_le_total image t output s out :
  props.slice_len (types.GrypeScanOutput.Matches output) ->
  main.grypeOutputToSummary image t output = (Go.Returned s, out) ->
  props.bucket_sum s <= types.ImageScanSummary.TotCveCount s
  /\ (props.bucket_sum s = types.ImageScanSummary.TotCveCount s <->
      Forall (fun sev => props.recognized props.grype_severities sev = true)
        (props.grype_matches_severities output)).
Proof.
  intros L E. pose proof (grypeOutputToSummary_spec image t output) as S.
  destruct (props.digest_of (props.grype_digests output)); [|congruence].
  destruct S as (s' & E' & F & B). rewrite E in E'. injection E' as <- _.
  specialize (B L). rewrite bucket_sum_buckets, B, grype_deltas_sum.
  unfold props.frame in F. injection F as _ _ _ _ _ _ _ _ _ Tot _. rewrite Tot.
  unfold props.grype_matches_severities.
  rewrite <- (length_map props.grype_severity (types.GrypeScanOutput.Matches output)).
  pose proof (filter_length_le (props.recognized props.grype_severities)
                (map props.grype_severity (types.GrypeScanOutput.Matches output))) as Hle.
  split; [lia|]. rewrite <- filter_length_all. lia.
Qed.

Lemma C4_witness :
  props.bucket_sum samples.grype_summary
    <= types.ImageScanSummary.TotCveCount samples.grype_summary
  /\ (props.bucket_sum samples.grype_summary
        = types.ImageScanSummary.TotCveCount samples.grype_summary <->
      Forall (fun sev => props.recognized props.grype_severities sev = true)
        (props.grype_matches_severities samples.grype_output)).
Proof.
  apply (C4_grype_bucket_sum_le_total "cgr.dev/chainguard/static:latest" 1700000000
           samples.grype_output samples.grype_summary
           ["WARNING: unknown severity: Catastrophic" ++ Go.newline]).
  - vm_compute. reflexivity.
  - vm_compute. reflexivity.
Defined.


Lemma warnings_app known a b :
  props.warnings known (a ++ b) = (props.warnings known a ++ props.warnings known b)%list.
Proof. unfold props.warnings. now rewrite filter_app, map_app. Qed.

Lemma occurrences_app n a b :
  props.occurrences n (a ++ b) = props.occurrences n a + props.occurrences n b.
Proof. unfold props.occurrences. rewrite filter_app, length_app. lia. Qed.

Lemma recognized_false known x n :
  props.recognized known x = false -> In n known -> String.eqb x n = false.
Proof.
  unfold props.recognized. intros H Hin.
  destruct (String.eqb x n) eqn:E; [|reflexivity].
  assert (existsb (String.eqb x) known = true) by (apply existsb_exists; eauto).
  congruence.
Qed.

(** An entry of unrecognized severity changes no bucket. *)
Lemma deltas_unrecognized known names x a b :
  (forall n, In (Some n) names -> In n known) ->
  props.recognized known x = false ->
  map (fun n => props.delta n (a ++ x :: b)) names
  = map (fun n => props.delta n (a ++ b)) names.
Proof.
  intros Hn Hx. apply map_ext_in. intros [n|] Hin; [|reflexivity]. simpl.
  rewrite !occurrences_app, occurrences_cons.
  rewrite (recognized_false known x n Hx (Hn n Hin)). lia.
Qed.

Lemma warnings_unrecognized known x a b :
  props.recognized known x = false ->
  props.warnings known (a ++ x :: b)
  = (props.warnings known a
     ++ [("WARNING: unknown severity: " ++ x ++ Go.newline)%string]
     ++ props.warnings known b)%list.
Proof.
  intros Hx. rewrite warnings_app, warnings_cons, Hx. reflexivity.
Qed.

Lemma grype_bucket_names n :
  In (Some n) props.grype_buckets -> In n props.grype_severities.
Proof.
  unfold props.grype_buckets, props.grype_severities. simpl.
  intros H. repeat (destruct H as [H|H]; [injection H as <-; tauto|]). contradiction.
Qed.

Lemma trivy_bucket_names n :
  In (Some n) props.trivy_buckets -> In n props.trivy_severities.
Proof.
  unfold props.trivy_buckets, props.trivy_severities. simpl.
  intros H. repeat (destruct H as [H|H]; [try discriminate; injection H as <-; tauto|]).
  contradiction.
Qed.

(** C5: an entry whose severity string is not one the scanner's switch
    knows is counted in [total] and in no bucket, a warning is printed for
    it, and it never makes normalization fail: whenever the report without
    the entry yields a summary, so does the report with it, with the same
    buckets, a total larger by one and one more warning.  For grype the
    entry is a match; for trivy it is a vulnerability of any result. *)
Theorem C5_unrecognized_severity_counts_in_total_only :
  (forall image t output pre m post s' out',
      types.GrypeScanOutput.Matches output = (pre ++ m :: post)%list ->
      props.recognized props.grype_severities (props.grype_severity m) = false ->
      props.slice_len (types.GrypeScanOutput.Matches output) ->
      main.grypeOutputToSummary image t
        (types.GrypeScanOutput.set_Matches (pre ++ post) output) = (Go.Returned s', out') ->
      exists s,
        main.grypeOutputToSummary image t output =
          (Go.Returned s,
           (props.warnings props.grype_severities (map props.grype_severity pre)
            ++ [("WARNING: unknown severity: " ++ props.grype_severity m ++ Go.newline)%string]
            ++ props.warnings props.grype_severities (map props.grype_severity post))%list)
        /\ out' = (props.warnings props.grype_severities (map props.grype_severity pre)
                   ++ props.warnings props.grype_severities (map props.grype_severity post))%list
        /\ props.buckets s = props.buckets s'
        /\ types.ImageScanSummary.TotCveCount s = types.ImageScanSummary.TotCveCount s' + 1)
  /\
  (forall image t version output output' pre v post s' out',
      props.trivy_digests output = props.trivy_digests output' ->
      props.trivy_vulnerabilities output = (pre ++ v :: post)%list ->
      props.trivy_vulnerabilities output' = (pre ++ post)%list ->
      props.recognized props.trivy_severities (types.TrivyVulnerability.Severity v) = false ->
      props.slice_len (props.trivy_vulnerabilities output) ->
      main.trivyOutputToSummary image t output' version = (Go.Returned s', out') ->
      exists s,
        main.trivyOutputToSummary image t output version =
          (Go.Returned s,
           (props.warnings props.trivy_severities (map types.TrivyVulnerability.Severity pre)
            ++ [("WARNING: unknown severity: " ++ types.TrivyVulnerability.Severity v
                 ++ Go.newline)%string]
            ++ props.warnings props.trivy_severities
                 (map types.TrivyVulnerability.Severity post))%list)
        /\ out' = (props.warnings props.trivy_severities
                     (map types.TrivyVulnerability.Severity pre)
                   ++ props.warnings props.trivy_severities
                        (map types.TrivyVulnerability.Severity post))%list
        /\ props.buckets s = props.buckets s'
        /\ types.ImageScanSummary.TotCveCount s = types.ImageScanSummary.TotCveCount s' + 1).
Proof.
  split.
  - intros image t output pre m post s' out' HM Hx L E'.
    pose proof (grypeOutputToSummary_spec image t output) as S.
    pose proof (grypeOutputToSummary_spec image t
                  (types.GrypeScanOutput.set_Matches (pre ++ post) output)) as S'.
    change (props.grype_digests (types.GrypeScanOutput.set_Matches (pre ++ post) output))
      with (props.grype_digests output) in S'.
    destruct (props.digest_of (props.grype_digests output)) as [digest|p]; [|congruence].
    destruct S as (s & E & F & B). destruct S' as (s1 & E1 & F1 & B1).
    rewrite E' in E1. injection E1 as <- ->.
    unfold props.grype_matches_severities in *.
    cbn [types.GrypeScanOutput.Matches types.GrypeScanOutput.set_Matches] in *.
    unfold props.slice_len in *. rewrite HM in *.
    rewrite length_app in *. cbn [List.length] in *.
    rewrite map_app in *. cbn [map] in *.
    exists s. split; [|split; [|split]].
    + rewrite E. f_equal. now apply warnings_unrecognized.
    + now rewrite warnings_app.
    + rewrite B, B1 by lia.
      apply (deltas_unrecognized props.grype_severities); [apply grype_bucket_names|exact Hx].
    + unfold props.frame in F, F1.
      injection F as _ _ _ _ _ _ _ _ _ T _. injection F1 as _ _ _ _ _ _ _ _ _ T1 _.
      rewrite T, T1. lia.
  - intros image t version output output' pre v post s' out' HD HV HV' Hx L E'.
    pose proof (trivyOutputToSummary_spec image t output version) as S.
    pose proof (trivyOutputToSummary_spec image t output' version) as S'.
    rewrite <- HD in S'.
    destruct (props.digest_of (props.trivy_digests output)) as [digest|p]; [|congruence].
    destruct S as (s & E & _ & _ & _ & _ & B). destruct S' as (s1 & E1 & _ & _ & _ & _ & B1).
    rewrite E' in E1. injection E1 as <- ->.
    unfold props.trivy_matches_severities, props.slice_len in *. rewrite HV, HV' in *.
    rewrite length_app in *. cbn [List.length] in *.
    rewrite map_app in *. cbn [map] in *.
    destruct B as [T B]; [lia|]. destruct B1 as [T1 B1]; [lia|].
    exists s. split; [|split; [|split]].
    + rewrite E. f_equal. now apply warnings_unrecognized.
    + now rewrite warnings_app.
    + rewrite B, B1.
      apply (deltas_unrecognized props.trivy_severities); [apply trivy_bucket_names|exact Hx].
    + rewrite T, T1. lia.
Qed.


Lemma C5_witness :
  (exists s out,
      main.grypeOutputToSummary "cgr.dev/chainguard/static:latest" 1700000000
        samples.grype_output = (Go.Returned s, out)
      /\ In ("WARNING: unknown severity: Catastrophic" ++ Go.newline)%string out
      /\ props.buckets s = props.buckets samples.grype_summary_less
      /\ types.ImageScanSummary.TotCveCount s
         = types.ImageScanSummary.TotCveCount samples.grype_summary_less + 1)
  /\
  (exists s out,
      main.trivyOutputToSummary "cgr.dev/chainguard/static:latest" 1700000000
        samples.trivy_output samples.trivy_version_output = (Go.Returned s, out)
      /\ In ("WARNING: unknown severity: Catastrophic" ++ Go.newline)%string out
      /\ props.buckets s = props.buckets samples.trivy_summary_less
      /\ types.ImageScanSummary.TotCveCount s
         = types.ImageScanSummary.TotCveCount samples.trivy_summary_less + 1).
Proof.
  split.
  - destruct (proj1 C5_unrecognized_severity_counts_in_total_only
                "cgr.dev/chainguard/static:latest" 1700000000 samples.grype_output
                (firstn 1 (types.GrypeScanOutput.Matches samples.grype_output))
                (nth 1 (types.GrypeScanOutput.Matches samples.grype_output)
                   types.GrypeMatch.zero)
                (skipn 2 (types.GrypeScanOutput.Matches samples.grype_output))
                samples.grype_summary_less [])
      as (s & E & _ & B & T).
    + vm_compute. reflexivity.
    + vm_compute. reflexivity.
    + vm_compute. reflexivity.
    + vm_compute. reflexivity.
    + exists s. eexists. split; [exact E|]. split; [|split; assumption].
      vm_compute. left. reflexivity.
  - destruct (proj2 C5_unrecognized_severity_counts_in_total_only
                "cgr.dev/chainguard/static:latest" 1700000000 samples.trivy_version_output
                samples.trivy_output samples.trivy_output_less
                (firstn 1 (props.trivy_vulnerabilities samples.trivy_output))
                (nth 1 (props.trivy_vulnerabilities samples.trivy_output)
                   types.TrivyVulnerability.zero)
                (skipn 2 (props.trivy_vulnerabilities samples.trivy_output))
                samples.trivy_summary_less [])
      as (s & E & _ & B & T).
    + vm_compute. reflexivity.
    + vm_compute. reflexivity.
    + vm_compute. reflexivity.
    + vm_compute. reflexivity.
    + vm_compute. reflexivity.
    + vm_compute. reflexivity.
    + exists s. eexists. split; [exact E|]. split; [|split; assumption].
      vm_compute. left. reflexivity.
Defined.

(** ** The digest (C2) *)

Lemma after_separator pre post sep :
  strings.Contains pre sep = false ->
  props.after sep (pre ++ String sep post) = Some post.
Proof.
  induction pre as [|c pre IH]; simpl.
  - now rewrite Ascii.eqb_refl.
  - destruct (Ascii.eqb c sep); [discriminate|]. exact IH.
Qed.

Lemma upto_all s sep : strings.Contains s sep = false -> props.upto sep s = s.
Proof.
  induction s as [|c s IH]; simpl; [reflexivity|].
  destruct (Ascii.eqb c sep); [discriminate|]. simpl. intros H. now rewrite IH.
Qed.

Lemma digest_of_first d ds pre post :
  d = pre ++ String "@" post ->
  strings.Contains pre "@" = false ->
  strings.Contains post "@" = false ->
  props.digest_of (d :: ds) = Go.Returned post.
Proof.
  intros -> Hpre Hpost. unfold props.digest_of.
  now rewrite (after_separator _ _ _ Hpre), (upto_all _ _ Hpost).
Qed.

(** C2, as the code has it: the digest comes from the first entry of the
    repository-digest list alone and is what follows the [@] of that entry;
    when the list is empty neither normalizer returns a summary or an error
    value, the index expression panics. *)
Theorem C2_digest_is_suffix_of_first_repo_digest :
  (forall image t output d ds pre post,
      props.grype_digests output = d :: ds ->
      d = pre ++ String "@" post ->
      strings.Contains pre "@" = false ->
      strings.Contains post "@" = false ->
      exists s out,
        main.grypeOutputToSummary image t output = (Go.Returned s, out)
        /\ types.ImageScanSummary.Digest s = post)
  /\ (forall image t output,
         props.grype_digests output = [] ->
         main.grypeOutputToSummary image t output
         = (Go.Panicked (Go.IndexOutOfRange 0 0), []))
  /\ (forall image t version output d ds pre post,
         props.trivy_digests output = d :: ds ->
         d = pre ++ String "@" post ->
         strings.Contains pre "@" = false ->
         strings.Contains post "@" = false ->
         exists s out,
           main.trivyOutputToSummary image t output version = (Go.Returned s, out)
           /\ types.ImageScanSummary.Digest s = post)
  /\ (forall image t version output,
         props.trivy_digests output = [] ->
         main.trivyOutputToSummary image t output version
         = (Go.Panicked (Go.IndexOutOfRange 0 0), [])).
Proof.
  repeat split.
  - intros image t output d ds pre post HD Hd Hpre Hpost.
    pose proof (grypeOutputToSummary_spec image t output) as S.
    rewrite HD, (digest_of_first d ds pre post Hd Hpre Hpost) in S.
    destruct S as (s & E & F & _). exists s. eexists. split; [exact E|].
    unfold props.frame in F. now injection F.
  - intros image t output HD.
    pose proof (grypeOutputToSummary_spec image t output) as S. now rewrite HD in S.
  - intros image t version output d ds pre post HD Hd Hpre Hpost.
    pose proof (trivyOutputToSummary_spec image t output version) as S.
    rewrite HD, (digest_of_first d ds pre post Hd Hpre Hpost) in S.
    destruct S as (s & E & D & _). exists s. eexists. split; [exact E|exact D].
  - intros image t version output HD.
    pose proof (trivyOutputToSummary_spec image t output version) as S. now rewrite HD in S.
Qed.

Lemma C2_witness :
  (exists s out,
      main.grypeOutputToSummary "cgr.dev/chainguard/static:latest" 1700000000
        samples.grype_output = (Go.Returned s, out)
      /\ types.ImageScanSummary.Digest s = "sha256:abc")
  /\ (exists s out,
         main.trivyOutputToSummary "cgr.dev/chainguard/static:latest" 1700000000
           samples.trivy_output samples.trivy_version_output = (Go.Returned s, out)
         /\ types.ImageScanSummary.Digest s = "sha256:abc")
  /\ main.grypeOutputToSummary "cgr.dev/chainguard/static:latest" 1700000000
       types.GrypeScanOutput.zero = (Go.Panicked (Go.IndexOutOfRange 0 0), [])
  /\ main.trivyOutputToSummary "cgr.dev/chainguard/static:latest" 1700000000
       types.TrivyScanOutput.zero samples.trivy_version_output
     = (Go.Panicked (Go.IndexOutOfRange 0 0), []).
Proof.
  destruct C2_digest_is_suffix_of_first_repo_digest as (G & G0 & T & T0).
  split; [|split; [|split]].
  - apply (G _ _ samples.grype_output "repo@sha256:abc" [] "repo" "sha256:abc");
      vm_compute; reflexivity.
  - apply (T _ _ _ samples.trivy_output "repo@sha256:abc" [] "repo" "sha256:abc");
      vm_compute; reflexivity.
  - apply G0. vm_compute. reflexivity.
  - apply T0. vm_compute. reflexivity.
Defined.

(** C2 fails as it is stated: scanning an image whose report lists no
    repository digest does not return an error to the caller of
    [scanImageGrype]; the call panics. *)
Lemma C2_counterexample :
  (exists output,
      json.Unmarshal types.dec_GrypeScanOutput samples.grype_report_no_digest
        types.GrypeScanOutput.zero = Go.Ok output
      /\ props.grype_digests output = [])
  /\ fst (main.scanImageGrype
            (samples.host_with "/tmp/grype-scan-1" samples.grype_report_no_digest 1700000000)
            "cgr.dev/chainguard/static:latest" "json" EmptyString)
     = Go.Panicked (Go.IndexOutOfRange 0 0)
  /\ forall e,
       fst (main.scanImageGrype
              (samples.host_with "/tmp/grype-scan-1" samples.grype_report_no_digest
                 1700000000)
              "cgr.dev/chainguard/static:latest" "json" EmptyString)
       <> Go.Returned (Go.Err e).
Proof.
  split; [|split].
  - eexists. split; [vm_compute; reflexivity|reflexivity].
  - vm_compute. reflexivity.
  - intros e. vm_compute. discriminate.
Defined.

(** ** The reading and printing loops of the query tool (C3, C8, C9) *)

Lemma read_body_no_break is_ : testquery.read_body is_ testquery.NoError <> testquery.Break.
Proof.
  unfold testquery.read_body.
  destruct (negb _); [|discriminate].
  destruct (json.Unmarshal _ _ _); discriminate.
Qed.

(** The loop breaks only when the rows are exhausted. *)
Lemma read_body_break is_ err :
  testquery.read_body is_ err = testquery.Break -> err = testquery.Done.
Proof.
  unfold testquery.read_body.
  destruct (negb _).
  - destruct (json.Unmarshal _ _ _); discriminate.
  - destruct err; [discriminate|reflexivity|discriminate].
Qed.

Lemma read_loop_app pre rest : forall acc,
  testquery.read_loop (pre ++ rest)%list acc =
  match testquery.read_loop pre acc with
  | inl scans => testquery.read_loop rest scans
  | inr f => inr f
  end.
Proof.
  induction pre as [|x pre IH]; intros acc.
  - reflexivity.
  - cbn [app]. destruct x as [r|e stored]; cbn [testquery.read_loop testquery.Next].
    + pose proof (read_body_no_break (testquery.load r testquery.ImageCveScan.zero)) as NB.
      destruct (testquery.read_body _ _); try reflexivity; [congruence|apply IH].
    + pose proof (read_body_break (stored testquery.ImageCveScan.zero) (testquery.Failed e))
        as NB.
      destruct (testquery.read_body _ _); try reflexivity; [specialize (NB eq_refl)|apply IH].
      discriminate NB.
Qed.

Lemma read_loop_failing_row r e post acc :
  types.ImageScanSummary.RawGrypeJSON r <> EmptyString ->
  json.Unmarshal testquery.dec_ImageCveScan (types.ImageScanSummary.RawGrypeJSON r)
    (testquery.load r testquery.ImageCveScan.zero) = Go.Err e ->
  testquery.read_loop (testquery.Fetched r :: post) acc
  = inr ("Failed to unmarshal CVE match: ", Some e).
Proof.
  intros Hne Herr. cbn [testquery.read_loop testquery.Next].
  unfold testquery.read_body.
  change (testquery.ImageCveScan.MatchesString
            (testquery.load r testquery.ImageCveScan.zero))
    with (types.ImageScanSummary.RawGrypeJSON r).
  apply String.eqb_neq in Hne. rewrite Hne. cbn [negb]. rewrite Herr. reflexivity.
Qed.

(** C3, as the code has it: a raw report that cannot be re-parsed ends the
    whole query.  Whatever rows were read before it and whatever rows follow
    it, [main] ends in [log.Fatal] and prints no report at all. *)
Theorem C3_reparse_failure_ends_the_query bq pre r post scans e :
  testquery.NewClient bq = Go.Ok tt ->
  testquery.Read bq = Go.Ok (pre ++ testquery.Fetched r :: post)%list ->
  testquery.read_loop pre [] = inl scans ->
  types.ImageScanSummary.RawGrypeJSON r <> EmptyString ->
  json.Unmarshal testquery.dec_ImageCveScan (types.ImageScanSummary.RawGrypeJSON r)
    (testquery.load r testquery.ImageCveScan.zero) = Go.Err e ->
  testquery.main bq = testquery.LogFatal "Failed to unmarshal CVE match: " (Some e).
Proof.
  intros HC HR Hpre Hne Herr. unfold testquery.main. rewrite HC, HR.
  rewrite read_loop_app, Hpre. cbv beta iota.
  match goal with
  | |- match ?x with _ => _ end = _ =>
      replace x with (@inr (list testquery.ImageCveScan.t) _
                        ("Failed to unmarshal CVE match: ", Some e))
        by (symmetry; apply read_loop_failing_row; assumption)
  end.
  reflexivity.
Qed.

Lemma C3_witness :
  testquery.main
    (testquery.mkBigquery (Go.Ok tt)
       (Go.Ok [testquery.Fetched (samples.grype_row "a" 1700000000);
               testquery.Fetched (samples.broken_row "b" 1700000000);
               testquery.Fetched (samples.grype_row "c" 1700000000)]))
  = testquery.LogFatal "Failed to unmarshal CVE match: " (Some Go.ErrSyntax).
Proof.
  apply (C3_reparse_failure_ends_the_query _
           [testquery.Fetched (samples.grype_row "a" 1700000000)]
           (samples.broken_row "b" 1700000000)
           [testquery.Fetched (samples.grype_row "c" 1700000000)]
           (match testquery.read_loop
                    [testquery.Fetched (samples.grype_row "a" 1700000000)] [] with
            | inl scans => scans
            | inr _ => []
            end)).
  - reflexivity.
  - reflexivity.
  - vm_compute. reflexivity.
  - vm_compute. discriminate.
  - vm_compute. reflexivity.
Defined.

(** C3 fails as it is stated: with a row that cannot be re-parsed in the
    batch, the rows around it are not processed.  Alone, the rows of images
    [a] and [c] are reported; together with the broken row of [b], nothing
    is. *)
Lemma C3_counterexample :
  (exists out,
      testquery.main
        (testquery.mkBigquery (Go.Ok tt)
           (Go.Ok [testquery.Fetched (samples.grype_row "a" 1700000000);
                   testquery.Fetched (samples.grype_row "c" 1700000000)]))
      = testquery.Exit out
      /\ In ("a" ++ Go.newline)%string out /\ In ("c" ++ Go.newline)%string out)
  /\ forall out,
       testquery.main
         (testquery.mkBigquery (Go.Ok tt)
            (Go.Ok [testquery.Fetched (samples.grype_row "a" 1700000000);
                    testquery.Fetched (samples.broken_row "b" 1700000000);
                    testquery.Fetched (samples.grype_row "c" 1700000000)]))
       <> testquery.Exit out.
Proof.
  split.
  - eexists. split; [vm_compute; reflexivity|]. split; simpl; tauto.
  - intros out. vm_compute. discriminate.
Defined.

(** C9: a row whose raw-report column is empty is decoded without a
    re-parse and without error; its vulnerability list is empty and the
    loop goes on with the next row. *)
Theorem C9_empty_raw_report_gives_no_matches r it scans :
  types.ImageScanSummary.RawGrypeJSON r = EmptyString ->
  testquery.read_body (testquery.load r testquery.ImageCveScan.zero) testquery.NoError
  = testquery.Append (testquery.load r testquery.ImageCveScan.zero)
  /\ testquery.ImageCveScan.Matches (testquery.load r testquery.ImageCveScan.zero) = []
  /\ testquery.read_loop (testquery.Fetched r :: it) scans
     = testquery.read_loop it (scans ++ [testquery.load r testquery.ImageCveScan.zero])%list.
Proof.
  intros H.
  assert (B : testquery.read_body (testquery.load r testquery.ImageCveScan.zero)
                testquery.NoError
              = testquery.Append (testquery.load r testquery.ImageCveScan.zero)).
  { unfold testquery.read_body.
    change (testquery.ImageCveScan.MatchesString
              (testquery.load r testquery.ImageCveScan.zero))
      with (types.ImageScanSummary.RawGrypeJSON r).
    rewrite H. reflexivity. }
  split; [exact B|]. split; [reflexivity|].
  cbn [testquery.read_loop testquery.Next]. now rewrite B.
Qed.

Lemma C9_witness :
  testquery.read_body
    (testquery.load (samples.clean_row "a" 1700000000) testquery.ImageCveScan.zero)
    testquery.NoError
  = testquery.Append
      (testquery.load (samples.clean_row "a" 1700000000) testquery.ImageCveScan.zero)
  /\ testquery.ImageCveScan.Matches
       (testquery.load (samples.clean_row "a" 1700000000) testquery.ImageCveScan.zero) = []
  /\ testquery.read_loop [testquery.Fetched (samples.clean_row "a" 1700000000)] []
     = testquery.read_loop []
         ([] ++ [testquery.load (samples.clean_row "a" 1700000000)
                   testquery.ImageCveScan.zero])%list.
Proof.
  apply (C9_empty_raw_report_gives_no_matches (samples.clean_row "a" 1700000000) [] []).
  reflexivity.
Defined.








(** ** The embedded raw report (C6) *)

Lemma bind_inv {A B} (m : Go.io A) (k : A -> Go.io B) b out :
  Go.bind m k = (Go.Returned b, out) ->
  exists a o1 o2,
    m = (Go.Returned a, o1) /\ k a = (Go.Returned b, o2) /\ out = (o1 ++ o2)%list.
Proof.
  destruct m as [[a|p] o1]; simpl; [|discriminate].
  destruct (k a) as [r o2] eqn:K. intros H. injection H as -> <-.
  now exists a, o1, o2.
Qed.

Lemma attempt_inv {A} (r : Go.result A) (k : A -> Go.io (Go.result main.scan)) x out :
  main.attempt r k = (Go.Returned (Go.Ok x), out) ->
  exists a, r = Go.Ok a /\ k a = (Go.Returned (Go.Ok x), out).
Proof.
  destruct r as [a|e]; simpl; [eauto|discriminate].
Qed.

Ltac invert_scan H :=
  repeat first
    [ apply attempt_inv in H; destruct H as (? & ? & H)
    | apply bind_inv in H; destruct H as (? & ? & ? & ? & H & ?) ].

(** C6, as the code has it: a grype scan that produces a summary embeds the
    report in it, minified: the raw-report field is what [json.Compact]
    makes of the bytes of the report file, and it denotes the same JSON
    document as those bytes, so nothing of the report is lost.  A trivy scan
    that produces a summary leaves the raw-report field empty. *)
Theorem C6_grype_embeds_minified_report_trivy_none :
  (forall h image format dockerConfig file t0 t1 summary out,
      main.scanImageGrype h image format dockerConfig
      = (Go.Returned (Go.Ok (file, t0, t1, Some summary)), out) ->
      exists b document,
        main.ReadFile h = Go.Ok b
        /\ json.Compact b = Go.Ok (types.ImageScanSummary.RawGrypeJSON summary)
        /\ json.parse b = Some document
        /\ json.parse (types.ImageScanSummary.RawGrypeJSON summary) = Some document)
  /\ (forall h image format dockerConfig file t0 t1 summary out,
         main.scanImageTrivy h image format dockerConfig
         = (Go.Returned (Go.Ok (file, t0, t1, Some summary)), out) ->
         types.ImageScanSummary.RawGrypeJSON summary = EmptyString).
Proof.
  split.
  - intros h image format dockerConfig file t0 t1 summary out H.
    unfold main.scanImageGrype in H. invert_scan H.
    destruct (String.eqb format "json"); [|discriminate H].
    invert_scan H. injection H as <- <- <- <- <-.
    match goal with
    | C : json.Compact ?b = Go.Ok ?buff |- _ =>
        destruct (Compact_parse b buff C) as [P [v V]]; exists b, v
    end.
    cbn [types.ImageScanSummary.RawGrypeJSON types.ImageScanSummary.set_RawGrypeJSON].
    repeat split; try assumption; congruence.
  - intros h image format dockerConfig file t0 t1 summary out H.
    unfold main.scanImageTrivy in H. invert_scan H.
    destruct (String.eqb format "json"); [|discriminate H].
    invert_scan H. injection H as <- <- <- <- <-.
    match goal with
    | E : main.trivyOutputToSummary ?i ?t ?o ?v = (Go.Returned ?s, _) |- _ =>
        pose proof (trivyOutputToSummary_spec i t o v) as S; rewrite E in S
    end.
    destruct (props.digest_of _); [|discriminate].
    destruct S as (s' & E' & _ & _ & _ & R & _). now injection E' as <- _.
Qed.

Lemma C6_witness :
  (exists b document,
      main.ReadFile (samples.host_with "/tmp/grype-scan-1" samples.grype_report 1700000000)
      = Go.Ok b
      /\ json.Compact b
         = Go.Ok (types.ImageScanSummary.RawGrypeJSON
                    (samples.grype_row "cgr.dev/chainguard/static:latest" 1700000000))
      /\ json.parse b = Some document
      /\ json.parse (types.ImageScanSummary.RawGrypeJSON
                       (samples.grype_row "cgr.dev/chainguard/static:latest" 1700000000))
         = Some document)
  /\ types.ImageScanSummary.RawGrypeJSON
       (samples.summary_of
          (main.scanImageTrivy
             (samples.host_with "/tmp/trivy-scan-1" samples.trivy_report 1700000000)
             "cgr.dev/chainguard/static:latest" "json" EmptyString))
     = EmptyString.
Proof.
  split.
  - eapply (proj1 C6_grype_embeds_minified_report_trivy_none
              (samples.host_with "/tmp/grype-scan-1" samples.grype_report 1700000000)
              "cgr.dev/chainguard/static:latest" "json" EmptyString).
    vm_compute. reflexivity.
  - eapply (proj2 C6_grype_embeds_minified_report_trivy_none
              (samples.host_with "/tmp/trivy-scan-1" samples.trivy_report 1700000000)
              "cgr.dev/chainguard/static:latest" "json" EmptyString).
    vm_compute. reflexivity.
Defined.

(** C6 fails as it is stated: a trivy scan in JSON format produces a
    summary, the report can be minified, and the summary does not hold it. *)
Lemma C6_counterexample :
  exists file t0 t1 summary out minified,
    main.scanImageTrivy
      (samples.host_with "/tmp/trivy-scan-1" samples.trivy_report 1700000000)
      "cgr.dev/chainguard/static:latest" "json" EmptyString
    = (Go.Returned (Go.Ok (file, t0, t1, Some summary)), out)
    /\ json.Compact samples.trivy_report = Go.Ok minified
    /\ types.ImageScanSummary.RawGrypeJSON summary <> minified.
Proof.
  do 6 eexists. split; [vm_compute; reflexivity|].
  split; [vm_compute; reflexivity|]. vm_compute. discriminate.
Defined.

(** ** The latest-scan selector (C7) *)

Lemma filter_grype_in table r :
  In r (filter latest.is_grype table) <-> In r table /\ latest.is_grype r = true.
Proof. apply filter_In. Qed.

(** C7: among the rows of one scanner kind (the statement keeps the grype
    rows), the selector yields one row per distinct image, a row of the
    table whose time is the maximum for that image.  In particular, from
    three rows of an image at times T1 < T2 < T3 and one row of another
    image, in any order, it yields exactly the row at T3 and the row of the
    other image. *)
Theorem C7_latest_scan_one_row_per_image_with_maximal_time table :
  NoDup (map latest.image (testquery.latest_scan_query table))
  /\ (forall r, In r (testquery.latest_scan_query table) ->
        In r table /\ latest.is_grype r = true
        /\ forall r', In r' table -> latest.is_grype r' = true ->
             latest.image r' = latest.image r -> latest.time_le r' r)
  /\ (forall r', In r' table -> latest.is_grype r' = true ->
        exists r, In r (testquery.latest_scan_query table)
                  /\ latest.image r = latest.image r')
  /\ (forall x1 x2 x3 y,
        Permutation table [x1; x2; x3; y] ->
        Forall (fun r => latest.is_grype r = true) [x1; x2; x3; y] ->
        latest.image x1 = latest.image x3 -> latest.image x2 = latest.image x3 ->
        latest.image y <> latest.image x3 ->
        latest.time_lt x1 x2 -> latest.time_lt x2 x3 ->
        Permutation (testquery.latest_scan_query table) [x3; y]).
Proof.
  pose proof (latest_scan_query_perm table) as Hperm.
  assert (Hin : forall r, In r (testquery.latest_scan_query table) <->
                          In r (latest.first_rows [] (filter latest.is_grype table))).
  { intros r. split; apply Permutation_in; [assumption|now apply Permutation_sym]. }
  assert (HN : NoDup (map latest.image (testquery.latest_scan_query table))).
  { eapply Permutation_NoDup; [apply Permutation_map, Permutation_sym, Hperm|].
    apply first_rows_NoDup. }
  assert (Hmax : forall r, In r (testquery.latest_scan_query table) ->
            In r table /\ latest.is_grype r = true
            /\ forall r', In r' table -> latest.is_grype r' = true ->
                 latest.image r' = latest.image r -> latest.time_le r' r).
  { intros r Hr. apply Hin in Hr. destruct (first_rows_in _ _ _ Hr) as (I & _ & A).
    apply filter_grype_in in I. destruct I as [I G]. split; [assumption|].
    split; [assumption|]. intros r' I' G' S. apply A; [|assumption].
    apply filter_grype_in. now split. }
  assert (Hex : forall r', In r' table -> latest.is_grype r' = true ->
            exists r, In r (testquery.latest_scan_query table)
                      /\ latest.image r = latest.image r').
  { intros r' I' G'.
    destruct (first_rows_exists (filter latest.is_grype table) [] r') as (r & Hr & S).
    - apply filter_grype_in. now split.
    - intros x [].
    - exists r. split; [now apply Hin|assumption]. }
  split; [exact HN|]. split; [exact Hmax|]. split; [exact Hex|].
  intros x1 x2 x3 y HP HG S1 S2 SY L12 L23.
  assert (T : forall r, In r table <-> In r [x1; x2; x3; y]).
  { intros r. split; apply Permutation_in; [assumption|now apply Permutation_sym]. }
  assert (G : forall r, In r [x1; x2; x3; y] -> latest.is_grype r = true).
  { now apply Forall_forall. }
  assert (L13 : latest.time_lt x1 x3) by (eapply time_lt_trans; eassumption).
  assert (Only : forall r, In r (testquery.latest_scan_query table) -> r = x3 \/ r = y).
  { intros r Hr. destruct (Hmax r Hr) as (I & _ & M). apply T in I.
    assert (I3 : In x3 table) by (apply T; simpl; auto).
    assert (G3 : latest.is_grype x3 = true) by (apply G; simpl; auto).
    destruct I as [<-|[<-|[<-|[<-|[]]]]]; auto.
    - exfalso. exact (time_lt_not_le _ _ L13 (M x3 I3 G3 (eq_sym S1))).
    - exfalso. exact (time_lt_not_le _ _ L23 (M x3 I3 G3 (eq_sym S2))). }
  apply NoDup_Permutation.
  - eapply NoDup_map_inv. exact HN.
  - constructor; [|constructor; [intros []|constructor]].
    intros [E|[]]. apply SY. now rewrite E.
  - intros r. split; [intros Hr; destruct (Only r Hr); simpl; auto|].
    intros [<-|[<-|[]]].
    + destruct (Hex x3) as (r & Hr & S); [apply T; simpl; auto|apply G; simpl; auto|].
      destruct (Only r Hr) as [->| ->]; [assumption|contradiction].
    + destruct (Hex y) as (r & Hr & S); [apply T; simpl; auto|apply G; simpl; auto|].
      destruct (Only r Hr) as [->| ->]; [|assumption]. exfalso. apply SY. now symmetry.
Qed.

Lemma C7_witness :
  Permutation
    (testquery.latest_scan_query
       [samples.grype_row "x" 1700000200; samples.grype_row "y" 1700000400;
        samples.grype_row "x" 1700000300; samples.grype_row "x" 1700000100])
    [samples.grype_row "x" 1700000300; samples.grype_row "y" 1700000400].
Proof.
  apply (proj2 (proj2 (proj2
           (C7_latest_scan_one_row_per_image_with_maximal_time
              [samples.grype_row "x" 1700000200; samples.grype_row "y" 1700000400;
               samples.grype_row "x" 1700000300; samples.grype_row "x" 1700000100])))
           (samples.grype_row "x" 1700000100) (samples.grype_row "x" 1700000200)
           (samples.grype_row "x" 1700000300) (samples.grype_row "y" 1700000400)).
  - apply Permutation_sym.
    apply (Permutation_cons_app [_; _; _] [] (samples.grype_row "x" 1700000100)).
    cbn [app]. apply perm_skip, perm_swap.
  - repeat (apply Forall_cons; [vm_compute; reflexivity|]). apply Forall_nil.
  - vm_compute. reflexivity.
  - vm_compute. reflexivity.
  - vm_compute. discriminate.
  - vm_compute. reflexivity.
  - vm_compute. reflexivity.
Defined.

(** ** Re-parsing a stored report (C10, C1) *)

Lemma read_body_ok is_ is' :
  testquery.read_body is_ testquery.NoError = testquery.Append is' ->
  (testquery.ImageCveScan.MatchesString is_ = EmptyString /\ is' = is_)
  \/ (testquery.ImageCveScan.MatchesString is_ <> EmptyString
      /\ json.Unmarshal testquery.dec_ImageCveScan
           (testquery.ImageCveScan.MatchesString is_) is_ = Go.Ok is').
Proof.
  unfold testquery.read_body.
  destruct (String.eqb_spec (testquery.ImageCveScan.MatchesString is_) EmptyString) as [E|E];
    cbn [negb].
  - intros H. injection H as <-. now left.
  - destruct (json.Unmarshal _ _ _) as [x|]; [|discriminate].
    intros H. injection H as <-. now right.
Qed.

Lemma grype_keys_do_not_coincide :
  Forall (fun k => reparse.coincides k = false) reparse.grype_keys.
Proof.
  unfold reparse.grype_keys.
  repeat (apply Forall_cons; [vm_compute; reflexivity|]). apply Forall_nil.
Qed.

(** C10: re-parsing the raw report into the row changes no field of the row
    but [Matches], provided no top-level key of the report coincides, up to
    case, with the name of one of the other fields, as is the case of the
    keys of a grype report. *)
Theorem C10_reparse_changes_only_matches (r : testquery.row) is' :
  (forall doc,
      json.parse (types.ImageScanSummary.RawGrypeJSON r) = Some doc ->
      Forall (fun k => reparse.coincides k = false) (reparse.top_level_keys doc)) ->
  testquery.read_body (testquery.load r testquery.ImageCveScan.zero) testquery.NoError
  = testquery.Append is' ->
  reparse.scalars is' = reparse.scalars (testquery.load r testquery.ImageCveScan.zero)
  /\ Forall (fun k => reparse.coincides k = false) reparse.grype_keys.
Proof.
  intros Hk H. split; [|exact grype_keys_do_not_coincide].
  apply read_body_ok in H. destruct H as [[_ ->]|[_ U]]; [reflexivity|].
  change (testquery.ImageCveScan.MatchesString
            (testquery.load r testquery.ImageCveScan.zero))
    with (types.ImageScanSummary.RawGrypeJSON r) in U.
  unfold json.Unmarshal in U.
  destruct (json.parse (types.ImageScanSummary.RawGrypeJSON r)) as [doc|]; [|discriminate].
  specialize (Hk doc eq_refl). unfold testquery.dec_ImageCveScan, json.dec_struct in U.
  destruct doc; try discriminate.
  - now injection U as <-.
  - eapply scalar_members; [|exact U]. cbn [reparse.top_level_keys] in Hk.
    now apply Forall_map in Hk.
Qed.

Lemma C10_witness :
  reparse.scalars
    (match testquery.read_body
             (testquery.load (samples.grype_row "a" 1700000000) testquery.ImageCveScan.zero)
             testquery.NoError with
     | testquery.Append is' => is'
     | _ => testquery.ImageCveScan.zero
     end)
  = reparse.scalars
      (testquery.load (samples.grype_row "a" 1700000000) testquery.ImageCveScan.zero)
  /\ Forall (fun k => reparse.coincides k = false) reparse.grype_keys.
Proof.
  apply (C10_reparse_changes_only_matches (samples.grype_row "a" 1700000000)).
  - intros doc H. vm_compute in H. injection H as <-.
    cbn [reparse.top_level_keys map fst].
    repeat (apply Forall_cons; [vm_compute; reflexivity|]). apply Forall_nil.
  - vm_compute. reflexivity.
Defined.

Lemma parse_empty : json.parse EmptyString = None.
Proof. reflexivity. Qed.

Lemma same_slot_agrees id q w :
  reparse.same_slot q w -> reparse.agrees q (types.vuln_of_match id w).
Proof.
  intros (m & -> & (V1 & V2) & (A1 & A2 & A3)). exists m.
  unfold types.vuln_of_match. cbn. repeat split; assumption.
Qed.

(** C1, as the code has it: for a summary that [scanImageGrype] built from
    a report none of whose matches is [null], the write path derives its
    vulnerability records from the document of the report, whether it takes
    the parsed report or re-parses the embedded one, and when the query
    path's decoding of the embedded report succeeds, the matches it
    reconstructs agree with those records, one by one and in order, in CVE
    ID, severity string, package name, installed version and type.  The fix
    version is not among them: the query tool's match has no field for it. *)
Theorem C1_reparsed_matches_agree_with_extracted_vulns
  h image format dockerConfig file t0 t1 summary out is' :
  main.scanImageGrype h image format dockerConfig
  = (Go.Returned (Go.Ok (file, t0, t1, Some summary)), out) ->
  (forall doc,
      json.parse (types.ImageScanSummary.RawGrypeJSON summary) = Some doc ->
      reparse.without_null_match doc = true) ->
  testquery.read_body (testquery.load summary testquery.ImageCveScan.zero) testquery.NoError
  = testquery.Append is' ->
  exists b output,
    main.ReadFile h = Go.Ok b
    /\ json.Unmarshal types.dec_GrypeScanOutput b types.GrypeScanOutput.zero = Go.Ok output
    /\ types.ExtractVulns summary
       = Go.Ok (types.vulns_of_output (types.ImageScanSummary.ID summary) output)
    /\ Forall2 reparse.agrees (testquery.ImageCveScan.Matches is')
         (types.vulns_of_output (types.ImageScanSummary.ID summary) output).
Proof.
  intros H Hnull Hq.
  unfold main.scanImageGrype in H. invert_scan H.
  destruct (String.eqb format "json"); [|discriminate H].
  invert_scan H. injection H as <- <- <- <- <-.
  match goal with
  | R : main.ReadFile h = Go.Ok ?b,
    U : json.Unmarshal types.dec_GrypeScanOutput ?b _ = Go.Ok ?o,
    C : json.Compact ?b = Go.Ok ?buff |- _ =>
      rename b into bytes; rename o into output; rename buff into raw;
      rename U into HU; rename C into HC; rename R into HR
  end.
  cbn [types.ImageScanSummary.RawGrypeJSON types.ImageScanSummary.set_RawGrypeJSON
       types.ImageScanSummary.ID] in *.
  destruct (Compact_parse bytes raw HC) as [P [doc D]].
  assert (Hraw : raw <> EmptyString).
  { intros ->. rewrite parse_empty in P. congruence. }
  assert (HU' : json.Unmarshal types.dec_GrypeScanOutput raw types.GrypeScanOutput.zero
                = Go.Ok output).
  { unfold json.Unmarshal in *. now rewrite P. }
  exists bytes, output. split; [assumption|]. split; [assumption|]. split.
  - unfold types.ExtractVulns.
    cbn [types.ImageScanSummary.RawGrypeJSON types.ImageScanSummary.set_RawGrypeJSON
         types.ImageScanSummary.ID].
    apply String.eqb_neq in Hraw. rewrite Hraw, HU'. reflexivity.
  - apply read_body_ok in Hq.
    change (testquery.ImageCveScan.MatchesString
              (testquery.load _ testquery.ImageCveScan.zero)) with raw in Hq.
    destruct Hq as [[Hq _]|[_ Hq]]; [contradiction|].
    unfold json.Unmarshal in Hq, HU'. rewrite P, D in *.
    specialize (Hnull doc eq_refl).
    assert (S : reparse.same_matches is' output).
    { unfold testquery.dec_ImageCveScan, types.dec_GrypeScanOutput, json.dec_struct in *.
      destruct doc; try discriminate.
      - injection Hq as <-. injection HU' as <-. constructor.
      - eapply (dec_members_paired _ _ _ _ pair_ImageCveScan members);
          [| |exact Hq|exact HU']; [|constructor].
        cbn [reparse.without_null_match] in Hnull. rewrite forallb_forall in Hnull.
        apply Forall_forall.
        intros [k v] Hin. apply (Hnull _ Hin). }
    unfold reparse.same_matches in S. unfold types.vulns_of_output.
    induction S; cbn [map]; constructor; [now apply same_slot_agrees|assumption].
Qed.

Lemma C1_witness :
  exists b output,
    main.ReadFile (samples.host_with "/tmp/grype-scan-1" samples.grype_report 1700000000)
    = Go.Ok b
    /\ json.Unmarshal types.dec_GrypeScanOutput b types.GrypeScanOutput.zero = Go.Ok output
    /\ types.ExtractVulns (samples.grype_row "a" 1700000000)
       = Go.Ok (types.vulns_of_output
                  (types.ImageScanSummary.ID (samples.grype_row "a" 1700000000)) output)
    /\ Forall2 reparse.agrees
         (testquery.ImageCveScan.Matches
            (match testquery.read_body
                     (testquery.load (samples.grype_row "a" 1700000000)
                        testquery.ImageCveScan.zero) testquery.NoError with
             | testquery.Append is' => is'
             | _ => testquery.ImageCveScan.zero
             end))
         (types.vulns_of_output
            (types.ImageScanSummary.ID (samples.grype_row "a" 1700000000)) output).
Proof.
  eapply (C1_reparsed_matches_agree_with_extracted_vulns
            (samples.host_with "/tmp/grype-scan-1" samples.grype_report 1700000000)
            "a" "json" EmptyString).
  - vm_compute. reflexivity.
  - intros doc H. vm_compute in H. injection H as <-. vm_compute. reflexivity.
  - vm_compute. reflexivity.
Defined.

(** C1 fails as it is stated: the fix version is lost on the query path.
    Two reports that differ in the fix versions of a match only are decoded
    by the query path into the same matches, while the write path derives
    records with different fix versions from them; so no reading of the
    reconstructed matches yields the fix versions of the write path. *)
Lemma C1_counterexample :
  exists s1 s2 q1 q2 v1 v2,
    s1 = samples.summary_of
           (main.scanImageGrype
              (samples.host_with "/tmp/grype-scan-1" samples.grype_report 1700000000)
              "a" "json" EmptyString)
    /\ s2 = samples.summary_of
              (main.scanImageGrype
                 (samples.host_with "/tmp/grype-scan-1" samples.grype_report_other_fix
                    1700000000)
                 "a" "json" EmptyString)
    /\ testquery.read_body (testquery.load s1 testquery.ImageCveScan.zero) testquery.NoError
       = testquery.Append q1
    /\ testquery.read_body (testquery.load s2 testquery.ImageCveScan.zero) testquery.NoError
       = testquery.Append q2
    /\ types.ExtractVulns s1 = Go.Ok v1
    /\ types.ExtractVulns s2 = Go.Ok v2
    /\ testquery.ImageCveScan.Matches q1 = testquery.ImageCveScan.Matches q2
    /\ map types.Vuln.FixedIn v1 = ["1.2,1.3"; EmptyString]
    /\ map types.Vuln.FixedIn v2 = ["9.9"; EmptyString]
    /\ ~ (exists fix_of : option testquery.Match.t -> string,
             map fix_of (testquery.ImageCveScan.Matches q1) = map types.Vuln.FixedIn v1
             /\ map fix_of (testquery.ImageCveScan.Matches q2) = map types.Vuln.FixedIn v2).
Proof.
  do 6 eexists.
  split; [reflexivity|]. split; [reflexivity|].
  split; [vm_compute; reflexivity|]. split; [vm_compute; reflexivity|].
  split; [vm_compute; reflexivity|]. split; [vm_compute; reflexivity|].
  split; [reflexivity|]. split; [reflexivity|]. split; [reflexivity|].
  intros (fix_of & F1 & F2). cbn [map testquery.ImageCveScan.Matches types.Vuln.FixedIn] in F1, F2.
  injection F1 as F1 _. injection F2 as F2 _. rewrite F1 in F2. discriminate.
Defined.

(** * Further properties *)

(** ** The normalizers *)

Lemma upto_no_separator sep s : strings.Contains (props.upto sep s) sep = false.
Proof.
  induction s as [|c s IH]; simpl; [reflexivity|].
  destruct (Ascii.eqb c sep) eqn:E; [reflexivity|]. simpl. now rewrite E.
Qed.

Lemma upto_prefix sep s :
  exists rest, s = props.upto sep s ++ rest
               /\ (rest = EmptyString \/ exists tail, rest = String sep tail).
Proof.
  induction s as [|c s IH]; simpl.
  - exists EmptyString. split; [reflexivity|now left].
  - destruct (Ascii.eqb_spec c sep) as [->|N].
    + exists (String sep s). split; [reflexivity|]. right. now exists s.
    + destruct IH as (rest & E & R). exists rest. split; [|exact R].
      simpl. now rewrite <- E.
Qed.

Lemma after_none sep s : strings.Contains s sep = false -> props.after sep s = None.
Proof.
  induction s as [|c s IH]; simpl; [reflexivity|].
  destruct (Ascii.eqb c sep); [discriminate|]. exact IH.
Qed.

Lemma digest_of_no_separator d ds :
  strings.Contains d "@" = false ->
  props.digest_of (d :: ds) = Go.Panicked (Go.IndexOutOfRange 1 1).
Proof. intros H. unfold props.digest_of. now rewrite (after_none _ _ H). Qed.

Lemma digest_of_separator d ds pre post :
  d = pre ++ String "@" post ->
  strings.Contains pre "@" = false ->
  props.digest_of (d :: ds) = Go.Returned (props.upto "@" post).
Proof.
  intros -> Hpre. unfold props.digest_of. now rewrite (after_separator _ _ _ Hpre).
Qed.

(** X1: only the first repository digest counts, and only up to its second
    [@].  An entry without [@] makes the index expression panic (index 1 of
    a one-element slice); otherwise the digest is the part of the entry
    after its first [@] that precedes the next [@], and it holds no [@]. *)
Theorem X1_digest_is_between_first_and_second_separator :
  (forall image t output d ds,
      props.grype_digests output = d :: ds ->
      (strings.Contains d "@" = false ->
       main.grypeOutputToSummary image t output
       = (Go.Panicked (Go.IndexOutOfRange 1 1), []))
      /\ (forall pre post,
            d = pre ++ String "@" post -> strings.Contains pre "@" = false ->
            exists s out rest,
              main.grypeOutputToSummary image t output = (Go.Returned s, out)
              /\ post = types.ImageScanSummary.Digest s ++ rest
              /\ (rest = EmptyString \/ exists tail, rest = String "@" tail)
              /\ strings.Contains (types.ImageScanSummary.Digest s) "@" = false))
  /\ (forall image t version output d ds,
         props.trivy_digests output = d :: ds ->
         (strings.Contains d "@" = false ->
          main.trivyOutputToSummary image t output version
          = (Go.Panicked (Go.IndexOutOfRange 1 1), []))
         /\ (forall pre post,
               d = pre ++ String "@" post -> strings.Contains pre "@" = false ->
               exists s out rest,
                 main.trivyOutputToSummary image t output version = (Go.Returned s, out)
                 /\ post = types.ImageScanSummary.Digest s ++ rest
                 /\ (rest = EmptyString \/ exists tail, rest = String "@" tail)
                 /\ strings.Contains (types.ImageScanSummary.Digest s) "@" = false)).
Proof.
  split.
  - intros image t output d ds HD. split.
    + intros Hd. pose proof (grypeOutputToSummary_spec image t output) as S.
      now rewrite HD, (digest_of_no_separator d ds Hd) in S.
    + intros pre post Hd Hpre.
      pose proof (grypeOutputToSummary_spec image t output) as S.
      rewrite HD, (digest_of_separator d ds pre post Hd Hpre) in S.
      destruct S as (s & E & F & _).
      unfold props.frame in F. injection F as _ _ D _ _ _ _ _ _ _ _.
      destruct (upto_prefix "@" post) as (rest & P & R).
      exists s. eexists. exists rest. split; [exact E|]. rewrite D.
      split; [exact P|]. split; [exact R|apply upto_no_separator].
  - intros image t version output d ds HD. split.
    + intros Hd. pose proof (trivyOutputToSummary_spec image t output version) as S.
      now rewrite HD, (digest_of_no_separator d ds Hd) in S.
    + intros pre post Hd Hpre.
      pose proof (trivyOutputToSummary_spec image t output version) as S.
      rewrite HD, (digest_of_separator d ds pre post Hd Hpre) in S.
      destruct S as (s & E & D & _).
      destruct (upto_prefix "@" post) as (rest & P & R).
      exists s. eexists. exists rest. split; [exact E|]. rewrite D.
      split; [exact P|]. split; [exact R|apply upto_no_separator].
Qed.

Lemma X1_witness :
  (main.grypeOutputToSummary "a" 1700000000 (more.grype_output_with ["registry/repo"; "x@y"])
   = (Go.Panicked (Go.IndexOutOfRange 1 1), [])
   /\ exists s out rest,
        main.grypeOutputToSummary "a" 1700000000
          (more.grype_output_with ["repo@sha256:abc@sig"; "x@y"]) = (Go.Returned s, out)
        /\ "sha256:abc@sig" = types.ImageScanSummary.Digest s ++ rest
        /\ (rest = EmptyString \/ exists tail, rest = String "@" tail)
        /\ strings.Contains (types.ImageScanSummary.Digest s) "@" = false)
  /\ (main.trivyOutputToSummary "a" 1700000000 (more.trivy_output_with ["registry/repo"])
        samples.trivy_version_output
      = (Go.Panicked (Go.IndexOutOfRange 1 1), [])
      /\ exists s out rest,
           main.trivyOutputToSummary "a" 1700000000
             (more.trivy_output_with ["repo@sha256:abc@sig"]) samples.trivy_version_output
           = (Go.Returned s, out)
           /\ "sha256:abc@sig" = types.ImageScanSummary.Digest s ++ rest
           /\ (rest = EmptyString \/ exists tail, rest = String "@" tail)
           /\ strings.Contains (types.ImageScanSummary.Digest s) "@" = false).
Proof.
  destruct X1_digest_is_between_first_and_second_separator as [G T].
  split; split.
  - apply (proj1 (G "a" 1700000000 (more.grype_output_with ["registry/repo"; "x@y"])
                    "registry/repo" ["x@y"] eq_refl)).
    reflexivity.
  - apply (proj2 (G "a" 1700000000 (more.grype_output_with ["repo@sha256:abc@sig"; "x@y"])
                    "repo@sha256:abc@sig" ["x@y"] eq_refl) "repo");
      reflexivity.
  - apply (proj1 (T "a" 1700000000 samples.trivy_version_output
                    (more.trivy_output_with ["registry/repo"]) "registry/repo" [] eq_refl)).
    reflexivity.
  - apply (proj2 (T "a" 1700000000 samples.trivy_version_output
                    (more.trivy_output_with ["repo@sha256:abc@sig"])
                    "repo@sha256:abc@sig" [] eq_refl) "repo");
      reflexivity.
Defined.

Lemma buckets_length s : List.length (props.buckets s) = 6%nat.
Proof. reflexivity. Qed.

Lemma warnings_length known sevs :
  Z.of_nat (List.length (props.warnings known sevs))
  = Z.of_nat (List.length sevs)
    - Z.of_nat (List.length (filter (props.recognized known) sevs)).
Proof.
  unfold props.warnings. rewrite length_map.
  induction sevs as [|x sevs IH]; [reflexivity|].
  cbn [filter]. destruct (props.recognized known x); cbn [negb List.length];
    rewrite ?Nat2Z.inj_succ; lia.
Qed.

(** X2: what the counting loop of [grypeOutputToSummary] computes.  Each
    bucket is the number of matches whose severity is exactly, letter case
    included, the string of its case; [total] is the number of matches; and
    one warning is printed per match the buckets leave out. *)
Theorem X2_grype_buckets_count_exact_severities image t output s out :
  props.slice_len (types.GrypeScanOutput.Matches output) ->
  main.grypeOutputToSummary image t output = (Go.Returned s, out) ->
  types.ImageScanSummary.LowCveCount s
    = props.occurrences "Low" (props.grype_matches_severities output)
  /\ types.ImageScanSummary.MedCveCount s
     = props.occurrences "Medium" (props.grype_matches_severities output)
  /\ types.ImageScanSummary.HighCveCount s
     = props.occurrences "High" (props.grype_matches_severities output)
  /\ types.ImageScanSummary.CritCveCount s
     = props.occurrences "Critical" (props.grype_matches_severities output)
  /\ types.ImageScanSummary.NegligibleCveCount s
     = props.occurrences "Negligible" (props.grype_matches_severities output)
  /\ types.ImageScanSummary.UnknownCveCount s
     = props.occurrences "Unknown" (props.grype_matches_severities output)
  /\ types.ImageScanSummary.TotCveCount s
     = Z.of_nat (List.length (types.GrypeScanOutput.Matches output))
  /\ Z.of_nat (List.length out) = types.ImageScanSummary.TotCveCount s - props.bucket_sum s.
Proof.
  intros L E. pose proof (grypeOutputToSummary_spec image t output) as S.
  destruct (props.digest_of (props.grype_digests output)); [|congruence].
  destruct S as (s' & E' & F & B). rewrite E in E'. injection E' as <- ->.
  specialize (B L).
  assert (Tot : types.ImageScanSummary.TotCveCount s
                = Z.of_nat (List.length (types.GrypeScanOutput.Matches output))).
  { unfold props.frame in F. now injection F. }
  pose proof (bucket_sum_buckets s) as BS. rewrite B, grype_deltas_sum in BS.
  unfold props.buckets, props.grype_buckets in B. cbn [map props.delta] in B.
  injection B as B1 B2 B3 B4 B5 B6.
  repeat (split; [assumption|]).
  rewrite warnings_length, BS, Tot. unfold props.grype_matches_severities.
  now rewrite length_map.
Qed.

Lemma X2_witness :
  types.ImageScanSummary.LowCveCount samples.grype_summary
    = props.occurrences "Low" (props.grype_matches_severities samples.grype_output)
  /\ types.ImageScanSummary.MedCveCount samples.grype_summary
     = props.occurrences "Medium" (props.grype_matches_severities samples.grype_output)
  /\ types.ImageScanSummary.HighCveCount samples.grype_summary
     = props.occurrences "High" (props.grype_matches_severities samples.grype_output)
  /\ types.ImageScanSummary.CritCveCount samples.grype_summary
     = props.occurrences "Critical" (props.grype_matches_severities samples.grype_output)
  /\ types.ImageScanSummary.NegligibleCveCount samples.grype_summary
     = props.occurrences "Negligible" (props.grype_matches_severities samples.grype_output)
  /\ types.ImageScanSummary.UnknownCveCount samples.grype_summary
     = props.occurrences "Unknown" (props.grype_matches_severities samples.grype_output)
  /\ types.ImageScanSummary.TotCveCount samples.grype_summary
     = Z.of_nat (List.length (types.GrypeScanOutput.Matches samples.grype_output))
  /\ Z.of_nat (List.length ["WARNING: unknown severity: Catastrophic" ++ Go.newline])
     = types.ImageScanSummary.TotCveCount samples.grype_summary
       - props.bucket_sum samples.grype_summary.
Proof.
  apply (X2_grype_buckets_count_exact_severities
           "cgr.dev/chainguard/static:latest" 1700000000).
  - vm_compute. reflexivity.
  - vm_compute. reflexivity.
Defined.

(** The five trivy buckets together count the recognized severities. *)
Lemma trivy_deltas_sum sevs :
  fold_right Z.add 0 (map (fun n => props.delta n sevs) props.trivy_buckets)
  = Z.of_nat (List.length (filter (props.recognized props.trivy_severities) sevs)).
Proof.
  induction sevs as [|x sevs IH].
  - reflexivity.
  - unfold props.trivy_buckets, props.trivy_severities in *.
    cbn [map fold_right props.delta] in *.
    rewrite !occurrences_cons. cbn [filter].
    unfold props.recognized at 1. cbn [existsb].
    severity_case x "LOW"; [|severity_case x "MEDIUM"; [|severity_case x "HIGH";
      [|severity_case x "CRITICAL"; [|severity_case x "UNKNOWN"]]]];
    rewrite_tests; cbn [String.eqb Ascii.eqb Bool.eqb orb List.length]; lia.
Qed.

(** X3: what the loops of [trivyOutputToSummary] compute.  The negligible
    bucket stays 0; the other five buckets count the vulnerabilities, of all
    results together, whose severity is exactly LOW, MEDIUM, HIGH, CRITICAL
    or UNKNOWN; [total] counts all of them, so the buckets sum to at most
    [total], and to [total] exactly when every severity is one of the five;
    one warning is printed per vulnerability the buckets leave out. *)
Theorem X3_trivy_buckets_and_total image t output version s out :
  props.slice_len (props.trivy_vulnerabilities output) ->
  main.trivyOutputToSummary image t output version = (Go.Returned s, out) ->
  types.ImageScanSummary.NegligibleCveCount s = 0
  /\ types.ImageScanSummary.LowCveCount s
     = props.occurrences "LOW" (props.trivy_matches_severities output)
  /\ types.ImageScanSummary.MedCveCount s
     = props.occurrences "MEDIUM" (props.trivy_matches_severities output)
  /\ types.ImageScanSummary.HighCveCount s
     = props.occurrences "HIGH" (props.trivy_matches_severities output)
  /\ types.ImageScanSummary.CritCveCount s
     = props.occurrences "CRITICAL" (props.trivy_matches_severities output)
  /\ types.ImageScanSummary.UnknownCveCount s
     = props.occurrences "UNKNOWN" (props.trivy_matches_severities output)
  /\ types.ImageScanSummary.TotCveCount s
     = Z.of_nat (List.length (props.trivy_vulnerabilities output))
  /\ props.bucket_sum s <= types.ImageScanSummary.TotCveCount s
  /\ (props.bucket_sum s = types.ImageScanSummary.TotCveCount s <->
      Forall (fun sev => props.recognized props.trivy_severities sev = true)
        (props.trivy_matches_severities output))
  /\ Z.of_nat (List.length out) = types.ImageScanSummary.TotCveCount s - props.bucket_sum s.
Proof.
  intros L E. pose proof (trivyOutputToSummary_spec image t output version) as S.
  destruct (props.digest_of (props.trivy_digests output)); [|congruence].
  destruct S as (s' & E' & _ & _ & _ & _ & B). rewrite E in E'. injection E' as <- ->.
  destruct (B L) as [Tot Bk].
  pose proof (bucket_sum_buckets s) as BS. rewrite Bk, trivy_deltas_sum in BS.
  unfold props.buckets, props.trivy_buckets in Bk. cbn [map props.delta] in Bk.
  injection Bk as B1 B2 B3 B4 B5 B6.
  assert (Len : List.length (props.trivy_matches_severities output)
                = List.length (props.trivy_vulnerabilities output)).
  { unfold props.trivy_matches_severities. apply length_map. }
  pose proof (filter_length_le (props.recognized props.trivy_severities)
                (props.trivy_matches_severities output)) as Hle.
  split; [assumption|]. repeat (split; [assumption|]).
  split; [lia|]. split.
  - rewrite <- filter_length_all. lia.
  - rewrite warnings_length. lia.
Qed.

Lemma X3_witness :
  types.ImageScanSummary.NegligibleCveCount samples.trivy_summary = 0
  /\ types.ImageScanSummary.LowCveCount samples.trivy_summary
     = props.occurrences "LOW" (props.trivy_matches_severities samples.trivy_output)
  /\ types.ImageScanSummary.MedCveCount samples.trivy_summary
     = props.occurrences "MEDIUM" (props.trivy_matches_severities samples.trivy_output)
  /\ types.ImageScanSummary.HighCveCount samples.trivy_summary
     = props.occurrences "HIGH" (props.trivy_matches_severities samples.trivy_output)
  /\ types.ImageScanSummary.CritCveCount samples.trivy_summary
     = props.occurrences "CRITICAL" (props.trivy_matches_severities samples.trivy_output)
  /\ types.ImageScanSummary.UnknownCveCount samples.trivy_summary
     = props.occurrences "UNKNOWN" (props.trivy_matches_severities samples.trivy_output)
  /\ types.ImageScanSummary.TotCveCount samples.trivy_summary
     = Z.of_nat (List.length (props.trivy_vulnerabilities samples.trivy_output))
  /\ props.bucket_sum samples.trivy_summary
     <= types.ImageScanSummary.TotCveCount samples.trivy_summary
  /\ (props.bucket_sum samples.trivy_summary
      = types.ImageScanSummary.TotCveCount samples.trivy_summary <->
      Forall (fun sev => props.recognized props.trivy_severities sev = true)
        (props.trivy_matches_severities samples.trivy_output))
  /\ Z.of_nat (List.length ["WARNING: unknown severity: Catastrophic" ++ Go.newline])
     = types.ImageScanSummary.TotCveCount samples.trivy_summary
       - props.bucket_sum samples.trivy_summary.
Proof.
  apply (X3_trivy_buckets_and_total "cgr.dev/chainguard/static:latest" 1700000000
           samples.trivy_output samples.trivy_version_output).
  - vm_compute. reflexivity.
  - vm_compute. reflexivity.
Defined.

(** ** Running a scan *)

(** The fields of a trivy summary that the counting loops leave alone. *)
Lemma trivyOutputToSummary_frame image t output version s out :
  main.trivyOutputToSummary image t output version = (Go.Returned s, out) ->
  exists digest total,
    props.digest_of (props.trivy_digests output) = Go.Returned digest
    /\ out = props.warnings props.trivy_severities (props.trivy_matches_severities output)
    /\ props.frame s =
         (EmptyString, image, digest, "trivy", types.TrivyVersionOutput.Version version,
          types.TrivyVulnerabilityDB.UpdatedAt (types.TrivyVersionOutput.VulnerabilityDB version),
          time.FormatUTC t, EmptyString, true, total, EmptyString).
Proof.
  unfold main.trivyOutputToSummary.
  rewrite <- bind_assoc. fold (props.trivy_digests output). rewrite index_digest.
  destruct (props.digest_of (props.trivy_digests output)) as [digest|p]; [|discriminate].
  cbn [Go.bind]. rewrite range_flat_map. fold (props.trivy_vulnerabilities output).
  match goal with
  | |- context [Go.range main.count_trivy ?vs (?s0, 0)] =>
      destruct (range_count_trivy vs s0 0) as (s' & n & E & F & _ & _)
  end.
  rewrite E. cbn [Go.ret Go.bind fst snd]. rewrite app_nil_r.
  intros X. injection X as <- <-. exists digest, n. split; [reflexivity|].
  split; [reflexivity|].
  unfold props.frame in *. cbn -[time.FormatUTC] in F |- *.
  injection F as -> -> -> -> -> -> -> -> -> _ ->. reflexivity.
Qed.

Lemma Unmarshal_parses {T} (d : json.decoder T) data target t :
  json.Unmarshal d data target = Go.Ok t -> exists v, json.parse data = Some v.
Proof.
  unfold json.Unmarshal. destruct (json.parse data); [eauto|discriminate].
Qed.

Lemma string_app_assoc (a b c : string) : ((a ++ b) ++ c = a ++ (b ++ c))%string.
Proof. induction a as [|x a IH]; simpl; [reflexivity|now rewrite IH]. Qed.

(** The command lines the scans print, written out. *)
Lemma grype_command_line format file image :
  "Running scan command " ++ main.quote ++ "grype "
  ++ types.Join ["-v"; "-o"; format; "--file"; file; image] " "
  ++ main.quote ++ "..." ++ Go.newline
  = "Running scan command " ++ main.quote ++ "grype -v -o " ++ format ++ " --file "
    ++ file ++ " " ++ image ++ main.quote ++ "..." ++ Go.newline.
Proof. cbn [types.Join]. rewrite !string_app_assoc. reflexivity. Qed.

Lemma trivy_command_line format file image :
  "Running scan command " ++ main.quote ++ "trivy "
  ++ types.Join ["--debug"; "image"; "--timeout"; "15m"; "--offline-scan"; "-f"; format;
                 "-o"; file; image] " "
  ++ main.quote ++ "..." ++ Go.newline
  = "Running scan command " ++ main.quote
    ++ "trivy --debug image --timeout 15m --offline-scan -f " ++ format ++ " -o "
    ++ file ++ " " ++ image ++ main.quote ++ "..." ++ Go.newline.
Proof. cbn [types.Join]. rewrite !string_app_assoc. reflexivity. Qed.

(** X4: when a grype scan in JSON format succeeds.  If the temporary file
    is created, grype exits with success, the report file is read, the
    report decodes and the first repository digest holds an [@], then the
    scan returns the file name, the two times and a summary: minifying the
    report cannot fail once it has decoded.  The summary names the image,
    the digest and the scanner, takes the scanner and database versions from
    the report's descriptor, is stamped with the time before the scanner ran,
    leaves ID and creation time empty, and holds the minified report.
    Standard output is, in this order, the command line, what grype itself
    wrote, the report, and the warnings. *)
Theorem X4_grype_json_scan_succeeds_once_report_decodes
  h image dockerConfig file done b output digest :
  main.CreateTemp h = Go.Ok file ->
  main.RunScanner h = Go.Ok done ->
  main.ReadFile h = Go.Ok b ->
  json.Unmarshal types.dec_GrypeScanOutput b types.GrypeScanOutput.zero = Go.Ok output ->
  props.digest_of (props.grype_digests output) = Go.Returned digest ->
  exists summary minified,
    main.scanImageGrype h image "json" dockerConfig
    = (Go.Returned (Go.Ok (file, main.StartTime h, main.EndTime h, Some summary)),
       ("Running scan command " ++ main.quote ++ "grype -v -o json --file "
        ++ file ++ " " ++ image ++ main.quote ++ "..." ++ Go.newline)
       :: (main.ScannerStdout h
           ++ (b ++ Go.newline)%string
              :: props.warnings props.grype_severities
                   (props.grype_matches_severities output))%list)
    /\ json.Compact b = Go.Ok minified
    /\ props.frame summary =
         (EmptyString, image, digest, "grype",
          types.GrypeDescriptor.Version (types.GrypeScanOutput.Descriptor output),
          types.GrypeDb.Checksum
            (types.GrypeDescriptor.Db (types.GrypeScanOutput.Descriptor output)),
          time.FormatUTC (main.StartTime h), EmptyString, true,
          Z.of_nat (List.length (types.GrypeScanOutput.Matches output)), minified).
Proof.
  intros HC HR HF HU HD.
  destruct (Unmarshal_parses _ _ _ _ HU) as [v P].
  destruct (Compact_total b v P) as [minified C].
  pose proof (grypeOutputToSummary_spec image (main.StartTime h) output) as S.
  rewrite HD in S. destruct S as (s & E & F & _).
  exists (types.ImageScanSummary.set_RawGrypeJSON minified s), minified.
  unfold main.scanImageGrype.
  rewrite HC. cbn [main.attempt]. rewrite grype_command_line, HR, HF. cbn [main.attempt].
  rewrite String.eqb_refl, HU. cbn [main.attempt].
  rewrite E, C.
  cbn [main.attempt main.child_writes Go.bind Go.print Go.ret app]. rewrite app_nil_r.
  split; [reflexivity|]. split; [reflexivity|].
  unfold props.frame in *. cbn -[time.FormatUTC Z.of_nat] in F |- *.
  injection F as -> -> -> -> -> -> -> -> -> -> _. reflexivity.
Qed.

Lemma X4_witness :
  exists summary minified,
    main.scanImageGrype (samples.host_with "/tmp/grype-scan-1" samples.grype_report 1700000000)
      "cgr.dev/chainguard/static:latest" "json" EmptyString
    = (Go.Returned
         (Go.Ok ("/tmp/grype-scan-1", time.Unix 1700000000 0, time.Unix 1700000007 0,
                 Some summary)),
       [("Running scan command " ++ main.quote
         ++ "grype -v -o json --file /tmp/grype-scan-1 cgr.dev/chainguard/static:latest"
         ++ main.quote ++ "..." ++ Go.newline)%string;
        ("scanning..." ++ Go.newline)%string;
        (samples.grype_report ++ Go.newline)%string;
        ("WARNING: unknown severity: Catastrophic" ++ Go.newline)%string])
    /\ json.Compact samples.grype_report = Go.Ok minified
    /\ props.frame summary =
         (EmptyString, "cgr.dev/chainguard/static:latest", "sha256:abc", "grype",
          "0.60.0", "sha256:ff", "2023-11-14T22:13:20Z", EmptyString, true, 2, minified).
Proof.
  destruct (X4_grype_json_scan_succeeds_once_report_decodes
              (samples.host_with "/tmp/grype-scan-1" samples.grype_report 1700000000)
              "cgr.dev/chainguard/static:latest" EmptyString "/tmp/grype-scan-1" tt
              samples.grype_report samples.grype_output "sha256:abc")
    as (summary & minified & E & C & F).
  - reflexivity.
  - reflexivity.
  - reflexivity.
  - vm_compute. reflexivity.
  - vm_compute. reflexivity.
  - exists summary, minified. split; [|split; [exact C|]].
    + rewrite E. vm_compute. reflexivity.
    + rewrite F. vm_compute. reflexivity.
Defined.

(** X5: when a trivy scan in JSON format succeeds, and what decides it.
    With the file created, trivy run and the report read, the scan asks
    trivy for its version before it looks at the format: if that output
    does not decode the scan fails, whatever the format and the report,
    after the command line, what trivy itself wrote and the report were
    printed.  If it decodes, the report decodes and the first repository
    digest holds an [@], the scan returns a summary that names the image,
    the digest and the scanner, takes the scanner and database versions from
    the version output, is stamped with the time before the scanner ran and
    holds no raw report; the warnings follow the report on standard output. *)
Theorem X5_trivy_scan_depends_on_version_output
  h image dockerConfig file done b versionText :
  main.CreateTemp h = Go.Ok file ->
  main.RunScanner h = Go.Ok done ->
  main.ReadFile h = Go.Ok b ->
  main.RunVersion h = Go.Ok versionText ->
  (forall format e,
      json.Unmarshal types.dec_TrivyVersionOutput versionText types.TrivyVersionOutput.zero
      = Go.Err e ->
      main.scanImageTrivy h image format dockerConfig
      = (Go.Returned (Go.Err e),
         ("Running scan command " ++ main.quote
          ++ "trivy --debug image --timeout 15m --offline-scan -f " ++ format ++ " -o "
          ++ file ++ " " ++ image ++ main.quote ++ "..." ++ Go.newline)
         :: (main.ScannerStdout h ++ [(b ++ Go.newline)%string])%list))
  /\ (forall version output digest,
         json.Unmarshal types.dec_TrivyVersionOutput versionText types.TrivyVersionOutput.zero
         = Go.Ok version ->
         json.Unmarshal types.dec_TrivyScanOutput b types.TrivyScanOutput.zero
         = Go.Ok output ->
         props.digest_of (props.trivy_digests output) = Go.Returned digest ->
         exists summary total,
           main.scanImageTrivy h image "json" dockerConfig
           = (Go.Returned (Go.Ok (file, main.StartTime h, main.EndTime h, Some summary)),
              ("Running scan command " ++ main.quote
               ++ "trivy --debug image --timeout 15m --offline-scan -f json -o "
               ++ file ++ " " ++ image ++ main.quote ++ "..." ++ Go.newline)
              :: (main.ScannerStdout h
                  ++ (b ++ Go.newline)%string
                     :: props.warnings props.trivy_severities
                          (props.trivy_matches_severities output))%list)
           /\ props.frame summary =
                (EmptyString, image, digest, "trivy",
                 types.TrivyVersionOutput.Version version,
                 types.TrivyVulnerabilityDB.UpdatedAt
                   (types.TrivyVersionOutput.VulnerabilityDB version),
                 time.FormatUTC (main.StartTime h), EmptyString, true, total, EmptyString)).
Proof.
  intros HC HR HF HV. split.
  - intros format e HU. unfold main.scanImageTrivy.
    rewrite HC. cbn [main.attempt]. rewrite trivy_command_line, HR, HF, HV.
    cbn [main.attempt]. rewrite HU. reflexivity.
  - intros version output digest HU HO HD.
    pose proof (trivyOutputToSummary_spec image (main.StartTime h) output version) as S.
    rewrite HD in S. destruct S as (s & E & _).
    destruct (trivyOutputToSummary_frame _ _ _ _ _ _ E) as (digest' & total & HD' & _ & F).
    assert (digest' = digest) as -> by congruence.
    exists s, total. unfold main.scanImageTrivy.
    rewrite HC. cbn [main.attempt]. rewrite trivy_command_line, HR, HF, HV.
    cbn [main.attempt]. rewrite HU. cbn [main.attempt].
    rewrite String.eqb_refl, HO. cbn [main.attempt]. rewrite E.
    cbn [main.attempt main.child_writes Go.bind Go.print Go.ret app]. rewrite app_nil_r.
    split; [reflexivity|exact F].
Qed.

Lemma X5_witness :
  main.scanImageTrivy
    (more.host_plain_version "/tmp/trivy-scan-1" samples.trivy_report 1700000000)
    "cgr.dev/chainguard/static:latest" "table" EmptyString
  = (Go.Returned (Go.Err Go.ErrSyntax),
     [("Running scan command " ++ main.quote
       ++ "trivy --debug image --timeout 15m --offline-scan -f table -o /tmp/trivy-scan-1 cgr.dev/chainguard/static:latest"
       ++ main.quote ++ "..." ++ Go.newline)%string;
      (samples.trivy_report ++ Go.newline)%string])
  /\ (exists summary total,
         main.scanImageTrivy
           (samples.host_with "/tmp/trivy-scan-1" samples.trivy_report 1700000000)
           "cgr.dev/chainguard/static:latest" "json" EmptyString
         = (Go.Returned
              (Go.Ok ("/tmp/trivy-scan-1", time.Unix 1700000000 0, time.Unix 1700000007 0,
                      Some summary)),
            [("Running scan command " ++ main.quote
              ++ "trivy --debug image --timeout 15m --offline-scan -f json -o /tmp/trivy-scan-1 cgr.dev/chainguard/static:latest"
              ++ main.quote ++ "..." ++ Go.newline)%string;
             ("scanning..." ++ Go.newline)%string;
             (samples.trivy_report ++ Go.newline)%string;
             ("WARNING: unknown severity: Catastrophic" ++ Go.newline)%string])
         /\ props.frame summary =
              (EmptyString, "cgr.dev/chainguard/static:latest", "sha256:abc", "trivy",
               "0.38.0", "2023-02-01T00:00:00Z", "2023-11-14T22:13:20Z", EmptyString,
               true, total, EmptyString)).
Proof.
  split.
  - rewrite (proj1 (X5_trivy_scan_depends_on_version_output
                      (more.host_plain_version "/tmp/trivy-scan-1" samples.trivy_report
                         1700000000)
                      "cgr.dev/chainguard/static:latest" EmptyString "/tmp/trivy-scan-1" tt
                      samples.trivy_report "Version: 0.38.0"
                      eq_refl eq_refl eq_refl eq_refl) "table" Go.ErrSyntax).
    + vm_compute. reflexivity.
    + vm_compute. reflexivity.
  - destruct (proj2 (X5_trivy_scan_depends_on_version_output
                       (samples.host_with "/tmp/trivy-scan-1" samples.trivy_report 1700000000)
                       "cgr.dev/chainguard/static:latest" EmptyString "/tmp/trivy-scan-1" tt
                       samples.trivy_report samples.trivy_version
                       eq_refl eq_refl eq_refl eq_refl)
                samples.trivy_version_output samples.trivy_output "sha256:abc")
      as (summary & total & E & F).
    + vm_compute. reflexivity.
    + vm_compute. reflexivity.
    + vm_compute. reflexivity.
    + exists summary, total. split.
      * rewrite E. vm_compute. reflexivity.
      * rewrite F. vm_compute. reflexivity.
Defined.

(** X6: a format other than [json] never yields a summary and the report
    is never parsed: once the file is created, the scanner has run and the
    report is read, a grype scan returns the file name and the two times
    with a nil summary whatever bytes the report holds, and so does a trivy
    scan whose version output decodes.  Standard output is the command line,
    what the scanner itself wrote, and the report. *)
Theorem X6_other_formats_give_no_summary h image format dockerConfig file done b :
  format <> "json" ->
  main.CreateTemp h = Go.Ok file ->
  main.RunScanner h = Go.Ok done ->
  main.ReadFile h = Go.Ok b ->
  main.scanImageGrype h image format dockerConfig
  = (Go.Returned (Go.Ok (file, main.StartTime h, main.EndTime h, None)),
     ("Running scan command " ++ main.quote ++ "grype -v -o " ++ format ++ " --file "
      ++ file ++ " " ++ image ++ main.quote ++ "..." ++ Go.newline)
     :: (main.ScannerStdout h ++ [(b ++ Go.newline)%string])%list)
  /\ (forall versionText version,
         main.RunVersion h = Go.Ok versionText ->
         json.Unmarshal types.dec_TrivyVersionOutput versionText types.TrivyVersionOutput.zero
         = Go.Ok version ->
         main.scanImageTrivy h image format dockerConfig
         = (Go.Returned (Go.Ok (file, main.StartTime h, main.EndTime h, None)),
            ("Running scan command " ++ main.quote
             ++ "trivy --debug image --timeout 15m --offline-scan -f " ++ format ++ " -o "
             ++ file ++ " " ++ image ++ main.quote ++ "..." ++ Go.newline)
            :: (main.ScannerStdout h ++ [(b ++ Go.newline)%string])%list)).
Proof.
  intros NJ HC HR HF. apply String.eqb_neq in NJ. split.
  - unfold main.scanImageGrype. rewrite HC. cbn [main.attempt].
    rewrite grype_command_line, HR, HF, NJ. reflexivity.
  - intros versionText version HV HU. unfold main.scanImageTrivy.
    rewrite HC. cbn [main.attempt]. rewrite trivy_command_line, HR, HF, HV.
    cbn [main.attempt]. rewrite HU, NJ. reflexivity.
Qed.

Lemma X6_witness :
  main.scanImageGrype (samples.host_with "/tmp/scan-1" "not a JSON document" 1700000000)
    "cgr.dev/chainguard/static:latest" "table" EmptyString
  = (Go.Returned (Go.Ok ("/tmp/scan-1", time.Unix 1700000000 0, time.Unix 1700000007 0,
                         None)),
     [("Running scan command " ++ main.quote
       ++ "grype -v -o table --file /tmp/scan-1 cgr.dev/chainguard/static:latest"
       ++ main.quote ++ "..." ++ Go.newline)%string;
      ("scanning..." ++ Go.newline)%string;
      ("not a JSON document" ++ Go.newline)%string])
  /\ main.scanImageTrivy (samples.host_with "/tmp/scan-1" "not a JSON document" 1700000000)
       "cgr.dev/chainguard/static:latest" "table" EmptyString
     = (Go.Returned (Go.Ok ("/tmp/scan-1", time.Unix 1700000000 0, time.Unix 1700000007 0,
                            None)),
        [("Running scan command " ++ main.quote
          ++ "trivy --debug image --timeout 15m --offline-scan -f table -o /tmp/scan-1 cgr.dev/chainguard/static:latest"
          ++ main.quote ++ "..." ++ Go.newline)%string;
         ("scanning..." ++ Go.newline)%string;
         ("not a JSON document" ++ Go.newline)%string]).
Proof.
  assert (NJ : ("table" : string) <> "json") by discriminate.
  destruct (X6_other_formats_give_no_summary
              (samples.host_with "/tmp/scan-1" "not a JSON document" 1700000000)
              "cgr.dev/chainguard/static:latest" "table" EmptyString "/tmp/scan-1" tt
              "not a JSON document" NJ eq_refl eq_refl eq_refl) as [G T].
  split; [rewrite G; vm_compute; reflexivity|].
  rewrite (T samples.trivy_version samples.trivy_version_output eq_refl).
  - vm_compute. reflexivity.
  - vm_compute. reflexivity.
Defined.

(** A scan that returns carries a summary exactly in JSON format. *)
Lemma scan_summary_iff_json h image format dockerConfig file t0 t1 summary out :
  main.scanImageGrype h image format dockerConfig
  = (Go.Returned (Go.Ok (file, t0, t1, summary)), out)
  \/ main.scanImageTrivy h image format dockerConfig
     = (Go.Returned (Go.Ok (file, t0, t1, summary)), out) ->
  summary = None <-> format <> "json".
Proof.
  intros [H|H]; [unfold main.scanImageGrype in H|unfold main.scanImageTrivy in H];
    invert_scan H;
    (destruct (String.eqb_spec format "json") as [E|E];
     [ invert_scan H; injection H as <- <- <- <- <-; split; [discriminate|contradiction]
     | injection H as <- <- <- <- <-; split; [intros _; exact E|reflexivity] ]).
Qed.

(** X7: [scanImage] dispatches on the scanner name, letter case included.
    A name other than [trivy] and [grype] is an error that nothing precedes:
    no line is printed.  A scan that returns without error carries a summary
    exactly when the format is [json], so that the caller, which asks for
    [json] whenever it uses the summary, never meets a nil summary; and the
    summary names the scanner and the image. *)
Theorem X7_scanImage_dispatch h image scanner format dockerConfig :
  (scanner <> "trivy" -> scanner <> "grype" ->
   main.scanImage h image scanner format dockerConfig
   = (Go.Returned (Go.Err (Go.ErrInvalidScanner scanner)), []))
  /\ (forall file t0 t1 summary out,
         main.scanImage h image scanner format dockerConfig
         = (Go.Returned (Go.Ok (file, t0, t1, summary)), out) ->
         (scanner = "trivy" \/ scanner = "grype")
         /\ (summary = None <-> format <> "json")
         /\ match summary with
            | Some s =>
                types.ImageScanSummary.Scanner s = scanner
                /\ types.ImageScanSummary.Image s = image
            | None => True
            end).
Proof.
  split.
  - intros NT NG. apply String.eqb_neq in NT, NG. unfold main.scanImage.
    now rewrite NT, NG.
  - intros file t0 t1 summary out H. unfold main.scanImage in H.
    destruct (String.eqb scanner "trivy") eqn:ET.
    + apply String.eqb_eq in ET. subst scanner. split; [now left|].
      split; [eapply scan_summary_iff_json; right; exact H|].
      destruct summary as [s|]; [|exact I]. unfold main.scanImageTrivy in H. invert_scan H.
      destruct (String.eqb format "json") eqn:EF; [|discriminate H].
      invert_scan H. injection H as <- <- <- <- <-.
      match goal with
      | E : main.trivyOutputToSummary _ _ _ _ = _ |- _ =>
          destruct (trivyOutputToSummary_frame _ _ _ _ _ _ E) as (d & n & _ & _ & F)
      end.
      unfold props.frame in F. injection F as F1 F2 F3 F4 F5 F6 F7 F8 F9 F10 F11.
      auto.
    + destruct (String.eqb scanner "grype") eqn:EG; [|discriminate H].
      apply String.eqb_eq in EG. subst scanner. split; [now right|].
      split; [eapply scan_summary_iff_json; left; exact H|].
      destruct summary as [s|]; [|exact I]. unfold main.scanImageGrype in H. invert_scan H.
      destruct (String.eqb format "json") eqn:EF; [|discriminate H].
      invert_scan H. injection H as <- <- <- <- <-.
      match goal with
      | E : main.grypeOutputToSummary ?i ?t ?o = _ |- _ =>
          pose proof (grypeOutputToSummary_spec i t o) as S; rewrite E in S
      end.
      destruct (props.digest_of _); [|discriminate].
      destruct S as (s' & E' & F & _). injection E' as <- _.
      unfold props.frame in F. injection F as F1 F2 F3 F4 F5 F6 F7 F8 F9 F10 F11.
      cbn. auto.
Qed.

Lemma X7_witness :
  main.scanImage (samples.host_with "/tmp/grype-scan-1" samples.grype_report 1700000000)
    "cgr.dev/chainguard/static:latest" "Grype" "json" EmptyString
  = (Go.Returned (Go.Err (Go.ErrInvalidScanner "Grype")), [])
  /\ ((("grype" : string) = "trivy" \/ ("grype" : string) = "grype")
      /\ (Some (samples.grype_row "cgr.dev/chainguard/static:latest" 1700000000) = None
          <-> ("json" : string) <> "json")
      /\ types.ImageScanSummary.Scanner
           (samples.grype_row "cgr.dev/chainguard/static:latest" 1700000000) = "grype"
      /\ types.ImageScanSummary.Image
           (samples.grype_row "cgr.dev/chainguard/static:latest" 1700000000)
         = "cgr.dev/chainguard/static:latest").
Proof.
  split.
  - apply (proj1 (X7_scanImage_dispatch
                    (samples.host_with "/tmp/grype-scan-1" samples.grype_report 1700000000)
                    "cgr.dev/chainguard/static:latest" "Grype" "json" EmptyString));
      discriminate.
  - apply (proj2 (X7_scanImage_dispatch
                    (samples.host_with "/tmp/grype-scan-1" samples.grype_report 1700000000)
                    "cgr.dev/chainguard/static:latest" "grype" "json" EmptyString)
             "/tmp/grype-scan-1" (time.Unix 1700000000 0) (time.Unix 1700000007 0)
             (Some (samples.grype_row "cgr.dev/chainguard/static:latest" 1700000000))
             (snd (main.scanImageGrype
                     (samples.host_with "/tmp/grype-scan-1" samples.grype_report 1700000000)
                     "cgr.dev/chainguard/static:latest" "json" EmptyString))).
    vm_compute. reflexivity.
Defined.

(** ** The query tool *)

Lemma leb_trans a b c : String.leb a b = true -> String.leb b c = true -> String.leb a c = true.
Proof.
  intros H1 H2. rewrite leb_not_ltb. destruct (String.ltb c a) eqn:L; [|reflexivity].
  pose proof (ltb_leb_trans _ _ _ L H1) as L'. rewrite leb_not_ltb, L' in H2. discriminate.
Qed.

Lemma leb_total a b : String.leb a b = false -> String.leb b a = true.
Proof.
  rewrite leb_not_ltb. intros H. apply negb_false_iff in H.
  rewrite leb_not_ltb. destruct (String.ltb a b) eqn:L; [|reflexivity].
  pose proof (ltb_trans _ _ _ H L) as X. rewrite ltb_irrefl in X. discriminate.
Qed.

Lemma leb_antisym a b : String.leb a b = true -> String.leb b a = true -> a = b.
Proof.
  unfold String.leb. rewrite (String.compare_antisym a b).
  destruct (String.compare b a) eqn:E; cbn; try discriminate.
  intros _ _. symmetry. now apply String.compare_eq_iff.
Qed.

Lemma leb_neq_ltb a b : String.leb a b = true -> a <> b -> String.ltb a b = true.
Proof.
  unfold String.leb, String.ltb. destruct (String.compare a b) eqn:E; try discriminate.
  - apply String.compare_eq_iff in E. contradiction.
  - reflexivity.
Qed.

(** [ORDER BY image] sorts. *)
Lemma insert_by_image_sorted r l :
  StronglySorted more.image_le l -> StronglySorted more.image_le (testquery.insert_by_image r l).
Proof.
  induction 1 as [|x l S IH F]; cbn [testquery.insert_by_image].
  - constructor; constructor.
  - fold (latest.image r). fold (latest.image x).
    destruct (String.leb (latest.image r) (latest.image x)) eqn:L.
    + constructor; [now constructor|]. constructor; [exact L|].
      eapply Forall_impl; [|exact F]. intros y Hy. unfold more.image_le in *.
      eapply leb_trans; eassumption.
    + constructor; [exact IH|].
      eapply Permutation_Forall; [apply Permutation_sym, insert_by_image_perm|].
      constructor; [|exact F]. now apply leb_total.
Qed.

Lemma order_by_image_sorted l : StronglySorted more.image_le (testquery.order_by_image l).
Proof.
  induction l as [|r l IH]; [constructor|]. cbn. now apply insert_by_image_sorted.
Qed.

Lemma sorted_strictly l :
  StronglySorted more.image_le l -> NoDup (map latest.image l) ->
  StronglySorted more.image_lt l.
Proof.
  induction 1 as [|x l S IH F]; intros N; [constructor|].
  cbn [map] in N. apply NoDup_cons_iff in N. destruct N as [Nx N].
  constructor; [now apply IH|].
  apply Forall_forall. intros y Hy. rewrite Forall_forall in F.
  apply leb_neq_ltb; [now apply F|].
  intros E. apply Nx. rewrite E. now apply in_map.
Qed.

Lemma latest_scan_query_NoDup table :
  NoDup (map latest.image (testquery.latest_scan_query table)).
Proof.
  eapply Permutation_NoDup;
    [apply Permutation_map, Permutation_sym, latest_scan_query_perm|].
  apply first_rows_NoDup.
Qed.

Lemma latest_scan_query_sorted table :
  StronglySorted more.image_lt (testquery.latest_scan_query table).
Proof.
  apply sorted_strictly; [|apply latest_scan_query_NoDup].
  unfold testquery.latest_scan_query. apply order_by_image_sorted.
Qed.

(** Two lists in strictly ascending order with the same elements are the
    same list. *)
Lemma strongly_sorted_unique {A} (R : A -> A -> Prop) :
  (forall x, ~ R x x) -> (forall x y z, R x y -> R y z -> R x z) ->
  forall l1 l2,
    StronglySorted R l1 -> StronglySorted R l2 ->
    (forall x, In x l1 <-> In x l2) -> l1 = l2.
Proof.
  intros Irr Tr. induction l1 as [|a l1 IH]; intros [|b l2] S1 S2 H.
  - reflexivity.
  - exfalso. apply (H b). now left.
  - exfalso. apply (H a). now left.
  - apply StronglySorted_inv in S1, S2. destruct S1 as [S1 F1], S2 as [S2 F2].
    rewrite Forall_forall in F1, F2.
    assert (E : a = b).
    { destruct (proj1 (H a) (or_introl eq_refl)) as [->|Ia]; [reflexivity|].
      destruct (proj2 (H b) (or_introl eq_refl)) as [->|Ib]; [reflexivity|].
      exfalso. apply (Irr a). eapply Tr; [apply F1; exact Ib|apply F2; exact Ia]. }
    subst b. f_equal. apply IH; try assumption.
    intros x. split; intros Hx.
    + destruct (proj1 (H x) (or_intror Hx)) as [<-|I]; [|exact I].
      exfalso. exact (Irr _ (F1 _ Hx)).
    + destruct (proj2 (H x) (or_intror Hx)) as [<-|I]; [|exact I].
      exfalso. exact (Irr _ (F2 _ Hx)).
Qed.

(** The rows the statement selects are the latest grype rows of their
    images; with rows told apart by image and time, they are all of them. *)
Lemma latest_scan_query_latest table r :
  In r (testquery.latest_scan_query table) -> more.latest_of table r.
Proof.
  intros Hr.
  apply (Permutation_in _ (latest_scan_query_perm table)) in Hr.
  destruct (first_rows_in _ _ _ Hr) as (I & _ & A).
  apply filter_In in I. destruct I as [I G]. split; [assumption|].
  split; [assumption|]. intros r' I' G' S. apply A; [|assumption].
  apply filter_In. now split.
Qed.

Lemma latest_scan_query_complete table r :
  more.keyed_by_image_and_time table ->
  more.latest_of table r -> In r (testquery.latest_scan_query table).
Proof.
  intros K (I & G & M).
  destruct (first_rows_exists (filter latest.is_grype table) [] r) as (r0 & H0 & S).
  - apply filter_In. now split.
  - intros x [].
  - apply (Permutation_in _ (Permutation_sym (latest_scan_query_perm table))) in H0.
    destruct (latest_scan_query_latest _ _ H0) as (I0 & G0 & M0).
    assert (E : r0 = r).
    { apply K; try assumption. apply leb_antisym.
      - apply M; assumption.
      - apply M0; try assumption. now symmetry. }
    now subst r0.
Qed.

(** X8: [ORDER BY image] takes effect: the statement returns its rows in
    strictly ascending order of the image name, compared byte by byte; so
    the reading loop meets every image once, in that order. *)
Theorem X8_latest_scan_query_ascending_by_image table :
  StronglySorted more.image_lt (testquery.latest_scan_query table)
  /\ forall pre r post,
       testquery.latest_scan_query table = (pre ++ r :: post)%list ->
       Forall (fun x => more.image_lt x r) pre /\ Forall (fun x => more.image_lt r x) post.
Proof.
  pose proof (latest_scan_query_sorted table) as S. split; [exact S|].
  intros pre r post E. rewrite E in S. clear E. split.
  - induction pre as [|p pre IH]; [constructor|].
    cbn [app] in S. apply StronglySorted_inv in S. destruct S as [S F].
    constructor; [|now apply IH].
    rewrite Forall_forall in F. apply F, in_or_app. right. now left.
  - induction pre as [|p pre IH].
    + cbn [app] in S. now apply StronglySorted_inv in S.
    + cbn [app] in S. apply StronglySorted_inv in S. now apply IH.
Qed.

Lemma X8_witness :
  Forall (fun x => more.image_lt x (samples.clean_row "b" 1700000300))
    [samples.grype_row "a" 1700000200]
  /\ Forall (fun x => more.image_lt (samples.clean_row "b" 1700000300) x) [].
Proof.
  apply (proj2 (X8_latest_scan_query_ascending_by_image samples.table)
           [samples.grype_row "a" 1700000200] (samples.clean_row "b" 1700000300) []).
  vm_compute. reflexivity.
Defined.

(** X9: what the statement returns does not depend on the order in which
    the table holds its rows, as long as the grype rows are told apart by
    image and time: the result, as a list, is the same for every
    arrangement of the table, and it holds exactly the latest grype row of
    every image. *)
Theorem X9_latest_scan_query_ignores_table_order table table' :
  more.keyed_by_image_and_time table ->
  Permutation table table' ->
  testquery.latest_scan_query table' = testquery.latest_scan_query table
  /\ forall r, In r (testquery.latest_scan_query table) <-> more.latest_of table r.
Proof.
  intros K P.
  assert (K' : more.keyed_by_image_and_time table').
  { intros a b Ia Ib. apply K; eapply Permutation_in; try eassumption;
      now apply Permutation_sym. }
  assert (C : forall t r, more.keyed_by_image_and_time t ->
                (In r (testquery.latest_scan_query t) <-> more.latest_of t r)).
  { intros t r Kt. split; [apply latest_scan_query_latest|].
    now apply latest_scan_query_complete. }
  split; [|intros r; now apply C].
  apply (strongly_sorted_unique more.image_lt).
  - intros x H. unfold more.image_lt in H. rewrite ltb_irrefl in H. discriminate.
  - intros x y z. unfold more.image_lt. apply ltb_trans.
  - apply latest_scan_query_sorted.
  - apply latest_scan_query_sorted.
  - intros r. rewrite (C table' r K'), (C table r K). unfold more.latest_of.
    assert (I : forall x, In x table' <-> In x table).
    { intros x. split; apply Permutation_in; [now apply Permutation_sym|assumption]. }
    rewrite I. split; intros (H1 & H2 & H3); repeat split; try assumption;
      intros r' Hr'; apply H3; now apply I.
Qed.

Lemma sample_table_keyed : more.keyed_by_image_and_time samples.table.
Proof.
  intros a b Ia Ib _ _ Si St. unfold samples.table in Ia, Ib. cbn [In] in Ia, Ib.
  destruct Ia as [<-|[<-|[<-|[]]]], Ib as [<-|[<-|[<-|[]]]];
    first [ exfalso; vm_compute in Si; discriminate Si
          | exfalso; vm_compute in St; discriminate St
          | reflexivity ].
Qed.

Lemma X9_witness :
  testquery.latest_scan_query more.table_reversed = testquery.latest_scan_query samples.table
  /\ forall r, In r (testquery.latest_scan_query samples.table)
               <-> more.latest_of samples.table r.
Proof.
  apply (X9_latest_scan_query_ignores_table_order samples.table more.table_reversed).
  - exact sample_table_keyed.
  - apply Permutation_rev.
Defined.

(** One turn of the reading loop. *)
Lemma read_loop_cons x it acc :
  testquery.read_loop (x :: it) acc
  = match more.turned x with
    | testquery.Break => inl acc
    | testquery.Fatal msg e => inr (msg, e)
    | testquery.Append scan => testquery.read_loop it (acc ++ [scan])
    end.
Proof. destruct x; reflexivity. Qed.

Lemma turned_not_break x : more.turned x <> testquery.Break.
Proof.
  destruct x as [r|e stored]; unfold more.turned; cbn [testquery.Next];
    intros B; apply read_body_break in B; discriminate.
Qed.

Lemma read_body_appends is_ err scan :
  testquery.read_body is_ err = testquery.Append scan
  <-> (testquery.ImageCveScan.MatchesString is_ = EmptyString
       /\ err = testquery.NoError /\ scan = is_)
      \/ (testquery.ImageCveScan.MatchesString is_ <> EmptyString
          /\ json.Unmarshal testquery.dec_ImageCveScan
               (testquery.ImageCveScan.MatchesString is_) is_ = Go.Ok scan).
Proof.
  unfold testquery.read_body.
  destruct (String.eqb_spec (testquery.ImageCveScan.MatchesString is_) EmptyString) as [E|E];
    cbn [negb].
  - split.
    + destruct err; try discriminate. intros H. injection H as <-. left. now repeat split.
    + intros [(_ & -> & ->)|[N _]]; [reflexivity|contradiction].
  - destruct (json.Unmarshal _ _ _) as [is'|e].
    + split.
      * intros H. injection H as <-. right. now split.
      * intros [[N _]|[_ H]]; [contradiction|]. now injection H as <-.
    + split; [discriminate|]. intros [[N _]|[_ H]]; [contradiction|discriminate].
Qed.

Lemma read_body_stops is_ err msg eo :
  testquery.read_body is_ err = testquery.Fatal msg eo
  <-> exists e,
        eo = Some e
        /\ ((testquery.ImageCveScan.MatchesString is_ = EmptyString
             /\ err = testquery.Failed e /\ msg = EmptyString)
            \/ (testquery.ImageCveScan.MatchesString is_ <> EmptyString
                /\ json.Unmarshal testquery.dec_ImageCveScan
                     (testquery.ImageCveScan.MatchesString is_) is_ = Go.Err e
                /\ msg = "Failed to unmarshal CVE match: ")).
Proof.
  unfold testquery.read_body.
  destruct (String.eqb_spec (testquery.ImageCveScan.MatchesString is_) EmptyString) as [E|E];
    cbn [negb].
  - split.
    + destruct err as [| |e]; try discriminate. intros H. injection H as <- <-.
      exists e. split; [reflexivity|]. left. now repeat split.
    + intros (e & -> & [(_ & -> & ->)|[N _]]); [reflexivity|contradiction].
  - destruct (json.Unmarshal _ _ _) as [is'|e0].
    + split; [discriminate|].
      intros (e & _ & [[N _]|(_ & H & _)]); [contradiction|discriminate].
    + split.
      * intros H. injection H as <- <-. exists e0. split; [reflexivity|]. right.
        now repeat split.
      * intros (e & -> & [[N _]|(_ & H & ->)]); [contradiction|]. now injection H as <-.
Qed.

Lemma appended_iff x scan :
  more.appended x scan <-> more.turned x = testquery.Append scan.
Proof.
  destruct x as [r|e stored]; unfold more.appended, more.turned; cbn [testquery.Next];
    rewrite read_body_appends; cbv zeta.
  - change (testquery.ImageCveScan.MatchesString
              (testquery.load r testquery.ImageCveScan.zero))
      with (types.ImageScanSummary.RawGrypeJSON r).
    split; (intros [[E H]|[N U]]; [left|right; now split]).
    + now repeat split.
    + split; [exact E|apply H].
  - split.
    + intros [N U]. right. now split.
    + intros [(_ & H & _)|[N U]]; [discriminate|now split].
Qed.

Lemma stops_at_iff x msg e :
  more.stops_at x msg e <-> more.turned x = testquery.Fatal msg (Some e).
Proof.
  destruct x as [r|e0 stored]; unfold more.stops_at, more.turned; cbn [testquery.Next];
    rewrite read_body_stops; cbv zeta.
  - change (testquery.ImageCveScan.MatchesString
              (testquery.load r testquery.ImageCveScan.zero))
      with (types.ImageScanSummary.RawGrypeJSON r).
    split.
    + intros (N & U & ->). exists e. split; [reflexivity|]. right. now repeat split.
    + intros (e' & E & [(_ & H & _)|(N & U & ->)]); [discriminate|].
      injection E as <-. now repeat split.
  - split.
    + intros [(E & H & ->)|(N & U & ->)]; exists e; (split; [reflexivity|]).
      * left. subst e0. now repeat split.
      * right. now repeat split.
    + intros (e' & E & [(M & H & ->)|(N & U & ->)]); injection E as <-.
      * injection H as ->. left. now repeat split.
      * right. now repeat split.
Qed.

Lemma turned_fatal x msg eo :
  more.turned x = testquery.Fatal msg eo -> exists e, eo = Some e.
Proof.
  destruct x as [r|e0 stored]; unfold more.turned; cbn [testquery.Next];
    intros B; apply read_body_stops in B; destruct B as (e & -> & _); eauto.
Qed.

Lemma read_loop_returns it : forall acc scans,
  testquery.read_loop it acc = inl scans
  <-> exists l, Forall2 more.appended it l /\ scans = (acc ++ l)%list.
Proof.
  induction it as [|x it IH]; intros acc scans.
  - change (testquery.read_loop [] acc)
      with (@inl (list testquery.ImageCveScan.t) (string * option Go.error) acc).
    split.
    + intros H. injection H as <-. exists []. split; [constructor|]. now rewrite app_nil_r.
    + intros (l & F & ->). inversion F. now rewrite app_nil_r.
  - rewrite read_loop_cons. pose proof (turned_not_break x) as NB.
    pose proof (appended_iff x) as AP.
    destruct (more.turned x) as [|msg e|scan].
    + contradiction.
    + split; [discriminate|]. intros (l & F & _). inversion F as [|a b c d D F']; subst.
      apply AP in D. discriminate.
    + rewrite IH. split.
      * intros (l & F & ->). exists (scan :: l). split.
        -- constructor; [now apply AP|assumption].
        -- now rewrite <- app_assoc.
      * intros (l & F & ->). inversion F as [|a b c d D F']; subst.
        apply AP in D. injection D as ->. exists d. split; [assumption|].
        now rewrite <- app_assoc.
Qed.

(** X10: when the query tool prints its report.  [main] returns, instead of
    ending in [log.Fatal], exactly when the client is created, the statement
    is read and the loop appends a row after every call of [it.Next]: a row
    fetched with an empty raw report, or a row whose raw report, not empty,
    re-parses into it.  The re-parse decides alone: when a call of [it.Next]
    fails after it has stored a raw report, its error is overwritten, and
    the row is appended if the report re-parses.  What [main] prints then is
    the report of each row as the loop left it, in the order of the rows. *)
Theorem X10_query_prints_iff_the_loop_appends_after_every_next bq out :
  testquery.main bq = testquery.Exit out
  <-> exists done it scans,
        testquery.NewClient bq = Go.Ok done
        /\ testquery.Read bq = Go.Ok it
        /\ Forall2 more.appended it scans
        /\ out = flat_map testquery.print_scan scans.
Proof.
  unfold testquery.main. split.
  - destruct (testquery.NewClient bq) as [done|]; [|discriminate].
    destruct (testquery.Read bq) as [it|]; [|discriminate].
    destruct (testquery.read_loop it []) as [scans|[msg e]] eqn:R; [|discriminate].
    intros H. injection H as <-. apply read_loop_returns in R.
    destruct R as (l & F & ->). now exists done, it, l.
  - intros (done & it & scans & -> & -> & F & ->).
    assert (R : testquery.read_loop it [] = inl scans).
    { apply read_loop_returns. now exists scans. }
    now rewrite R.
Qed.

Lemma read_loop_stops it : forall acc msg e,
  testquery.read_loop it acc = inr (msg, e)
  <-> exists pre x post scans e',
        it = (pre ++ x :: post)%list
        /\ Forall2 more.appended pre scans
        /\ e = Some e' /\ more.stops_at x msg e'.
Proof.
  induction it as [|x0 it IH]; intros acc msg e.
  - change (testquery.read_loop [] acc)
      with (@inl (list testquery.ImageCveScan.t) (string * option Go.error) acc).
    split; [discriminate|]. intros (pre & x & post & scans & e' & E & _).
    destruct pre; discriminate.
  - rewrite read_loop_cons. pose proof (turned_not_break x0) as NB.
    pose proof (appended_iff x0) as AP. pose proof (stops_at_iff x0) as SP.
    pose proof (turned_fatal x0) as TF.
    destruct (more.turned x0) as [|m e1|scan].
    + contradiction.
    + destruct (TF m e1 eq_refl) as (e' & ->). split.
      * intros H. injection H as <- <-. exists [], x0, it, [], e'.
        repeat split; [constructor|now apply SP].
      * intros (pre & x & post & scans & e2 & E & F & -> & St).
        destruct pre as [|p pre].
        -- cbn [app] in E. injection E as <- <-. apply SP in St.
           injection St as -> ->. reflexivity.
        -- cbn [app] in E. injection E as <- ->. inversion F as [|a b c d D F']; subst.
           apply AP in D. discriminate.
    + rewrite IH. split.
      * intros (pre & x & post & scans & e' & -> & F & -> & St).
        exists (x0 :: pre), x, post, (scan :: scans), e'.
        repeat split; [|assumption]. constructor; [now apply AP|assumption].
      * intros (pre & x & post & scans & e' & E & F & -> & St).
        destruct pre as [|p pre].
        -- cbn [app] in E. injection E as <- <-. apply SP in St. discriminate.
        -- cbn [app] in E. injection E as <- ->. inversion F as [|a b c d D F']; subst.
           exists pre, x, post, d, e'. repeat split; assumption.
Qed.

(** X16: why the query tool ends in [log.Fatal], and with what.  It does so
    exactly when the client cannot be created, or the statement cannot be
    read, or the reading loop, having appended a row after every call of
    [it.Next] so far, stops after the next one: the call failed and left no
    raw report in the row, or the raw report it left does not re-parse.
    The message and the error are those of this first failure; the error of
    a call of [it.Next] that left a raw report is never reported. *)
Theorem X16_query_ends_fatally_at_the_first_failure bq msg e :
  testquery.main bq = testquery.LogFatal msg e
  <-> exists e',
        e = Some e'
        /\ ((testquery.NewClient bq = Go.Err e' /\ msg = "Failed while creating client:")
            \/ (exists done,
                  testquery.NewClient bq = Go.Ok done
                  /\ ((testquery.Read bq = Go.Err e' /\ msg = EmptyString)
                      \/ exists pre x post scans,
                           testquery.Read bq = Go.Ok (pre ++ x :: post)%list
                           /\ Forall2 more.appended pre scans
                           /\ more.stops_at x msg e'))).
Proof.
  unfold testquery.main.
  destruct (testquery.NewClient bq) as [done|e0].
  - destruct (testquery.Read bq) as [it|e1].
    + destruct (testquery.read_loop it []) as [scans|[m e2]] eqn:R.
      * split; [discriminate|].
        intros (e' & _ & [[X _]|(d & _ & [[X _]|(pre & x & post & sc & X & F & St)])]);
          try discriminate.
        injection X as ->.
        assert (R' : testquery.read_loop (pre ++ x :: post)%list [] = inr (msg, Some e')).
        { apply (proj2 (read_loop_stops (pre ++ x :: post)%list [] msg (Some e'))).
          now exists pre, x, post, sc, e'. }
        congruence.
      * split.
        -- intros H. injection H as <- <-. apply read_loop_stops in R.
           destruct R as (pre & x & post & sc & e' & -> & F & -> & St).
           exists e'. split; [reflexivity|]. right. exists done. split; [reflexivity|].
           right. now exists pre, x, post, sc.
        -- intros (e' & -> & [[X _]|(d & _ & [[X _]|(pre & x & post & sc & X & F & St)])]);
             try discriminate.
           injection X as ->.
           assert (R' : testquery.read_loop (pre ++ x :: post)%list [] = inr (msg, Some e')).
           { apply (proj2 (read_loop_stops (pre ++ x :: post)%list [] msg (Some e'))).
             now exists pre, x, post, sc, e'. }
           rewrite R in R'. now injection R' as -> ->.
    + split.
      * intros H. injection H as <- <-. exists e1. split; [reflexivity|]. right.
        exists done. split; [reflexivity|]. left. now split.
      * intros (e' & -> & [[X _]|(d & _ & [[X ->]|(pre & x & post & sc & X & _)])]);
          try discriminate.
        now injection X as ->.
  - split.
    + intros H. injection H as <- <-. exists e0. split; [reflexivity|]. left. now split.
    + intros (e' & -> & [[X ->]|(d & X & _)]); [|discriminate]. now injection X as ->.
Qed.

(** X17: the error of [it.Next] is lost when the call leaves a raw report.
    The loop re-parses whatever raw report is in the row before it looks at
    the error of the call, and overwrites that error with the outcome.  So
    when a call fails after it has stored a raw report that re-parses, the
    loop appends the half-loaded row and goes on with the next call as if
    the row had been fetched; when it left no raw report, the loop ends the
    query with that error. *)
Theorem X17_error_of_next_is_overwritten_by_the_reparse e stored post acc :
  (forall scan,
      testquery.ImageCveScan.MatchesString (stored testquery.ImageCveScan.zero)
      <> EmptyString ->
      json.Unmarshal testquery.dec_ImageCveScan
        (testquery.ImageCveScan.MatchesString (stored testquery.ImageCveScan.zero))
        (stored testquery.ImageCveScan.zero) = Go.Ok scan ->
      testquery.read_loop (testquery.FetchFailed e stored :: post) acc
      = testquery.read_loop post (acc ++ [scan]))
  /\ (testquery.ImageCveScan.MatchesString (stored testquery.ImageCveScan.zero)
      = EmptyString ->
      testquery.read_loop (testquery.FetchFailed e stored :: post) acc
      = inr (EmptyString, Some e)).
Proof.
  split.
  - intros scan N U. rewrite read_loop_cons.
    assert (B : more.turned (testquery.FetchFailed e stored) = testquery.Append scan).
    { apply appended_iff. unfold more.appended. now split. }
    now rewrite B.
  - intros E. rewrite read_loop_cons.
    assert (B : more.turned (testquery.FetchFailed e stored)
                = testquery.Fatal EmptyString (Some e)).
    { apply stops_at_iff. unfold more.stops_at. left. now repeat split. }
    now rewrite B.
Qed.

Lemma X17_witness :
  testquery.main
    (testquery.mkBigquery (Go.Ok tt)
       (Go.Ok [testquery.FetchFailed (Go.ErrIterator "no NULLs")
                 (more.half_loaded (samples.grype_row "a" 1700000200))]))
  = testquery.Exit []
  /\ testquery.main
       (testquery.mkBigquery (Go.Ok tt)
          (Go.Ok [testquery.FetchFailed (Go.ErrIterator "no NULLs")
                    (more.half_loaded (samples.clean_row "b" 1700000300))]))
     = testquery.LogFatal EmptyString (Some (Go.ErrIterator "no NULLs")).
Proof.
  destruct (X17_error_of_next_is_overwritten_by_the_reparse
              (Go.ErrIterator "no NULLs")
              (more.half_loaded (samples.grype_row "a" 1700000200)) [] []) as [M _].
  destruct (X17_error_of_next_is_overwritten_by_the_reparse
              (Go.ErrIterator "no NULLs")
              (more.half_loaded (samples.clean_row "b" 1700000300)) [] []) as [_ F].
  split.
  - unfold testquery.main. cbn [testquery.NewClient testquery.Read].
    rewrite (M (samples.decoded
                  (json.Unmarshal testquery.dec_ImageCveScan
                     (types.ImageScanSummary.RawGrypeJSON (samples.grype_row "a" 1700000200))
                     (more.half_loaded (samples.grype_row "a" 1700000200)
                        testquery.ImageCveScan.zero))
                  testquery.ImageCveScan.zero)).
    + vm_compute. reflexivity.
    + vm_compute. discriminate.
    + vm_compute. reflexivity.
  - unfold testquery.main. cbn [testquery.NewClient testquery.Read].
    rewrite F; [reflexivity|]. vm_compute. reflexivity.
Defined.

(** ** A report key that names a column *)

Lemma dec_members_app {T} (fs : json.fields T) pre : forall t post,
  json.dec_members fs t (pre ++ post)%list
  = Go.rbind (json.dec_members fs t pre) (fun t' => json.dec_members fs t' post).
Proof.
  induction pre as [|[k v] pre IH]; intros t post; [reflexivity|].
  cbn [app]. rewrite !dec_members_cons.
  destruct (reparse.apply_member fs k t v) as [t1|]; [|reflexivity].
  cbn [Go.rbind]. apply IH.
Qed.

(** A member whose key does not select [Image] leaves it as it is. *)
Lemma image_member k q v q' :
  ~ more.selects_image k ->
  reparse.apply_member testquery.ImageCveScan_fields k q v = Go.Ok q' ->
  testquery.ImageCveScan.Image q' = testquery.ImageCveScan.Image q.
Proof.
  unfold more.selects_image. intros Hk Eq. revert Hk.
  unfold reparse.apply_member in Eq.
  rewrite find_field_names in Eq by nodup_names.
  cbn [find fst snd option_map testquery.ImageCveScan_fields] in Eq.
  revert Eq. generalize (json.foldName k). intros K Eq.
  split_chain Eq K; cbn [option_map snd] in Eq; invert_fields;
    try (subst K; intros Hk; exfalso; apply Hk; reflexivity);
    intros _; reflexivity.
Qed.

Lemma image_members ms : forall q q',
  Forall (fun kv => ~ more.selects_image (fst kv)) ms ->
  json.dec_members testquery.ImageCveScan_fields q ms = Go.Ok q' ->
  testquery.ImageCveScan.Image q' = testquery.ImageCveScan.Image q.
Proof.
  induction ms as [|[k v] ms IH]; intros q q' Hc Eq.
  - cbn in Eq. now injection Eq as <-.
  - rewrite dec_members_cons in Eq. apply Forall_cons_iff in Hc. destruct Hc as [Hk Hc].
    destruct (reparse.apply_member _ k q v) as [q1|] eqn:A; [|discriminate].
    cbn [Go.rbind] in Eq. rewrite (IH q1 q' Hc Eq). eapply image_member; eassumption.
Qed.

(** A member whose key selects [Image] is decoded into it, as a string. *)
Lemma image_key k q v :
  more.selects_image k ->
  reparse.apply_member testquery.ImageCveScan_fields k q v
  = json.field testquery.ImageCveScan.Image testquery.ImageCveScan.set_Image
      json.dec_string q v.
Proof.
  unfold more.selects_image. intros Hk. unfold reparse.apply_member.
  rewrite find_field_names by nodup_names.
  cbn [find fst snd option_map testquery.ImageCveScan_fields]. rewrite Hk.
  reflexivity.
Qed.

(** What the re-parse of a row makes of a report with such a key. *)
Lemma image_key_reread r pre k v post :
  json.parse (types.ImageScanSummary.RawGrypeJSON r)
  = Some (json.JObject (pre ++ (k, v) :: post)%list) ->
  more.selects_image k ->
  Forall (fun kv => ~ more.selects_image (fst kv)) post ->
  (forall s scan,
      v = json.JString s -> more.reread r = Go.Ok scan ->
      testquery.ImageCveScan.Image scan = s)
  /\ (more.string_or_null v = false -> exists e, more.reread r = Go.Err e).
Proof.
  intros P Hk Hpost. unfold more.reread, json.Unmarshal. rewrite P.
  unfold testquery.dec_ImageCveScan. cbn [json.dec_struct].
  rewrite dec_members_app.
  destruct (json.dec_members testquery.ImageCveScan_fields
              (testquery.load r testquery.ImageCveScan.zero) pre) as [q|e0].
  - cbn [Go.rbind]. rewrite dec_members_cons, (image_key k q v Hk). split.
    + intros s scan -> H. cbn [json.field json.dec_string Go.rbind] in H.
      now rewrite (image_members _ _ _ Hpost H).
    + intros Hv. unfold json.field.
      destruct v; try discriminate Hv; cbn [json.dec_string json.type_error Go.rbind]; eauto.
  - cbn [Go.rbind]. split; [discriminate|eauto].
Qed.

(** X11: the raw report is decoded into the row itself, so a top-level key
    of the report that is [image] up to letter case is taken for the column.
    With a string value, the last such key replaces the image name that was
    read from the table in the row the loop appends; with a value that is
    neither a string nor [null] the loop ends the query in [log.Fatal]. *)
Theorem X11_report_key_image_replaces_the_column r pre k v post :
  json.parse (types.ImageScanSummary.RawGrypeJSON r)
  = Some (json.JObject (pre ++ (k, v) :: post)%list) ->
  more.selects_image k ->
  Forall (fun kv => ~ more.selects_image (fst kv)) post ->
  (forall s scan,
      v = json.JString s ->
      testquery.read_body (testquery.load r testquery.ImageCveScan.zero) testquery.NoError
      = testquery.Append scan ->
      testquery.ImageCveScan.Image scan = s)
  /\ (more.string_or_null v = false ->
      exists e,
        testquery.read_body (testquery.load r testquery.ImageCveScan.zero) testquery.NoError
        = testquery.Fatal "Failed to unmarshal CVE match: " (Some e)).
Proof.
  intros P Hk Hpost. destruct (image_key_reread r pre k v post P Hk Hpost) as [S F].
  assert (N : types.ImageScanSummary.RawGrypeJSON r <> EmptyString).
  { intros E. rewrite E, parse_empty in P. discriminate. }
  split.
  - intros s scan Hv H. apply read_body_ok in H.
    destruct H as [[E _]|[_ U]]; [contradiction|]. now apply (S s).
  - intros Hv. destruct (F Hv) as [e E]. exists e. apply read_body_stops.
    exists e. split; [reflexivity|]. right. repeat split; assumption.
Qed.

Lemma X11_witness :
  testquery.ImageCveScan.Image
    (samples.decoded (more.reread (more.row_with_image_key "'b'"))
       testquery.ImageCveScan.zero) = "b"
  /\ exists e,
       testquery.read_body
         (testquery.load (more.row_with_image_key "7") testquery.ImageCveScan.zero)
         testquery.NoError
       = testquery.Fatal "Failed to unmarshal CVE match: " (Some e).
Proof.
  split.
  - destruct (X11_report_key_image_replaces_the_column
                (more.row_with_image_key "'b'")
                [("matches", json.JArray [])] "image" (json.JString "b")
                [("source", json.JObject [])]) as [S _].
    + vm_compute. reflexivity.
    + reflexivity.
    + constructor; [|constructor]. vm_compute. discriminate.
    + apply (S "b"); [reflexivity|]. vm_compute. reflexivity.
  - destruct (X11_report_key_image_replaces_the_column
                (more.row_with_image_key "7")
                [("matches", json.JArray [])] "image" (json.JNumber "7")
                [("source", json.JObject [])]) as [_ F].
    + vm_compute. reflexivity.
    + reflexivity.
    + constructor; [|constructor]. vm_compute. discriminate.
    + apply F. reflexivity.
Defined.

(** ** The printed report *)

Lemma bucket_total_exact scan :
  Forall (fun c => 0 <= c) (more.scan_counts scan) ->
  fold_right Z.add 0 (more.scan_counts scan) < 2 ^ 63 ->
  testquery.bucket_total scan = fold_right Z.add 0 (more.scan_counts scan).
Proof.
  unfold more.scan_counts. intros Pos Sum. cbn [fold_right] in *.
  repeat match goal with
         | H : Forall _ (_ :: _) |- _ =>
             apply Forall_cons_iff in H; let P := fresh "P" in destruct H as [P H]
         end.
  unfold testquery.bucket_total, Go.int_add.
  rewrite (int_wrap_id (testquery.ImageCveScan.Crit scan + _)) by lia.
  rewrite (int_wrap_id (testquery.ImageCveScan.Crit scan + _ + _)) by lia.
  rewrite (int_wrap_id (testquery.ImageCveScan.Crit scan + _ + _ + _)) by lia.
  rewrite int_wrap_id by lia. lia.
Qed.

(** X12: which rows the report lists.  When the five counts of a row are
    not negative and their sum is below 2^63, the row is left out exactly
    when all five are zero; a row that is listed takes six lines, the image
    name first. *)
Theorem X12_row_is_left_out_iff_all_counts_are_zero scan :
  Forall (fun c => 0 <= c) (more.scan_counts scan) ->
  fold_right Z.add 0 (more.scan_counts scan) < 2 ^ 63 ->
  (testquery.print_scan scan = [] <-> Forall (fun c => c = 0) (more.scan_counts scan))
  /\ (testquery.print_scan scan <> [] ->
      List.length (testquery.print_scan scan) = 6%nat
      /\ hd EmptyString (testquery.print_scan scan)
         = testquery.ImageCveScan.Image scan ++ Go.newline).
Proof.
  intros Pos Sum. pose proof (bucket_total_exact scan Pos Sum) as T.
  unfold more.scan_counts in *. cbn [fold_right] in T, Sum.
  repeat match goal with
         | H : Forall _ (_ :: _) |- _ =>
             apply Forall_cons_iff in H; let P := fresh "P" in destruct H as [P H]
         end.
  replace (testquery.ImageCveScan.Crit scan
           + (testquery.ImageCveScan.High scan
              + (testquery.ImageCveScan.Med scan
                 + (testquery.ImageCveScan.Low scan
                    + (testquery.ImageCveScan.Negligible scan + 0)))))
    with (testquery.ImageCveScan.Crit scan + testquery.ImageCveScan.High scan
          + testquery.ImageCveScan.Med scan + testquery.ImageCveScan.Low scan
          + testquery.ImageCveScan.Negligible scan) in T by lia.
  unfold testquery.print_scan. cbv zeta. rewrite T.
  destruct (Z.gtb_spec
              (testquery.ImageCveScan.Crit scan + testquery.ImageCveScan.High scan
               + testquery.ImageCveScan.Med scan + testquery.ImageCveScan.Low scan
               + testquery.ImageCveScan.Negligible scan) 0) as [G|G].
  - split; [|intros _; split; reflexivity]. split; [discriminate|].
    intros Z0.
    repeat match goal with
           | H : Forall _ (_ :: _) |- _ =>
               apply Forall_cons_iff in H; let P := fresh "Z" in destruct H as [P H]
           end.
    lia.
  - split; [|intros N; now contradiction N]. split; [|reflexivity].
    intros _. repeat (apply Forall_cons; [lia|]). apply Forall_nil.
Qed.

Lemma X12_witness :
  (testquery.print_scan
     (testquery.load (samples.grype_row "a" 1700000200) testquery.ImageCveScan.zero) = []
   <-> Forall (fun c => c = 0)
         (more.scan_counts
            (testquery.load (samples.grype_row "a" 1700000200) testquery.ImageCveScan.zero)))
  /\ List.length
       (testquery.print_scan
          (testquery.load (samples.grype_row "a" 1700000200) testquery.ImageCveScan.zero))
     = 6%nat
  /\ hd EmptyString
       (testquery.print_scan
          (testquery.load (samples.grype_row "a" 1700000200) testquery.ImageCveScan.zero))
     = testquery.ImageCveScan.Image
         (testquery.load (samples.grype_row "a" 1700000200) testquery.ImageCveScan.zero)
       ++ Go.newline.
Proof.
  destruct (X12_row_is_left_out_iff_all_counts_are_zero
              (testquery.load (samples.grype_row "a" 1700000200)
                 testquery.ImageCveScan.zero)) as [A B].
  - repeat (apply Forall_cons; [vm_compute; discriminate|]). apply Forall_nil.
  - vm_compute. reflexivity.
  - split; [exact A|]. apply B. vm_compute. discriminate.
Defined.

(** ** From a scan to the report of the query tool *)

Lemma reread_scalars r doc scan :
  json.parse (types.ImageScanSummary.RawGrypeJSON r) = Some doc ->
  Forall (fun k => reparse.coincides k = false) (reparse.top_level_keys doc) ->
  more.reread r = Go.Ok scan ->
  reparse.scalars scan = reparse.scalars (testquery.load r testquery.ImageCveScan.zero).
Proof.
  intros P K U. unfold more.reread, json.Unmarshal in U. rewrite P in U.
  unfold testquery.dec_ImageCveScan, json.dec_struct in U.
  destruct doc; try discriminate.
  - now injection U as <-.
  - eapply scalar_members; [|exact U]. cbn [reparse.top_level_keys] in K.
    now apply Forall_map in K.
Qed.

Lemma occurrences_none sev sevs :
  props.occurrences sev sevs = 0 <-> Forall (fun x => String.eqb x sev = false) sevs.
Proof.
  induction sevs as [|x sevs IH].
  - split; [constructor|reflexivity].
  - rewrite occurrences_cons, Forall_cons_iff, <- IH.
    pose proof (occurrences_nonneg sev sevs). destruct (String.eqb x sev); split.
    + lia.
    + intros [X _]. discriminate.
    + intros ?. split; [reflexivity|lia].
    + intros [_ ?]. lia.
Qed.

Lemma printed_none sevs :
  Forall (fun sev => props.recognized more.printed_severities sev = false) sevs
  <-> props.occurrences "Critical" sevs + props.occurrences "High" sevs
      + props.occurrences "Medium" sevs + props.occurrences "Low" sevs
      + props.occurrences "Negligible" sevs = 0.
Proof.
  induction sevs as [|x sevs IH].
  - split; [reflexivity|constructor].
  - rewrite Forall_cons_iff, IH, !occurrences_cons.
    unfold props.recognized, more.printed_severities. cbn [existsb].
    pose proof (occurrences_nonneg "Critical" sevs).
    pose proof (occurrences_nonneg "High" sevs).
    pose proof (occurrences_nonneg "Medium" sevs).
    pose proof (occurrences_nonneg "Low" sevs).
    pose proof (occurrences_nonneg "Negligible" sevs).
    destruct (String.eqb x "Critical"), (String.eqb x "High"), (String.eqb x "Medium"),
      (String.eqb x "Low"), (String.eqb x "Negligible"); cbn [orb];
      (split;
       [ intros [X Y]; try discriminate X; lia
       | intros Y; first [split; [reflexivity|lia] | lia] ]).
Qed.

(** X13: which scanned images the report of the query tool lists.  Take a
    grype scan in JSON format that produced a summary, stored as a row, and
    a report none of whose top-level keys is the name of a column up to
    case.  When the query tool has re-read the row, it leaves the image out
    exactly when no match has one of the severities Critical, High, Medium,
    Low and Negligible: matches of severity Unknown, and of severities that
    grype does not have, are in the total of the row and do not get the
    image listed. *)
Theorem X13_image_is_left_out_iff_no_match_has_a_printed_severity
  h image dockerConfig file t0 t1 row out b output doc scan :
  main.scanImageGrype h image "json" dockerConfig
  = (Go.Returned (Go.Ok (file, t0, t1, Some row)), out) ->
  main.ReadFile h = Go.Ok b ->
  json.Unmarshal types.dec_GrypeScanOutput b types.GrypeScanOutput.zero = Go.Ok output ->
  props.slice_len (types.GrypeScanOutput.Matches output) ->
  json.parse b = Some doc ->
  Forall (fun k => reparse.coincides k = false) (reparse.top_level_keys doc) ->
  testquery.read_body (testquery.load row testquery.ImageCveScan.zero) testquery.NoError
  = testquery.Append scan ->
  (testquery.print_scan scan = []
   <-> Forall (fun sev => props.recognized more.printed_severities sev = false)
         (props.grype_matches_severities output)).
Proof.
  intros H HF HU L P K R.
  unfold main.scanImageGrype in H. rewrite HF in H. invert_scan H.
  match goal with
  | E : Go.Ok b = Go.Ok _ |- _ => injection E as <-
  end.
  match goal with
  | E : json.Unmarshal types.dec_GrypeScanOutput b _ = Go.Ok ?o |- _ =>
      tryif constr_eq o output then fail else (rewrite HU in E; injection E as <-)
  end.
  injection H as <- <- <- <- <-.
  match goal with
  | C : json.Compact b = Go.Ok ?buff |- _ =>
      destruct (Compact_parse b buff C) as [PC _]; rewrite P in PC
  end.
  apply read_body_ok in R.
  match type of R with
  | (testquery.ImageCveScan.MatchesString (testquery.load ?r _) = _ /\ _) \/ _ =>
      assert (Sc : reparse.scalars scan
                   = reparse.scalars (testquery.load r testquery.ImageCveScan.zero));
      [ destruct R as [[_ ->]|[_ U]];
        [reflexivity|exact (reread_scalars r doc scan PC K U)]
      | clear R ]
  end.
  match goal with
  | E : main.grypeOutputToSummary ?i ?t ?o = (Go.Returned ?s, _) |- _ =>
      pose proof (grypeOutputToSummary_spec i t o) as S; rewrite E in S;
      destruct (props.digest_of (props.grype_digests o)); [|discriminate S];
      destruct S as (s' & E' & F & B); injection E' as <- _; specialize (B L);
      pose proof (bucket_sum_buckets s) as BS
  end.
  rewrite B, grype_deltas_sum in BS.
  unfold reparse.scalars in Sc. injection Sc as _ _ _ _ _ SLow SMed SHigh SCrit SNeg _.
  cbn in SLow, SMed, SHigh, SCrit, SNeg.
  pose proof (filter_length_le (props.recognized props.grype_severities)
                (props.grype_matches_severities output)) as Hle.
  assert (Len : List.length (props.grype_matches_severities output)
                = List.length (types.GrypeScanOutput.Matches output)).
  { unfold props.grype_matches_severities. apply length_map. }
  unfold props.buckets, props.grype_buckets in B. cbn [map props.delta] in B.
  injection B as B1 B2 B3 B4 B5 B6.
  unfold props.slice_len in L. unfold props.bucket_sum in BS.
  rewrite printed_none.
  pose proof (occurrences_nonneg "Critical" (props.grype_matches_severities output)).
  pose proof (occurrences_nonneg "High" (props.grype_matches_severities output)).
  pose proof (occurrences_nonneg "Medium" (props.grype_matches_severities output)).
  pose proof (occurrences_nonneg "Low" (props.grype_matches_severities output)).
  pose proof (occurrences_nonneg "Negligible" (props.grype_matches_severities output)).
  pose proof (occurrences_nonneg "Unknown" (props.grype_matches_severities output)).
  assert (T : testquery.bucket_total scan
              = fold_right Z.add 0 (more.scan_counts scan)).
  { apply bucket_total_exact; unfold more.scan_counts.
    - repeat (apply Forall_cons; [lia|]). apply Forall_nil.
    - cbn [fold_right]. lia. }
  unfold more.scan_counts in T. cbn [fold_right] in T.
  unfold testquery.print_scan. cbv zeta.
  destruct (Z.gtb_spec (testquery.bucket_total scan) 0) as [G|G].
  - split; [discriminate|lia].
  - split; [lia|reflexivity].
Qed.

Lemma X13_witness :
  testquery.print_scan
    (samples.decoded (more.reread (samples.grype_row "a" 1700000200))
       testquery.ImageCveScan.zero) = []
  <-> Forall (fun sev => props.recognized more.printed_severities sev = false)
        (props.grype_matches_severities samples.grype_output).
Proof.
  apply (X13_image_is_left_out_iff_no_match_has_a_printed_severity
           (samples.host_with "/tmp/grype-scan-1" samples.grype_report 1700000200)
           "a" EmptyString "/tmp/grype-scan-1" (time.Unix 1700000200 0) (time.Unix 1700000207 0)
           (samples.grype_row "a" 1700000200)
           (snd (main.scanImageGrype
                   (samples.host_with "/tmp/grype-scan-1" samples.grype_report 1700000200)
                   "a" "json" EmptyString))
           samples.grype_report samples.grype_output
           (more.document samples.grype_report)).
  - vm_compute. reflexivity.
  - reflexivity.
  - vm_compute. reflexivity.
  - vm_compute. reflexivity.
  - vm_compute. reflexivity.
  - let ks := eval vm_compute in
                (reparse.top_level_keys (more.document samples.grype_report)) in
    replace (reparse.top_level_keys (more.document samples.grype_report)) with ks
      by (vm_compute; reflexivity).
    repeat (apply Forall_cons; [vm_compute; reflexivity|]). apply Forall_nil.
  - vm_compute. reflexivity.
Defined.

(** ** The format of the scan time *)

Lemma civil_of_days_steps days :
  time.civil_of_days days =
  (clock.year (clock.era days) (clock.yoe (clock.doe days))
     (clock.month (clock.mp (clock.doy (clock.doe days)))),
   clock.month (clock.mp (clock.doy (clock.doe days))),
   clock.day (clock.doy (clock.doe days))).
Proof. reflexivity. Qed.

Lemma doe_range days : 0 <= clock.doe days < 146097.
Proof. unfold clock.doe, clock.era. Z.div_mod_to_equations; lia. Qed.

Lemma era_doe_mono a b :
  a < b -> clock.era a < clock.era b \/ (clock.era a = clock.era b /\ clock.doe a < clock.doe b).
Proof. unfold clock.doe, clock.era. intros H. Z.div_mod_to_equations; lia. Qed.

Lemma yoe_range doe : 0 <= doe < 146097 -> 0 <= clock.yoe doe <= 399.
Proof. intros H. unfold clock.yoe. Z.div_mod_to_equations; lia. Qed.

Lemma doy_range doe : 0 <= doe < 146097 -> 0 <= clock.doy doe <= 365.
Proof. intros H. unfold clock.doy, clock.yoe. Z.div_mod_to_equations; lia. Qed.

Lemma yoe_doy_mono a b :
  0 <= a -> a < b -> b < 146097 ->
  clock.yoe a < clock.yoe b \/ (clock.yoe a = clock.yoe b /\ clock.doy a < clock.doy b).
Proof. intros H1 H2 H3. unfold clock.doy, clock.yoe. Z.div_mod_to_equations; lia. Qed.

Lemma mp_range doy : 0 <= doy <= 365 -> 0 <= clock.mp doy <= 11.
Proof. intros H. unfold clock.mp. Z.div_mod_to_equations; lia. Qed.

Lemma day_range doy : 0 <= doy <= 365 -> 1 <= clock.day doy <= 31.
Proof. intros H. unfold clock.day, clock.mp. Z.div_mod_to_equations; lia. Qed.

Lemma mp_day_mono a b :
  0 <= a -> a < b -> b <= 365 ->
  clock.mp a < clock.mp b \/ (clock.mp a = clock.mp b /\ clock.day a < clock.day b).
Proof. intros H1 H2 H3. unfold clock.day, clock.mp. Z.div_mod_to_equations; lia. Qed.

Lemma month_range mp : 0 <= mp <= 11 -> 1 <= clock.month mp <= 12.
Proof. intros H. unfold clock.month. destruct (Z.ltb_spec mp 10); lia. Qed.

(** Years and months in the order of eras, years of the era and months
    counted from March. *)
Lemma year_month_mono e1 y1 p1 e2 y2 p2 :
  0 <= y1 <= 399 -> 0 <= y2 <= 399 -> 0 <= p1 <= 11 -> 0 <= p2 <= 11 ->
  (e1 < e2 \/ (e1 = e2 /\ (y1 < y2 \/ (y1 = y2 /\ p1 < p2)))) ->
  clock.year e1 y1 (clock.month p1) < clock.year e2 y2 (clock.month p2)
  \/ (clock.year e1 y1 (clock.month p1) = clock.year e2 y2 (clock.month p2)
      /\ clock.month p1 < clock.month p2).
Proof.
  intros Y1 Y2 P1 P2 H. unfold clock.year, clock.month.
  destruct (Z.ltb_spec p1 10), (Z.ltb_spec p2 10);
    repeat match goal with
           | |- context [?a <=? 2] => destruct (Z.leb_spec a 2)
           end; lia.
Qed.

Lemma date_mono a b :
  a < b ->
  match time.civil_of_days a, time.civil_of_days b with
  | (y1, m1, d1), (y2, m2, d2) =>
      y1 < y2 \/ (y1 = y2 /\ (m1 < m2 \/ (m1 = m2 /\ d1 < d2)))
  end.
Proof.
  intros H. rewrite !civil_of_days_steps.
  pose proof (doe_range a) as Ra. pose proof (doe_range b) as Rb.
  pose proof (yoe_range _ Ra) as Ya. pose proof (yoe_range _ Rb) as Yb.
  pose proof (doy_range _ Ra) as Da. pose proof (doy_range _ Rb) as Db.
  pose proof (mp_range _ Da) as Pa. pose proof (mp_range _ Db) as Pb.
  assert (L : clock.era a < clock.era b
              \/ (clock.era a = clock.era b
                  /\ (clock.yoe (clock.doe a) < clock.yoe (clock.doe b)
                      \/ (clock.yoe (clock.doe a) = clock.yoe (clock.doe b)
                          /\ (clock.mp (clock.doy (clock.doe a))
                              < clock.mp (clock.doy (clock.doe b))
                              \/ (clock.mp (clock.doy (clock.doe a))
                                  = clock.mp (clock.doy (clock.doe b))
                                  /\ clock.day (clock.doy (clock.doe a))
                                     < clock.day (clock.doy (clock.doe b)))))))).
  { destruct (era_doe_mono a b H) as [E|[E D]]; [now left|]. right. split; [exact E|].
    destruct (yoe_doy_mono (clock.doe a) (clock.doe b)) as [Y|[Y D']]; try lia.
    right. split; [exact Y|].
    apply mp_day_mono; lia. }
  destruct L as [E|[E [Y|[Y [P|[P D]]]]]].
  - destruct (year_month_mono (clock.era a) (clock.yoe (clock.doe a))
                (clock.mp (clock.doy (clock.doe a)))
                (clock.era b) (clock.yoe (clock.doe b))
                (clock.mp (clock.doy (clock.doe b)))); try assumption; tauto.
  - destruct (year_month_mono (clock.era a) (clock.yoe (clock.doe a))
                (clock.mp (clock.doy (clock.doe a)))
                (clock.era b) (clock.yoe (clock.doe b))
                (clock.mp (clock.doy (clock.doe b)))); try assumption; tauto.
  - destruct (year_month_mono (clock.era a) (clock.yoe (clock.doe a))
                (clock.mp (clock.doy (clock.doe a)))
                (clock.era b) (clock.yoe (clock.doe b))
                (clock.mp (clock.doy (clock.doe b)))); try assumption; tauto.
  - rewrite E, Y, P. right. split; [reflexivity|]. right. split; [reflexivity|exact D].
Qed.

Lemma date_range days :
  0 <= days <= 2932896 ->
  match time.civil_of_days days with
  | (y, m, d) => 0 <= y <= 9999 /\ 1 <= m <= 12 /\ 1 <= d <= 31
  end.
Proof.
  intros H. rewrite civil_of_days_steps.
  pose proof (doe_range days) as R. pose proof (yoe_range _ R) as Y.
  pose proof (doy_range _ R) as D. pose proof (mp_range _ D) as P.
  split; [|split; [now apply month_range|now apply day_range]].
  unfold clock.year, clock.month.
  revert R Y D P. unfold clock.mp, clock.doy, clock.yoe, clock.doe, clock.era.
  intros R Y D P.
  repeat match goal with
         | |- context [?a <? 10] => destruct (Z.ltb_spec a 10)
         | |- context [?a <=? 2] => destruct (Z.leb_spec a 2)
         end.
  all: Z.div_mod_to_equations; lia.
Qed.

Lemma digits_written n z : time.digits n z = clock.written n z EmptyString.
Proof. reflexivity. Qed.

Lemma written_acc n : forall z acc,
  clock.written n z acc = (clock.written n z EmptyString ++ acc)%string.
Proof.
  induction n as [|n IH]; intros z acc; [reflexivity|].
  cbn [clock.written]. rewrite (IH _ (String _ acc)), (IH _ (String _ EmptyString)).
  now rewrite string_app_assoc.
Qed.

Lemma digit_compare x y :
  0 <= x < 10 -> 0 <= y < 10 ->
  Ascii.compare (clock.digit x) (clock.digit y) = (x ?= y).
Proof.
  intros Hx Hy. unfold Ascii.compare, clock.digit, ascii_of_nat.
  rewrite !Z.mod_small by lia.
  rewrite !N_ascii_embedding by lia.
  rewrite <- N2Z.inj_compare, !nat_N_Z, !Nat2Z.inj_add, !Z2Nat.id by lia.
  destruct (Z.compare_spec x y), (Z.compare_spec (Z.of_nat 48 + x) (Z.of_nat 48 + y));
    try reflexivity; lia.
Qed.

(** Numbers written with the same number of digits compare as strings the
    way they compare as numbers. *)
Lemma written_compare n : forall a b s1 s2,
  0 <= a < 10 ^ Z.of_nat n -> 0 <= b < 10 ^ Z.of_nat n ->
  String.compare (clock.written n a EmptyString ++ s1) (clock.written n b EmptyString ++ s2)
  = match a ?= b with Eq => String.compare s1 s2 | c => c end.
Proof.
  induction n as [|n IH]; intros a b s1 s2 Ha Hb.
  - cbn [clock.written]. change (10 ^ Z.of_nat 0) with 1 in *.
    assert (a = 0) as -> by lia. assert (b = 0) as -> by lia. reflexivity.
  - rewrite Nat2Z.inj_succ, Z.pow_succ_r in Ha, Hb by lia.
    cbn [clock.written].
    rewrite (written_acc n (a / 10)), (written_acc n (b / 10)), !string_app_assoc.
    rewrite IH by (Z.div_mod_to_equations; lia).
    cbn [String.append String.compare].
    unfold clock.digit at 1 2. 
    fold (clock.digit (a mod 10)). 
    assert (Da : clock.digit a = clock.digit (a mod 10)).
    { unfold clock.digit. now rewrite Z.mod_mod by lia. }
    assert (Db : clock.digit b = clock.digit (b mod 10)).
    { unfold clock.digit. now rewrite Z.mod_mod by lia. }
    fold (clock.digit a). fold (clock.digit b). rewrite Da, Db.
    rewrite digit_compare by (Z.div_mod_to_equations; lia).
    destruct (Z.compare_spec (a / 10) (b / 10)), (Z.compare_spec (a mod 10) (b mod 10)),
      (Z.compare_spec a b); try reflexivity; exfalso; Z.div_mod_to_equations; lia.
Qed.

Ltac compare_field :=
  rewrite written_compare
    by (first [change (10 ^ Z.of_nat 4) with 10000 | change (10 ^ Z.of_nat 2) with 100];
        Z.div_mod_to_equations; lia);
  cbn [clock.lex];
  match goal with
  | |- match ?c with _ => _ end = match ?c with _ => _ end =>
      destruct c; [|reflexivity|reflexivity]
  end;
  cbn [String.append String.compare]; rewrite ?ascii_compare_refl.

(** Two formatted times compare, as strings, the way the fields of their
    seconds do. *)
Lemma FormatUTC_compare t1 t2 :
  0 <= t1 < clock.year_10000 -> 0 <= t2 < clock.year_10000 ->
  String.compare (time.FormatUTC t1) (time.FormatUTC t2)
  = clock.lex (clock.fields (clock.second t1)) (clock.fields (clock.second t2)).
Proof.
  unfold clock.year_10000, time.Unix. intros H1 H2.
  unfold time.FormatUTC, clock.fields, clock.second. cbv zeta.
  assert (U1 : 0 <= t1 / 1000000000 < 253402300800) by (Z.div_mod_to_equations; lia).
  assert (U2 : 0 <= t2 / 1000000000 < 253402300800) by (Z.div_mod_to_equations; lia).
  revert U1 U2. generalize (t1 / 1000000000) (t2 / 1000000000). intros u1 u2 U1 U2.
  pose proof (date_range (u1 / 86400)) as R1. pose proof (date_range (u2 / 86400)) as R2.
  destruct (time.civil_of_days (u1 / 86400)) as [[y1 m1] d1].
  destruct (time.civil_of_days (u2 / 86400)) as [[y2 m2] d2].
  assert (D1 : 0 <= u1 / 86400 <= 2932896) by (Z.div_mod_to_equations; lia).
  assert (D2 : 0 <= u2 / 86400 <= 2932896) by (Z.div_mod_to_equations; lia).
  specialize (R1 D1). specialize (R2 D2).
  rewrite !digits_written.
  do 6 compare_field. reflexivity.
Qed.

Lemma fields_mono u1 u2 : u1 < u2 -> clock.lex (clock.fields u1) (clock.fields u2) = Lt.
Proof.
  intros H. unfold clock.fields. cbv zeta.
  assert (D : u1 / 86400 < u2 / 86400
              \/ (u1 / 86400 = u2 / 86400 /\ u1 mod 86400 < u2 mod 86400))
    by (Z.div_mod_to_equations; lia).
  destruct D as [D|[D S]].
  - pose proof (date_mono _ _ D) as M.
    destruct (time.civil_of_days (u1 / 86400)) as [[y1 m1] d1].
    destruct (time.civil_of_days (u2 / 86400)) as [[y2 m2] d2].
    cbn [clock.lex].
    destruct (Z.compare_spec y1 y2); try lia; [|reflexivity].
    destruct (Z.compare_spec m1 m2); try lia; [|reflexivity].
    destruct (Z.compare_spec d1 d2); try lia. reflexivity.
  - rewrite D. destruct (time.civil_of_days (u2 / 86400)) as [[y m] d].
    cbn [clock.lex]. rewrite !Z.compare_refl.
    assert (R1 : 0 <= u1 mod 86400 < 86400) by (apply Z.mod_pos_bound; lia).
    assert (R2 : 0 <= u2 mod 86400 < 86400) by (apply Z.mod_pos_bound; lia).
    revert S R1 R2. generalize (u1 mod 86400) (u2 mod 86400). intros s1 s2 S R1 R2.
    destruct (Z.compare_spec (s1 / 3600) (s2 / 3600)); [|reflexivity|].
    + destruct (Z.compare_spec (s1 / 60 mod 60) (s2 / 60 mod 60)); [|reflexivity|].
      * destruct (Z.compare_spec (s1 mod 60) (s2 mod 60)); [|reflexivity|];
          exfalso; Z.div_mod_to_equations; lia.
      * exfalso; Z.div_mod_to_equations; lia.
    + exfalso; Z.div_mod_to_equations; lia.
Qed.

(** A time of a later second is formatted to a greater string. *)
Lemma FormatUTC_mono t1 t2 :
  0 <= t1 < clock.year_10000 -> 0 <= t2 < clock.year_10000 ->
  clock.second t1 < clock.second t2 ->
  String.ltb (time.FormatUTC t1) (time.FormatUTC t2) = true.
Proof.
  intros H1 H2 L. unfold String.ltb.
  rewrite FormatUTC_compare by assumption. now rewrite fields_mono.
Qed.

(** Times of one second are formatted to one string. *)
Lemma FormatUTC_second t1 t2 :
  clock.second t1 = clock.second t2 -> time.FormatUTC t1 = time.FormatUTC t2.
Proof. unfold clock.second, time.FormatUTC. cbv zeta. now intros ->. Qed.

Lemma FormatUTC_later t1 t2 :
  0 <= t1 < clock.year_10000 -> 0 <= t2 < clock.year_10000 ->
  (String.ltb (time.FormatUTC t1) (time.FormatUTC t2) = true
   <-> clock.second t1 < clock.second t2).
Proof.
  intros H1 H2. split; [|now apply FormatUTC_mono].
  intros L. destruct (Z.lt_trichotomy (clock.second t1) (clock.second t2)) as [C|[C|C]].
  - exact C.
  - rewrite (FormatUTC_second _ _ C), ltb_irrefl in L. discriminate.
  - pose proof (FormatUTC_mono t2 t1 H2 H1 C) as G.
    pose proof (ltb_trans _ _ _ L G) as X. rewrite ltb_irrefl in X. discriminate.
Qed.

Lemma second_mono t1 t2 : t1 <= t2 -> clock.second t1 <= clock.second t2.
Proof. unfold clock.second. intros H. Z.div_mod_to_equations; lia. Qed.

(** X14: the time column orders the scans as the clock does, to the second.
    For scans started from 1970 to the end of the year 9999, the summary of
    a scan that did not start before another never has the smaller time
    string; it has the greater one, so that [ORDER BY time DESC] ranks it
    first, exactly when it started in a later second.  The fraction of the
    second is not written: two scans started within one second get the same
    time string, and the order of the column does not tell them apart. *)
Theorem X14_time_string_orders_scans_to_the_second
  image1 image2 t1 t2 output1 output2 s1 s2 out1 out2 :
  0 <= t1 -> t1 <= t2 -> t2 < clock.year_10000 ->
  main.grypeOutputToSummary image1 t1 output1 = (Go.Returned s1, out1) ->
  main.grypeOutputToSummary image2 t2 output2 = (Go.Returned s2, out2) ->
  testquery.later s1 s2 = false
  /\ (testquery.later s2 s1 = true <-> clock.second t1 < clock.second t2)
  /\ (types.ImageScanSummary.Time s1 = types.ImageScanSummary.Time s2
      <-> clock.second t1 = clock.second t2).
Proof.
  intros H0 H1 H2 E1 E2.
  assert (T : forall image t output s out,
             main.grypeOutputToSummary image t output = (Go.Returned s, out) ->
             types.ImageScanSummary.Time s = time.FormatUTC t).
  { intros image t output s out E.
    pose proof (grypeOutputToSummary_spec image t output) as S. rewrite E in S.
    destruct (props.digest_of _); [|discriminate S].
    destruct S as (s' & E' & F & _). injection E' as <- _.
    unfold props.frame in F. now injection F. }
  unfold testquery.later. rewrite (T _ _ _ _ _ E1), (T _ _ _ _ _ E2).
  assert (R1 : 0 <= t1 < clock.year_10000) by lia.
  assert (R2 : 0 <= t2 < clock.year_10000) by lia.
  pose proof (second_mono t1 t2 H1) as Le.
  split; [|split].
  - destruct (String.ltb (time.FormatUTC t2) (time.FormatUTC t1)) eqn:G; [|reflexivity].
    apply (FormatUTC_later t2 t1 R2 R1) in G. lia.
  - apply FormatUTC_later; assumption.
  - split; [|apply FormatUTC_second].
    intros E. destruct (Z.lt_trichotomy (clock.second t1) (clock.second t2)) as [C|[C|C]];
      [|exact C|lia].
    pose proof (FormatUTC_mono t1 t2 R1 R2 C) as L.
    rewrite E, ltb_irrefl in L. discriminate.
Qed.

Lemma X14_witness :
  testquery.later
    (samples.returned
       (main.grypeOutputToSummary "a" (time.Unix 1700000100 250000000) samples.grype_output)
       types.ImageScanSummary.zero)
    (samples.returned
       (main.grypeOutputToSummary "a" (time.Unix 1700000100 750000000) samples.grype_output)
       types.ImageScanSummary.zero) = false
  /\ (testquery.later
        (samples.returned
           (main.grypeOutputToSummary "a" (time.Unix 1700000100 750000000)
              samples.grype_output)
           types.ImageScanSummary.zero)
        (samples.returned
           (main.grypeOutputToSummary "a" (time.Unix 1700000100 250000000)
              samples.grype_output)
           types.ImageScanSummary.zero) = true
      <-> clock.second (time.Unix 1700000100 250000000)
          < clock.second (time.Unix 1700000100 750000000))
  /\ (types.ImageScanSummary.Time
        (samples.returned
           (main.grypeOutputToSummary "a" (time.Unix 1700000100 250000000)
              samples.grype_output)
           types.ImageScanSummary.zero)
      = types.ImageScanSummary.Time
          (samples.returned
             (main.grypeOutputToSummary "a" (time.Unix 1700000100 750000000)
                samples.grype_output)
             types.ImageScanSummary.zero)
      <-> clock.second (time.Unix 1700000100 250000000)
          = clock.second (time.Unix 1700000100 750000000)).
Proof.
  apply (X14_time_string_orders_scans_to_the_second "a" "a"
           (time.Unix 1700000100 250000000) (time.Unix 1700000100 750000000)
           samples.grype_output samples.grype_output _ _
           (snd (main.grypeOutputToSummary "a" (time.Unix 1700000100 250000000)
                   samples.grype_output))
           (snd (main.grypeOutputToSummary "a" (time.Unix 1700000100 750000000)
                   samples.grype_output))).
  - vm_compute. discriminate.
  - vm_compute. discriminate.
  - vm_compute. reflexivity.
  - vm_compute. reflexivity.
  - vm_compute. reflexivity.
Defined.

(** X15: the query reports, for every image, a grype scan of the last
    second in which one started.  When the time column of every grype row of
    the table is the formatted start of its scan, between 1970 and the end
    of the year 9999, no grype row of the image of a selected row started in
    a later second than the selected row.  Among rows that started within
    the same second the column does not decide. *)
Theorem X15_query_selects_a_scan_of_the_last_second table
  (started : testquery.row -> time.Time) :
  (forall r, In r table -> latest.is_grype r = true ->
     0 <= started r < clock.year_10000
     /\ latest.time_ r = time.FormatUTC (started r)) ->
  forall r r',
    In r (testquery.latest_scan_query table) ->
    In r' table -> latest.is_grype r' = true -> latest.image r' = latest.image r ->
    clock.second (started r') <= clock.second (started r).
Proof.
  intros Hs r r' Hr Hr' G' S.
  destruct (latest_scan_query_latest _ _ Hr) as (I & G & M).
  specialize (M r' Hr' G' S). unfold latest.time_le in M.
  destruct (Hs r I G) as [R T]. destruct (Hs r' Hr' G') as [R' T'].
  rewrite T, T' in M.
  destruct (Z.le_gt_cases (clock.second (started r')) (clock.second (started r)))
    as [L|L]; [exact L|].
  exfalso. rewrite leb_not_ltb in M.
  rewrite (FormatUTC_mono (started r) (started r')) in M by (assumption || lia).
  discriminate.
Qed.

Lemma sample_table_started r :
  In r samples.table -> latest.is_grype r = true ->
  0 <= more.sample_start r < clock.year_10000
  /\ latest.time_ r = time.FormatUTC (more.sample_start r).
Proof.
  intros I _. unfold samples.table in I. cbn [In] in I.
  destruct I as [<-|[<-|[<-|[]]]]; vm_compute; repeat split; congruence.
Qed.

Lemma X15_witness :
  clock.second (more.sample_start (samples.grype_row "a" 1700000100))
  <= clock.second (more.sample_start (samples.grype_row "a" 1700000200)).
Proof.
  apply (X15_query_selects_a_scan_of_the_last_second samples.table more.sample_start
           sample_table_started).
  - assert (E : testquery.latest_scan_query samples.table
                = [samples.grype_row "a" 1700000200; samples.clean_row "b" 1700000300])
      by (vm_compute; reflexivity).
    rewrite E. now left.
  - now left.
  - vm_compute. reflexivity.
  - vm_compute. reflexivity.
Defined.

